(** * kube-py: a shallow embedding of the manifest builders and of the
      cluster client, with the properties of its specification.

    The development follows the two modules of the package:
    [manifests.py] (builders that accumulate state and emit a typed
    manifest) and [kube.py] (the [KubeApi] facade: request wrappers, the
    streaming executor, scaling and the readiness loop).

    Python objects are records; a mutator [m(self, args)] is a function
    from the builder state to an outcome paired with the new state; a
    Python [dict] is an association list kept in insertion order, as
    [json.dumps] observes that order. *)

From Stdlib Require Import ZArith List String Ascii Bool Lia DecimalString.
Import ListNotations.

Local Open Scope list_scope.
Local Open Scope string_scope.

(** ** Python outcomes *)

(** The exceptions the modelled code raises or lets through. *)
Inductive exn : Type :=
| ApiException (status : Z)
| ValueError (msg : string)
| AttributeError (msg : string)
| KeyError (msg : string)
| IndexError (msg : string)
| TimeoutError (msg : string)
| Exception (msg : string).

Inductive res (A : Type) : Type :=
| Return (a : A)
| Raise (e : exn).

Arguments Return {A} a.
Arguments Raise {A} e.

(** ** Python values used by the code *)

Module Py.

(** [dict]: keys in insertion order; assigning an existing key keeps its
    position. *)
Definition dict (V : Type) : Type := list (string * V).

Fixpoint get {V : Type} (d : dict V) (k : string) : option V :=
  match d with
  | [] => None
  | (k', v) :: d' => if String.eqb k' k then Some v else get d' k
  end.

(** [d[k] = v] *)
Fixpoint set {V : Type} (d : dict V) (k : string) (v : V) : dict V :=
  match d with
  | [] => [(k, v)]
  | (k', v') :: d' =>
      if String.eqb k' k then (k', v) :: d' else (k', v') :: set d' k v
  end.

(** [d.pop(k, default)]: the value and the dict without the key. *)
Fixpoint remove {V : Type} (d : dict V) (k : string) : dict V :=
  match d with
  | [] => []
  | (k', v) :: d' => if String.eqb k' k then d' else (k', v) :: remove d' k
  end.

(** The dict with no entry under the key. *)
Definition discard {V : Type} (d : dict V) (k : string) : dict V :=
  filter (fun kv => negb (String.eqb (fst kv) k)) d.

Definition pop {V : Type} (d : dict V) (k : string) (default : V) : V * dict V :=
  match get d k with
  | Some v => (v, remove d k)
  | None => (default, d)
  end.

(** [d.setdefault(k, v)]: the value now stored under [k], and the dict. *)
Definition setdefault {V : Type} (d : dict V) (k : string) (v : V) : V * dict V :=
  match get d k with
  | Some v' => (v', d)
  | None => (v, set d k v)
  end.

(** Truth value of a container: empty is false. *)
Definition truthy {A : Type} (l : list A) : bool :=
  match l with [] => false | _ => true end.

(** Truth value of an argument that is [None] or text. *)
Definition truthy_str (o : option string) : bool :=
  match o with
  | None => false
  | Some s => negb (String.eqb s EmptyString)
  end.

(** Truth value of an attribute that is [None] or a container. *)
Definition truthy_opt {A : Type} (o : option (list A)) : bool :=
  match o with None => false | Some l => truthy l end.

(** [sep.join(l)] *)
Fixpoint join (sep : string) (l : list string) : string :=
  match l with
  | [] => EmptyString
  | [s] => s
  | s :: l' => s ++ sep ++ join sep l'
  end.

(** [s in allow] for a list of strings. *)
Definition str_in (s : string) (allow : list string) : bool :=
  existsb (String.eqb s) allow.

(** [str(n)] / [f'{n}'] for an integer. *)
Definition str_of_int (n : Z) : string :=
  NilZero.string_of_int (Z.to_int n).

Fixpoint rev_string (s : string) (acc : string) : string :=
  match s with
  | EmptyString => acc
  | String c s' => rev_string s' (String c acc)
  end.

End Py.

(** The double quote character, as a text. *)
Definition dquote : string := String (ascii_of_nat 34) EmptyString.

(** [s] occurs in [t] as a contiguous piece of text. *)
Definition contains (t s : string) : Prop :=
  exists pre post : string, t = (pre ++ s ++ post)%string.

(** ** base64 (RFC 4648, with padding), as [base64.b64encode] *)

Module Base64.

Definition alphabet : string :=
  "ABCDEFGHIJKLMNOPQRSTUVWXYZabcdefghijklmnopqrstuvwxyz0123456789+/".

Definition digit (n : N) : ascii :=
  match String.get (N.to_nat n) alphabet with
  | Some c => c
  | None => "="%char
  end.

Definition quad (n : N) (pad : nat) : string :=
  let c0 := digit (n / 262144) in
  let c1 := digit ((n / 4096) mod 64) in
  let c2 := digit ((n / 64) mod 64) in
  let c3 := digit (n mod 64) in
  match pad with
  | O => String c0 (String c1 (String c2 (String c3 EmptyString)))
  | S O => String c0 (String c1 (String c2 "="))
  | _ => String c0 (String c1 "==")
  end.

Fixpoint b64encode (s : string) : string :=
  match s with
  | EmptyString => EmptyString
  | String a EmptyString =>
      quad (N_of_ascii a * 65536) 2
  | String a (String b EmptyString) =>
      quad (N_of_ascii a * 65536 + N_of_ascii b * 256) 1
  | String a (String b (String c rest)) =>
      quad (N_of_ascii a * 65536 + N_of_ascii b * 256 + N_of_ascii c) 0
        ++ b64encode rest
  end.

End Base64.

(** ** [json.dumps] on the documents the builders serialize

    Default separators ([", "] and [": "]) and [ensure_ascii] escaping.
    A text is the UTF-8 bytes of the Python [str], the bytes that
    [v.encode()] hands to base64; [json.dumps] sees its code points: the
    two-character escapes, and [\uXXXX] for every other code point outside
    the printable ASCII range, as a surrogate pair above [U+FFFF]. *)

Module Json.

Definition hex_digit (n : nat) : ascii :=
  match String.get n "0123456789abcdef" with
  | Some c => c
  | None => "0"%char
  end.

(** An ASCII character. *)
Definition escape_char (c : ascii) : string :=
  let n := nat_of_ascii c in
  if Nat.eqb n 34 then String "\" (String c EmptyString)
  else if Nat.eqb n 92 then "\\"
  else if Nat.eqb n 10 then "\n"
  else if Nat.eqb n 13 then "\r"
  else if Nat.eqb n 9 then "\t"
  else if Nat.eqb n 8 then "\b"
  else if Nat.eqb n 12 then "\f"
  else if orb (Nat.ltb n 32) (Nat.eqb n 127) then
    "\u00" ++ String (hex_digit (n / 16)) (String (hex_digit (n mod 16)) EmptyString)
  else String c EmptyString.

(** [\uXXXX] for a 16-bit code unit. *)
Definition escape_unit (u : N) : string :=
  let h := fun k => hex_digit (N.to_nat ((u / k) mod 16)) in
  "\u" ++ String (h 4096%N) (String (h 256%N) (String (h 16%N) (String (h 1%N)
            EmptyString))).

(** A code point outside ASCII. *)
Definition escape_code_point (cp : N) : string :=
  if N.ltb cp 65536 then escape_unit cp
  else escape_unit (55296 + (cp - 65536) / 1024)
         ++ escape_unit (56320 + (cp - 65536) mod 1024).

(** The payload bits of a continuation byte. *)
Definition continuation (c : ascii) : N := N_of_ascii c mod 64.

(** The escaped text: a lead byte of [0xC0] and above opens a sequence of
    two, three or four bytes that encode one code point.  Bytes that are
    not the encoding of a [str] (a sequence cut short, a stray
    continuation byte) are handed on as they are. *)
Fixpoint escape (s : string) : string :=
  match s with
  | EmptyString => EmptyString
  | String a s1 =>
      let n := N_of_ascii a in
      if N.ltb n 192 then escape_char a ++ escape s1
      else
        match s1 with
        | EmptyString => String a EmptyString
        | String b s2 =>
            if N.ltb n 224 then
              escape_code_point ((n - 192) * 64 + continuation b) ++ escape s2
            else
              match s2 with
              | EmptyString => String a (String b EmptyString)
              | String c s3 =>
                  if N.ltb n 240 then
                    escape_code_point
                      ((n - 224) * 4096 + continuation b * 64 + continuation c)
                      ++ escape s3
                  else
                    match s3 with
                    | EmptyString => String a (String b (String c EmptyString))
                    | String d s4 =>
                        escape_code_point
                          ((n - 240) * 262144 + continuation b * 4096
                           + continuation c * 64 + continuation d)
                          ++ escape s4
                    end
              end
        end
  end.

Definition dumps_str (s : string) : string :=
  dquote ++ escape s ++ dquote.

(** An object whose member values are already rendered. *)
Definition dumps_members (d : Py.dict string) : string :=
  "{" ++ Py.join ", " (map (fun kv => dumps_str (fst kv) ++ ": " ++ snd kv) d)
      ++ "}".

(** [dumps] of a [dict[str, str]]. *)
Definition dumps_str_dict (d : Py.dict string) : string :=
  dumps_members (map (fun kv => (fst kv, dumps_str (snd kv))) d).

(** [dumps] of a [dict[str, dict[str, str]]]. *)
Definition dumps_dict_of_dicts (d : Py.dict (Py.dict string)) : string :=
  dumps_members (map (fun kv => (fst kv, dumps_str_dict (snd kv))) d).

End Json.

(** * manifests.py *)

(** ** The parts of [templates.py] the builders inherit *)

(** [client.V1ObjectMeta], as far as the builders fill it. *)
Record V1ObjectMeta : Type := {
  meta_name : string;
  meta_labels : option (Py.dict string);
  meta_annotations : option (Py.dict string)
}.

(** Modelled from the spec: [ObjectMetadata] of [templates.py] is not part
    of the sources at hand.  The spec's MetaMixin builds [metadata] (name,
    labels, annotations) and is constructed from the name. *)
Definition ObjectMetadata_init (name : string) : V1ObjectMeta :=
  {| meta_name := name; meta_labels := None; meta_annotations := None |}.

(** The argument of [V1Primitive.set]: text or bytes. *)
Inductive data_value : Type :=
| Text (s : string)
| Bytes (b : string).

(** Modelled from the spec: [V1Primitive] of [templates.py] is not part of
    the sources at hand.  The spec's PrimitiveDataMixin keeps [string_data],
    [binary_data] and the immutable mark; [set(key, value)] routes to
    [string_data] for textual values and to [binary_data] for bytes;
    [string_data] passes through verbatim while binary data is what a Secret
    emits, base64-encoded, as [data]; at most one of the two carries a
    given key, so storing a key on one side takes it off the other. *)
Record V1Primitive : Type := {
  _immutable : option bool;
  _string_data : Py.dict string;
  _binary_data : Py.dict string
}.

Definition V1Primitive_init : V1Primitive :=
  {| _immutable := None; _string_data := []; _binary_data := [] |}.

Definition V1Primitive_set (key : string) (value : data_value) (p : V1Primitive)
  : V1Primitive :=
  match value with
  | Text s =>
      {| _immutable := _immutable p;
         _string_data := Py.set (_string_data p) key s;
         _binary_data := Py.discard (_binary_data p) key |}
  | Bytes b =>
      {| _immutable := _immutable p;
         _string_data := Py.discard (_string_data p) key;
         _binary_data := Py.set (_binary_data p) key (Base64.b64encode b) |}
  end.

Definition V1Primitive_set_immutable (b : bool) (p : V1Primitive) : V1Primitive :=
  {| _immutable := Some b;
     _string_data := _string_data p;
     _binary_data := _binary_data p |}.

(** ** enums.py *)

Inductive SecretType : Type :=
| BasicAuth | BootstrapToken | DockerConfigJSON | DockerCfg | Helm
| Opaque | ServiceAccountToken | SshAuth | TLS.

Definition SecretType_value (t : SecretType) : string :=
  match t with
  | BasicAuth => "kubernetes.io/basic-auth"
  | BootstrapToken => "bootstrap.kubernetes.io/token"
  | DockerConfigJSON => "kubernetes.io/dockerconfigjson"
  | DockerCfg => "kubernetes.io/dockercfg"
  | Helm => "helm.sh/release.v1"
  | Opaque => "Opaque"
  | ServiceAccountToken => "kubernetes.io/service-account-token"
  | SshAuth => "kubernetes.io/ssh-auth"
  | TLS => "kubernetes.io/tls"
  end.

Inductive IngressRulePathType : Type :=
| ImplementationSpecific | Exact | Prefix.

Definition IngressRulePathType_value (t : IngressRulePathType) : string :=
  match t with
  | ImplementationSpecific => "ImplementationSpecific"
  | Exact => "Exact"
  | Prefix => "Prefix"
  end.

(** ** Secret, SecretImagePull *)

(** [client.V1Secret] *)
Record V1Secret : Type := {
  secret_api_version : option string;
  secret_kind : option string;
  secret_type : option string;
  secret_metadata : option V1ObjectMeta;
  secret_immutable : option bool;
  secret_string_data : option (Py.dict string);
  secret_data : option (Py.dict string)
}.

Module Secret.

(** The attributes of a [Secret] instance: [_metadata] from
    [ObjectMetadata], the [V1Primitive] attributes, and [_secret]. *)
Record state : Type := {
  _metadata : V1ObjectMeta;
  primitive : V1Primitive;
  _secret : V1Secret
}.

Definition init (name : string) (typ : SecretType) : state :=
  {| _metadata := ObjectMetadata_init name;
     primitive := V1Primitive_init;
     _secret := {| secret_api_version := Some "v1";
                   secret_kind := Some "Secret";
                   secret_type := Some (SecretType_value typ);
                   secret_metadata := None;
                   secret_immutable := None;
                   secret_string_data := None;
                   secret_data := None |} |}.

(** [base64.b64encode(v.encode()).decode()] *)
Definition to_base64 (v : string) : string := Base64.b64encode v.

(** The inherited [set]. *)
Definition set (key : string) (value : data_value) (s : state) : state :=
  {| _metadata := _metadata s;
     primitive := V1Primitive_set key value (primitive s);
     _secret := _secret s |}.

(** The [manifest] property.  [deepcopy(self._secret)] is the value
    [_secret s]; no attribute of [self] is assigned. *)
Definition manifest (s : state) : V1Secret :=
  let sec := _secret s in
  {| secret_api_version := secret_api_version sec;
     secret_kind := secret_kind sec;
     secret_type := secret_type sec;
     secret_metadata := Some (_metadata s);
     secret_immutable := _immutable (primitive s);
     secret_string_data :=
       if Py.truthy (_string_data (primitive s))
       then Some (_string_data (primitive s))
       else secret_string_data sec;
     secret_data :=
       if Py.truthy (_binary_data (primitive s))
       then Some (_binary_data (primitive s))
       else secret_data sec |}.

End Secret.

Module SecretImagePull.

(** A [Secret] of type [DockerConfigJSON] with the [_registries] dict. *)
Record state : Type := {
  secret : Secret.state;
  _registries : Py.dict (Py.dict string)
}.

Definition init (name : string) : state :=
  {| secret := Secret.init name DockerConfigJSON; _registries := [] |}.

Definition add_registry (registry username password email : string)
    (s : state) : state :=
  if Py.truthy_opt (Py.get (_registries s) registry) then s
  else
    {| secret := secret s;
       _registries :=
         Py.set (_registries s) registry
           [("username", username);
            ("password", password);
            ("email", email);
            ("auth", Secret.to_base64 (username ++ ":" ++ password))] |}.

(** The inherited [set]. *)
Definition set (key : string) (value : data_value) (s : state) : state :=
{| secret := Secret.set key value (secret s); _registries := _registries s |}.

(** [json.dumps({"auths": self._registries})] *)
Definition auth_document (s : state) : string :=
  Json.dumps_members [("auths", Json.dumps_dict_of_dicts (_registries s))].

(** The [manifest] property: it first stores the encoded document in the
    builder through [self.set], then emits as a [Secret] does.  The
    result is the manifest together with the builder left behind. *)
Definition manifest (s : state) : V1Secret * state :=
  let auth := auth_document s in
  let s' := set ".dockerconfigjson" (Text (Secret.to_base64 auth)) s in
  (Secret.manifest (secret s'), s').

End SecretImagePull.

(** ** Pod templates *)

Record Container : Type := {
  container_name : string;
  container_image : string
}.

(** [client.V1PodTemplateSpec], as far as this model fills it. *)
Record V1PodTemplateSpec : Type := {
  template_labels : option (Py.dict string);
  template_annotations : option (Py.dict string);
  template_containers : list Container
}.

(** Modelled from the spec: [PodTemplateSpec] of [templates.py] is not part
    of the sources at hand.  The spec's PodTemplateBuilder wraps a pod spec
    (one or more containers, the first given to the constructor) in a
    template with its own metadata, and its [manifest] is composed into the
    workload's [spec.template]. *)
Record PodTemplateSpec : Type := {
  pod_labels : option (Py.dict string);
  pod_annotations : option (Py.dict string);
  pod_containers : list Container
}.

Definition PodTemplateSpec_init (c : Container) : PodTemplateSpec :=
  {| pod_labels := None; pod_annotations := None; pod_containers := [c] |}.

Definition PodTemplateSpec_manifest (t : PodTemplateSpec) : V1PodTemplateSpec :=
  {| template_labels := pod_labels t;
     template_annotations := pod_annotations t;
     template_containers := pod_containers t |}.

(** ** Label selectors *)

(** [client.V1LabelSelectorRequirement] *)
Record V1LabelSelectorRequirement : Type := {
  req_key : string;
  req_operator : string;
  req_values : list string
}.

(** [client.V1LabelSelector].  Besides the two attributes of the class, an
    instance can carry the attribute [match_expression] (singular) that
    [add_selector_match_expressions] assigns: [None] here means that the
    instance has no such attribute. *)
Record V1LabelSelector : Type := {
  match_labels : option (Py.dict string);
  match_expressions : option (list V1LabelSelectorRequirement);
  match_expression : option (list V1LabelSelectorRequirement)
}.

Definition V1LabelSelector_init : V1LabelSelector :=
  {| match_labels := None; match_expressions := None; match_expression := None |}.

Definition with_match_labels (l : option (Py.dict string)) (s : V1LabelSelector)
  : V1LabelSelector :=
  {| match_labels := l;
     match_expressions := match_expressions s;
     match_expression := match_expression s |}.

Definition with_match_expression (l : option (list V1LabelSelectorRequirement))
    (s : V1LabelSelector) : V1LabelSelector :=
  {| match_labels := match_labels s;
     match_expressions := match_expressions s;
     match_expression := l |}.

(** [e.key == key and e.operator == operator] for some [e] of the list. *)
Definition has_requirement (key operator : string)
    (l : list V1LabelSelectorRequirement) : bool :=
  existsb (fun e => andb (String.eqb (req_key e) key)
                         (String.eqb (req_operator e) operator)) l.

Definition allowed_operators : list string :=
  ["In"; "NotIn"; "Exists"; "DoesNotExist"].

Definition invalid_operator_message (operator : string) : string :=
  "Invalid operator value `" ++ operator ++ "`. Can be one of `"
    ++ Py.join ", " allowed_operators ++ "`".

(** The body shared, word for word, by
    [Deployment.add_selector_match_expressions] and
    [StatefulSet.add_selector_match_expressions], on the selector of the
    workload: the outcome and the selector left behind. *)
Definition selector_add_match_expressions (key operator : string)
    (values : list string) (sel : V1LabelSelector) : res unit * V1LabelSelector :=
  if negb (Py.str_in operator allowed_operators) then
    (Raise (ValueError (invalid_operator_message operator)), sel)
  else
    let append (sel1 : V1LabelSelector) :=
      match match_expression sel1 with
      | None =>
          (Raise (AttributeError
                    "'V1LabelSelector' object has no attribute 'match_expression'"),
           sel1)
      | Some l =>
          (Return tt,
           with_match_expression
             (Some (l ++ [{| req_key := key; req_operator := operator;
                             req_values := values |}])%list) sel1)
      end in
    if Py.truthy_opt (match_expressions sel) then
      match match_expressions sel with
      | Some l => if has_requirement key operator l then (Return tt, sel)
                  else append sel
      | None => append sel
      end
    else append (with_match_expression (Some []) sel).

(** ** Deployment *)

Record V1DeploymentSpec : Type := {
  deploy_replicas : option Z;
  deploy_selector : option V1LabelSelector;
  deploy_template : V1PodTemplateSpec
}.

Record V1Deployment : Type := {
  deploy_api_version : option string;
  deploy_kind : option string;
  deploy_metadata : option V1ObjectMeta;
  deploy_spec : V1DeploymentSpec
}.

Definition V1PodTemplateSpec_init : V1PodTemplateSpec :=
  {| template_labels := None; template_annotations := None;
     template_containers := [] |}.

Module Deployment.

Record state : Type := {
  _metadata : V1ObjectMeta;
  template : PodTemplateSpec;
  _deploy : V1Deployment
}.

Definition init (name : string) (c : Container) : state :=
  {| _metadata := ObjectMetadata_init name;
     template := PodTemplateSpec_init c;
     _deploy := {| deploy_api_version := None;
                   deploy_kind := None;
                   deploy_metadata := None;
                   deploy_spec :=
                     {| deploy_replicas := None;
                        deploy_selector := Some V1LabelSelector_init;
                        deploy_template := V1PodTemplateSpec_init |} |} |}.

Definition with_spec (sp : V1DeploymentSpec) (s : state) : state :=
  {| _metadata := _metadata s; template := template s;
     _deploy := {| deploy_api_version := deploy_api_version (_deploy s);
                   deploy_kind := deploy_kind (_deploy s);
                   deploy_metadata := deploy_metadata (_deploy s);
                   deploy_spec := sp |} |}.

Definition with_selector (sel : V1LabelSelector) (s : state) : state :=
  let sp := deploy_spec (_deploy s) in
  with_spec {| deploy_replicas := deploy_replicas sp;
               deploy_selector := Some sel;
               deploy_template := deploy_template sp |} s.

(** Reading an attribute of [spec.selector] when it is [None]. *)
Definition no_selector : exn :=
  AttributeError "'NoneType' object has no attribute".

(** [o.spec.selector = None] goes through the setter of
    [client.V1DeploymentSpec], which refuses [None]. *)
Definition selector_required : exn :=
  ValueError "Invalid value for `selector`, must not be `None`".

(** The [manifest] property: the selector with neither member set is
    assigned [None], which the setter refuses. *)
Definition manifest (s : state) : res V1Deployment :=
  let o := _deploy s in
  match deploy_selector (deploy_spec o) with
  | None => Raise no_selector
  | Some sel =>
      match match_expressions sel, match_labels sel with
      | None, None => Raise selector_required
      | _, _ =>
          Return
            {| deploy_api_version := deploy_api_version o;
               deploy_kind := deploy_kind o;
               deploy_metadata := Some (_metadata s);
               deploy_spec :=
                 {| deploy_replicas := deploy_replicas (deploy_spec o);
                    deploy_selector := Some sel;
                    deploy_template := PodTemplateSpec_manifest (template s) |} |}
      end
  end.

Definition set_replicas (n : Z) (s : state) : state :=
  let sp := deploy_spec (_deploy s) in
  with_spec {| deploy_replicas := Some n;
               deploy_selector := deploy_selector sp;
               deploy_template := deploy_template sp |} s.

(** The keyword arguments are text already, so that [dict_str] keeps
    them. *)
Definition set_selector_match_labels (kwargs : Py.dict string) (s : state)
  : res unit * state :=
  match deploy_selector (deploy_spec (_deploy s)) with
  | None => (Raise no_selector, s)
  | Some sel => (Return tt, with_selector (with_match_labels (Some kwargs) sel) s)
  end.

Definition add_selector_match_expressions (key operator : string)
    (values : list string) (s : state) : res unit * state :=
  match deploy_selector (deploy_spec (_deploy s)) with
  | None =>
      if negb (Py.str_in operator allowed_operators)
      then (Raise (ValueError (invalid_operator_message operator)), s)
      else (Raise no_selector, s)
  | Some sel0 =>
      let (r, sel) := selector_add_match_expressions key operator values sel0 in
      (r, with_selector sel s)
  end.

Definition with_metadata (m : option V1ObjectMeta) (s : state) : state :=
  {| _metadata := _metadata s; template := template s;
     _deploy := {| deploy_api_version := deploy_api_version (_deploy s);
                   deploy_kind := deploy_kind (_deploy s);
                   deploy_metadata := m;
                   deploy_spec := deploy_spec (_deploy s) |} |}.

(** [self._deploy.metadata.annotations = ...]: an assignment to an
    attribute of [self._deploy.metadata], which is [None] unless something
    stored a metadata object there. *)
Definition set_annotations (kwargs : Py.dict string) (s : state)
  : res unit * state :=
  match deploy_metadata (_deploy s) with
  | None =>
      (Raise (AttributeError "'NoneType' object has no attribute 'annotations'"), s)
  | Some m =>
      (Return tt,
       with_metadata (Some {| meta_name := meta_name m;
                              meta_labels := meta_labels m;
                              meta_annotations := Some kwargs |}) s)
  end.

Definition set_labels (kwargs : Py.dict string) (s : state) : res unit * state :=
  match deploy_metadata (_deploy s) with
  | None =>
      (Raise (AttributeError "'NoneType' object has no attribute 'labels'"), s)
  | Some m =>
      (Return tt,
       with_metadata (Some {| meta_name := meta_name m;
                              meta_labels := Some kwargs;
                              meta_annotations := meta_annotations m |}) s)
  end.

(** The [selector_match_labels] property:
    [self._deploy.spec.selector.match_labels.copy()]. *)
Definition selector_match_labels (s : state) : res (Py.dict string) :=
  match deploy_selector (deploy_spec (_deploy s)) with
  | None => Raise no_selector
  | Some sel =>
      match match_labels sel with
      | None => Raise (AttributeError "'NoneType' object has no attribute 'copy'")
      | Some l => Return l
      end
  end.


End Deployment.

(** ** StatefulSet *)

Record V1StatefulSetSpec : Type := {
  sts_service_name : string;
  sts_replicas : option Z;
  sts_selector : V1LabelSelector;
  sts_template : V1PodTemplateSpec
}.

Record V1StatefulSet : Type := {
  sts_api_version : option string;
  sts_kind : option string;
  sts_metadata : option V1ObjectMeta;
  sts_spec : V1StatefulSetSpec
}.

Module StatefulSet.

Record state : Type := {
  _metadata : V1ObjectMeta;
  template : PodTemplateSpec;
  _sts : V1StatefulSet
}.

Definition init (name : string) (c : Container) : state :=
  {| _metadata := ObjectMetadata_init name;
     template := PodTemplateSpec_init c;
     _sts := {| sts_api_version := Some "v1";
                sts_kind := Some "StatefulSet";
                sts_metadata := None;
                sts_spec := {| sts_service_name := EmptyString;
                               sts_replicas := None;
                               sts_selector := V1LabelSelector_init;
                               sts_template := V1PodTemplateSpec_init |} |} |}.

Definition with_spec (sp : V1StatefulSetSpec) (s : state) : state :=
  {| _metadata := _metadata s; template := template s;
     _sts := {| sts_api_version := sts_api_version (_sts s);
                sts_kind := sts_kind (_sts s);
                sts_metadata := sts_metadata (_sts s);
                sts_spec := sp |} |}.

Definition with_selector (sel : V1LabelSelector) (s : state) : state :=
  let sp := sts_spec (_sts s) in
  with_spec {| sts_service_name := sts_service_name sp;
               sts_replicas := sts_replicas sp;
               sts_selector := sel;
               sts_template := sts_template sp |} s.

Definition manifest (s : state) : res V1StatefulSet :=
  let o := _sts s in
  if String.eqb (sts_service_name (sts_spec o)) EmptyString then
    Raise (ValueError "Invalid value for `service_name`, must not be empty")
  else
    match match_expressions (sts_selector (sts_spec o)),
          match_labels (sts_selector (sts_spec o)) with
    | None, None =>
        Raise (ValueError "Invalid value for `selector`, must not be empty")
    | _, _ =>
        Return {| sts_api_version := sts_api_version o;
                  sts_kind := sts_kind o;
                  sts_metadata := Some (_metadata s);
                  sts_spec :=
                    {| sts_service_name := sts_service_name (sts_spec o);
                       sts_replicas := sts_replicas (sts_spec o);
                       sts_selector := sts_selector (sts_spec o);
                       sts_template := PodTemplateSpec_manifest (template s) |} |}
    end.

Definition set_service_name (name : string) (s : state) : state :=
  let sp := sts_spec (_sts s) in
  with_spec {| sts_service_name := name;
               sts_replicas := sts_replicas sp;
               sts_selector := sts_selector sp;
               sts_template := sts_template sp |} s.

Definition set_replicas (n : Z) (s : state) : state :=
  let sp := sts_spec (_sts s) in
  with_spec {| sts_service_name := sts_service_name sp;
               sts_replicas := Some n;
               sts_selector := sts_selector sp;
               sts_template := sts_template sp |} s.

(** The keyword arguments are text already, so that [dict_str] keeps
    them. *)
Definition set_selector_match_labels (kwargs : Py.dict string) (s : state)
  : state :=
  with_selector (with_match_labels (Some kwargs)
                   (sts_selector (sts_spec (_sts s)))) s.

Definition add_selector_match_expressions (key operator : string)
    (values : list string) (s : state) : res unit * state :=
  let (r, sel) := selector_add_match_expressions key operator values
                    (sts_selector (sts_spec (_sts s))) in
  (r, with_selector sel s).

Definition with_metadata (m : option V1ObjectMeta) (s : state) : state :=
  {| _metadata := _metadata s; template := template s;
     _sts := {| sts_api_version := sts_api_version (_sts s);
                sts_kind := sts_kind (_sts s);
                sts_metadata := m;
                sts_spec := sts_spec (_sts s) |} |}.

(** [self._sts.metadata.annotations = ...], with [self._sts.metadata]
    [None] unless something stored a metadata object there. *)
Definition set_annotations (kwargs : Py.dict string) (s : state)
  : res unit * state :=
  match sts_metadata (_sts s) with
  | None =>
      (Raise (AttributeError "'NoneType' object has no attribute 'annotations'"), s)
  | Some m =>
      (Return tt,
       with_metadata (Some {| meta_name := meta_name m;
                              meta_labels := meta_labels m;
                              meta_annotations := Some kwargs |}) s)
  end.

Definition set_labels (kwargs : Py.dict string) (s : state) : res unit * state :=
  match sts_metadata (_sts s) with
  | None =>
      (Raise (AttributeError "'NoneType' object has no attribute 'labels'"), s)
  | Some m =>
      (Return tt,
       with_metadata (Some {| meta_name := meta_name m;
                              meta_labels := Some kwargs;
                              meta_annotations := meta_annotations m |}) s)
  end.


End StatefulSet.

(** ** Ingress *)

(** [client.V1TypedLocalObjectReference] *)
Record V1TypedLocalObjectReference : Type := {
  ref_api_group : option string;
  ref_kind : string;
  ref_name : string
}.

(** A service port given as [int] or as [str]. *)
Inductive port_value : Type :=
| PortInt (n : Z)
| PortStr (s : string).

(** [client.V1ServiceBackendPort] *)
Record V1ServiceBackendPort : Type := {
  port_name : option string;
  port_number : option Z
}.

(** [client.V1IngressBackend], with [client.V1IngressServiceBackend]
    unfolded into a pair. *)
Record V1IngressBackend : Type := {
  backend_resource : option V1TypedLocalObjectReference;
  backend_service : option (string * V1ServiceBackendPort)
}.

(** [client.V1HTTPIngressPath] *)
Record V1HTTPIngressPath : Type := {
  path_backend : V1IngressBackend;
  path_path : string;
  path_type : string
}.

(** [client.V1IngressRule], with [http.paths] as [rule_paths]. *)
Record V1IngressRule : Type := {
  rule_host : string;
  rule_paths : list V1HTTPIngressPath
}.

(** [client.V1IngressTLS] *)
Record V1IngressTLS : Type := {
  tls_hosts : list string;
  tls_secret_name : option string
}.

Record V1IngressSpec : Type := {
  default_backend : option V1IngressBackend;
  ingress_class_name : option string;
  rules : option (list V1IngressRule);
  tls : option (list V1IngressTLS)
}.

Module Ingress.

(** [self._ing] has constant [api_version] and [kind]; its [spec] is the
    part the mutators change. *)
Record state : Type := {
  _metadata : V1ObjectMeta;
  spec : V1IngressSpec
}.

Definition init (name : string) : state :=
  {| _metadata := ObjectMetadata_init name;
     spec := {| default_backend := None; ingress_class_name := None;
                rules := None; tls := None |} |}.

Definition with_rules (rs : option (list V1IngressRule)) (s : state) : state :=
  {| _metadata := _metadata s;
     spec := {| default_backend := default_backend (spec s);
                ingress_class_name := ingress_class_name (spec s);
                rules := rs;
                tls := tls (spec s) |} |}.

Definition with_tls (t : option (list V1IngressTLS)) (s : state) : state :=
  {| _metadata := _metadata s;
     spec := {| default_backend := default_backend (spec s);
                ingress_class_name := ingress_class_name (spec s);
                rules := rules (spec s);
                tls := t |} |}.

(** Truth value of a port argument. *)
Definition truthy_port (o : option port_value) : bool :=
  match o with
  | None => false
  | Some (PortInt n) => negb (Z.eqb n 0)
  | Some (PortStr s) => negb (String.eqb s EmptyString)
  end.

Definition _ingress_backend (service_name : option string)
    (service_port : option port_value)
    (ref : option V1TypedLocalObjectReference) : res V1IngressBackend :=
  if andb (negb (Py.truthy_str service_name))
          (match ref with None => true | Some _ => false end) then
    Raise (ValueError "Required service_name and port or object reference")
  else if andb (Py.truthy_str service_name) (negb (truthy_port service_port)) then
    Raise (ValueError "Required both arguments service_name and port")
  else
    match ref with
    | Some r =>
        Return {| backend_resource := Some r; backend_service := None |}
    | None =>
        let port_def :=
          match service_port with
          | Some (PortInt n) => {| port_name := None; port_number := Some n |}
          | Some (PortStr p) => {| port_name := Some p; port_number := None |}
          | None => {| port_name := None; port_number := None |}
          end in
        match service_name with
        | Some n =>
            Return {| backend_resource := None;
                      backend_service := Some (n, port_def) |}
        | None => Raise (ValueError "Required service_name and port or object reference")
        end
    end.

(** [p.path == path] for some [p] of the list. *)
Definition has_path (path : string) (ps : list V1HTTPIngressPath) : bool :=
  existsb (fun p => String.eqb (path_path p) path) ps.

(** The [for i, rule in enumerate(rules)] loop of [add_rule]: [Some] is
    the list at the [return] inside the loop, [None] says the loop ran to
    its end without meeting the host. *)
Fixpoint add_path_under_host (host path : string) (bp : V1HTTPIngressPath)
    (rs : list V1IngressRule) : option (list V1IngressRule) :=
  match rs with
  | [] => None
  | rule :: rs' =>
      if String.eqb (rule_host rule) host then
        if has_path path (rule_paths rule) then Some rs
        else Some ({| rule_host := rule_host rule;
                      rule_paths := (rule_paths rule ++ [bp])%list |} :: rs')
      else option_map (cons rule) (add_path_under_host host path bp rs')
  end.

Definition add_rule (host path : string) (path_type : IngressRulePathType)
    (service_name : option string) (service_port : option port_value)
    (ref : option V1TypedLocalObjectReference) (s : state) : res unit * state :=
  match _ingress_backend service_name service_port ref with
  | Raise e => (Raise e, s)
  | Return backend =>
      let backend_path :=
        {| path_backend := backend; path_path := path;
           path_type := IngressRulePathType_value path_type |} in
      let rs := match rules (spec s) with None => [] | Some rs => rs end in
      match add_path_under_host host path backend_path rs with
      | Some rs' => (Return tt, with_rules (Some rs') s)
      | None =>
          (Return tt,
           with_rules
             (Some (rs ++ [{| rule_host := host;
                              rule_paths := [backend_path] |}])%list) s)
      end
  end.

Definition secret_name_eqb (a b : option string) : bool :=
  match a, b with
  | None, None => true
  | Some x, Some y => String.eqb x y
  | _, _ => false
  end.

Definition add_tls (hosts : list string) (secret_name : option string)
    (s : state) : state :=
  let entry := {| tls_hosts := hosts; tls_secret_name := secret_name |} in
  if Py.truthy_opt (tls (spec s)) then
    match tls (spec s) with
    | Some l =>
        if existsb (fun t => secret_name_eqb secret_name (tls_secret_name t)) l
        then s
        else with_tls (Some (l ++ [entry])%list) s
    | None => with_tls (Some [entry]) s
    end
  else with_tls (Some [entry]) s.

(** [set_default_backend]: the backend is computed first, so a rejected
    argument set leaves the builder as it is. *)
Definition set_default_backend (service_name : option string)
    (service_port : option port_value)
    (ref : option V1TypedLocalObjectReference) (s : state) : res unit * state :=
  match _ingress_backend service_name service_port ref with
  | Raise e => (Raise e, s)
  | Return backend =>
      (Return tt,
       {| _metadata := _metadata s;
          spec := {| default_backend := Some backend;
                     ingress_class_name := ingress_class_name (spec s);
                     rules := rules (spec s);
                     tls := tls (spec s) |} |})
  end.

Definition set_ingress_class_name (name : string) (s : state) : state :=
  {| _metadata := _metadata s;
     spec := {| default_backend := default_backend (spec s);
                ingress_class_name := Some name;
                rules := rules (spec s);
                tls := tls (spec s) |} |}.


End Ingress.

(** * kube.py *)

(** ** Keyword arguments, the facade and the log *)

(** The values passed as positional or keyword arguments to API calls. *)
Inductive kwval : Type :=
| KNone
| KBool (b : bool)
| KInt (n : Z)
| KStr (s : string)
| KList (l : list string)
| KScaleBody (replicas : Z).   (* {"spec": {"replicas": N}} *)

Definition kw_truthy (v : kwval) : bool :=
  match v with
  | KNone => false
  | KBool b => b
  | KInt n => negb (Z.eqb n 0)
  | KStr s => negb (String.eqb s EmptyString)
  | KList l => Py.truthy l
  | KScaleBody _ => true
  end.

Definition kwargs : Type := Py.dict kwval.

(** [typing.NamedTuple] with [group], [version], [plural]. *)
Record CustomObjectDef : Type := {
  group : string;
  version : string;
  plural : string
}.

(** A [KubeApi] instance: the default namespace is all the modelled
    methods read from it. *)
Record KubeApi : Type := { _ns : string }.

Inductive log_level : Type := DEBUG | INFO | ERROR.

Inductive log_payload : Type :=
| LogResponse                 (* 'Kubernetes API Response: %s' *)
| LogException (e : exn)
| LogText (msg : string).

Definition log_record : Type := (log_level * log_payload)%type.

(** A bound method of the generated client: positional arguments and
    keyword arguments in, a typed object or an exception out. *)
Definition api_func (A : Type) : Type := list kwval -> kwargs -> res A.

(** ** The request wrappers *)

(** The call [_wrapper] makes: the positional arguments and the keyword
    arguments left after [namespace] was popped. *)
Definition _wrapper_call (self : KubeApi) (obj_name : string) (namespaced : bool)
    (custom_object_def : option CustomObjectDef) (kw : kwargs)
  : list kwval * kwargs :=
  let (ns, kw') := Py.pop kw "namespace" (KStr (_ns self)) in
  match custom_object_def with
  | Some c =>
      ([KStr (group c); KStr (version c); ns; KStr (plural c); KStr obj_name], kw')
  | None =>
      if namespaced then ([KStr obj_name; ns], kw')
      else ([KStr obj_name], kw')
  end.

(** [_wrapper]: the outcome ([None] is Python's [None]) and what was
    logged. *)
Definition _wrapper {A : Type} (self : KubeApi) (func : api_func A)
    (obj_name : string) (check_err : bool) (namespaced : bool)
    (custom_object_def : option CustomObjectDef) (kw : kwargs)
  : res (option A) * list log_record :=
  let (args, kw') := _wrapper_call self obj_name namespaced custom_object_def kw in
  match func args kw' with
  | Return resp => (Return (Some resp), [(DEBUG, LogResponse)])
  | Raise (ApiException status) =>
      if Z.eqb status 404 then
        (Return None, [(DEBUG, LogException (ApiException status))])
      else if check_err then (Raise (ApiException status), [])
      else (Return None, [(ERROR, LogException (ApiException status))])
  | Raise e => (Raise e, [])
  end.

(** The call [_wrapper_create] makes; [obj] is the manifest, which the
    callee receives as it is. *)
Definition _wrapper_create_call (self : KubeApi) (obj : kwval) (namespaced : bool)
    (kw : kwargs) : list kwval * kwargs :=
  let (ns, kw') := Py.pop kw "namespace" (KStr (_ns self)) in
  if namespaced then ([ns; obj], kw') else ([obj], kw').

Definition _wrapper_create {A : Type} (self : KubeApi) (func : api_func A)
    (obj : kwval) (check_err : bool) (namespaced : bool) (kw : kwargs)
  : res (option A) * list log_record :=
  let (args, kw') := _wrapper_create_call self obj namespaced kw in
  match func args kw' with
  | Return resp => (Return (Some resp), [(DEBUG, LogResponse)])
  | Raise (ApiException status) =>
      if Z.eqb status 409 then
        (Return None, [(DEBUG, LogException (ApiException status))])
      else if check_err then (Raise (ApiException status), [])
      else (Return None, [(ERROR, LogException (ApiException status))])
  | Raise e => (Raise e, [])
  end.

(** ** Writers *)

Definition newline : ascii := ascii_of_nat 10.

(** [s.rstrip("\n")] *)
Fixpoint lstrip_newlines (s : string) : string :=
  match s with
  | String c s' => if Ascii.eqb c newline then lstrip_newlines s' else s
  | EmptyString => EmptyString
  end.

Definition rstrip_newlines (s : string) : string :=
  Py.rev_string (lstrip_newlines (Py.rev_string s EmptyString)) EmptyString.

(** [s.split("\n")]: [cur] is the piece being read, reversed. *)
Fixpoint split_lines_from (s : string) (cur : string) : list string :=
  match s with
  | EmptyString => [Py.rev_string cur EmptyString]
  | String c s' =>
      if Ascii.eqb c newline
      then Py.rev_string cur EmptyString :: split_lines_from s' EmptyString
      else split_lines_from s' (String c cur)
  end.

Definition split_lines (s : string) : list string :=
  split_lines_from s EmptyString.

(** The three [Writer] classes, each with what it has received so far:
    the list a [ResponseDataCollector] is, the records a [Logger] passed to
    its logging function, the text written to the file of a
    [FileWriter] and whether it was closed. *)
Inductive Writer : Type :=
| ResponseDataCollector (lines : list string)
| Logger (level : log_level) (records : list string)
| FileWriter (content : string) (closed : bool).

Definition write (w : Writer) (data : string) : res Writer :=
  match w with
  | ResponseDataCollector l =>
      Return (ResponseDataCollector (l ++ split_lines (rstrip_newlines data))%list)
  | Logger lvl rs => Return (Logger lvl (rs ++ [data])%list)
  | FileWriter c closed =>
      if closed then Raise (ValueError "I/O operation on closed file.")
      else Return (FileWriter (c ++ data) false)
  end.

Definition close (w : Writer) : Writer :=
  match w with
  | FileWriter c _ => FileWriter c true
  | _ => w
  end.

(** ** The exec stream *)

(** The document read from the error channel once [yaml.safe_load] parsed
    it: [status], and the [message] of each of [details.causes] when the
    document has them. *)
Record status_document : Type := {
  status : string;
  causes : option (list string)
}.

(** What one [r.update(timeout=1)] makes available on the two output
    channels. *)
Record frame : Type := {
  on_stdout : string;
  on_stderr : string
}.

(** The channel as the executor sees it: open as long as frames are to
    come, then the error channel is read. *)
Record WSClient : Type := {
  frames : list frame;
  error_channel : status_document
}.

(** The request handed to [stream]. *)
Record exec_request : Type := {
  exec_pod_name : string;
  exec_namespace : kwval;
  exec_kwargs : kwargs
}.

(** The [while r.is_open()] loop. *)
Fixpoint drain (fs : list frame) (stdout stderr : Writer)
  : res unit * (Writer * Writer) :=
  match fs with
  | [] => (Return tt, (stdout, stderr))
  | f :: fs' =>
      let after_out :=
        if String.eqb (on_stdout f) EmptyString then Return stdout
        else write stdout (on_stdout f) in
      match after_out with
      | Raise e => (Raise e, (stdout, stderr))
      | Return stdout' =>
          let after_err :=
            if String.eqb (on_stderr f) EmptyString then Return stderr
            else write stderr (on_stderr f) in
          match after_err with
          | Raise e => (Raise e, (stdout', stderr))
          | Return stderr' => drain fs' stdout' stderr'
          end
      end
  end.

(** What [kubernetes.stream.stream] returns: the open channel for a call
    made with [_preload_content=False]; for any other call the library
    reads the channel to its end itself and returns the output, a [str]. *)
Inductive stream_result : Type :=
| Channel (r : WSClient)
| Preloaded (output : string).

(** [f'command "{cmd}" ended with status code: {_code}'] *)
Definition exec_failure_message (command : list string) (code : Z) : string :=
  "command " ++ dquote ++ Py.join " " command ++ dquote
    ++ " ended with status code: " ++ Py.str_of_int code.

(** ** Pods and readiness *)

(** [client.V1Pod], as far as [is_pod_ready] reads it: an entry of
    [container_statuses] is a status with its [ready] flag, or [None]. *)
Record V1Pod : Type := {
  deletion_timestamp : option string;
  container_statuses : option (list (option bool))
}.

Definition is_pod_ready (pod : V1Pod) : bool :=
  let statuses := match container_statuses pod with
                  | Some l => l
                  | None => []
                  end in
  andb (match deletion_timestamp pod with None => true | Some _ => false end)
       (forallb (fun s => match s with Some ready => ready | None => false end)
                statuses).

(** [dict_to_labels] *)
Definition dict_to_labels (data : Py.dict string) : string :=
  Py.join "," (map (fun kv => fst kv ++ "=" ++ snd kv) data).

(** What the scaling calls read of the object a patch returns. *)
Record workload : Type := {
  kind : option string;
  workload_template_labels : Py.dict string
}.

(** What a waiting call does besides returning: it sleeps and it logs. *)
Inductive event : Type :=
| Slept (seconds : Z)
| Logged (msg : string).

Fixpoint seconds_slept (tr : list event) : Z :=
  match tr with
  | [] => 0
  | Slept d :: tr' => d + seconds_slept tr'
  | Logged _ :: tr' => seconds_slept tr'
  end.

Fixpoint ticks (tr : list event) : list Z :=
  match tr with
  | [] => []
  | Slept d :: tr' => d :: ticks tr'
  | Logged _ :: tr' => ticks tr'
  end.

(** [time.sleep] *)
Definition sleep (seconds : Z) : res unit :=
  if Z.ltb seconds 0 then Raise (ValueError "sleep length must be non-negative")
  else Return tt.

Definition lower_char (c : ascii) : ascii :=
  let n := nat_of_ascii c in
  if andb (Nat.leb 65 n) (Nat.leb n 90) then ascii_of_nat (n + 32) else c.

(** [s.lower()] on ASCII text. *)
Fixpoint lower (s : string) : string :=
  match s with
  | EmptyString => EmptyString
  | String c s' => String (lower_char c) (lower s')
  end.

Section Cluster.

(** The cluster behind the facade: [stream] is the library's exec call
    for a request, and [pod_list field_selector label_selector i] is the
    list the [i]-th listing made by a waiting call returns.  [int] is
    Python's [int] on a [str]: the number, or the exception it raises. *)
Variable stream : exec_request -> res stream_result.
Variable int : string -> res Z.
Variable pod_list : string -> string -> nat -> list V1Pod.

(** [int(err['details']['causes'][0]['message'])] *)
Definition exit_code (err : status_document) : res Z :=
  match causes err with
  | None => Raise (KeyError "details")
  | Some [] => Raise (IndexError "list index out of range")
  | Some (m :: _) => int m
  end.

(** The keyword arguments, the request and the preload flag that [_exec]
    computes before it opens the stream. *)
Definition _exec_request (self : KubeApi) (pod_name : string)
    (command : list string) (kw : kwargs) : exec_request * kwval :=
  let kw := snd (Py.setdefault kw "stdout" (KBool true)) in
  let kw := snd (Py.setdefault kw "stderr" (KBool true)) in
  let kw := snd (Py.setdefault kw "async_req" (KBool false)) in
  let kw := snd (Py.setdefault kw "stdin" (KBool false)) in
  let kw := snd (Py.setdefault kw "tty" (KBool false)) in
  let (_preload_content, kw) := Py.setdefault kw "_preload_content" (KBool false) in
  let kw := Py.set kw "command" (KList command) in
  let (ns, kw) := Py.pop kw "namespace" (KStr (_ns self)) in
  ({| exec_pod_name := pod_name;
      exec_namespace := KStr (_ns self);
      exec_kwargs := kw |}, _preload_content).

(** [_exec]: the outcome, and the two sinks as the call leaves them.
    [Return None] is the plain end of the function.  When [stream] hands
    back a [str], the first [r.is_open()] raises. *)
Definition _exec (self : KubeApi) (pod_name : string) (command : list string)
    (stdout stderr : Writer) (kw : kwargs)
  : res (option (Writer * Writer * status_document)) * (Writer * Writer) :=
  let (request, _preload_content) := _exec_request self pod_name command kw in
  match stream request with
  | Raise e => (Raise e, (stdout, stderr))
  | Return (Preloaded _) =>
      (Raise (AttributeError "'str' object has no attribute 'is_open'"),
       (stdout, stderr))
  | Return (Channel r) =>
      match drain (frames r) stdout stderr with
      | (Raise e, sinks) => (Raise e, sinks)
      | (Return _, (out, errs)) =>
          let err := error_channel r in
          if kw_truthy _preload_content then
            (Return (Some (out, errs, err)), (out, errs))
          else if negb (String.eqb (status err) "Success") then
            match exit_code err with
            | Raise e => (Raise e, (out, errs))
            | Return _code =>
                (Raise (Exception (exec_failure_message command _code)),
                 (out, errs))
            end
          else (Return None, (out, errs))
      end
  end.

Definition run_command (self : KubeApi) (pod_name : string)
    (command : list string) (container : option string) (kw : kwargs)
  : res (option (Writer * Writer * status_document)) * (Writer * Writer) :=
  let kw := if Py.truthy_str container
            then match container with
                 | Some c => Py.set kw "container" (KStr c)
                 | None => kw
                 end
            else kw in
  let _preload_content :=
    match Py.get kw "_preload_content" with
    | Some v => v
    | None => KBool false
    end in
  if kw_truthy _preload_content then
    _exec self pod_name command
      (ResponseDataCollector []) (ResponseDataCollector []) kw
  else
    _exec self pod_name command (Logger INFO []) (Logger ERROR []) kw.

(** [copy_file_from_pod]: the outcome and the file writer at the end,
    closed by the [finally] clause. *)
Definition copy_file_from_pod (self : KubeApi) (name remote_path : string)
    (kw : kwargs) : res unit * Writer :=
  let cmd := ["/bin/sh"; "-c"; "cat " ++ remote_path] in
  let f := FileWriter EmptyString false in
  match _exec self name cmd f (Logger ERROR []) kw with
  | (Raise e, (f', _)) => (Raise e, close f')
  | (Return _, (f', _)) => (Return tt, close f')
  end.

(** The [while 1] loop of [wait_pods], bounded by [fuel] iterations:
    [None] says the fuel ran out.  [i] numbers the listing. *)
Fixpoint wait_loop (fuel : nat) (label_selector info_msg : string)
    (delay timeout : Z) (i : nat) : option (res unit * list event) :=
  match fuel with
  | O => None
  | S fuel' =>
      let items := pod_list "status.phase!=Succeeded" label_selector i in
      if negb (Py.truthy items) then Some (Return tt, [])
      else if forallb is_pod_ready items then Some (Return tt, [])
      else if Z.leb timeout 0 then
        Some (Raise (TimeoutError "Wait for scaling: timeout reached!"), [])
      else
        match sleep delay with
        | Raise e => Some (Raise e, [Logged info_msg])
        | Return _ =>
            match wait_loop fuel' label_selector info_msg delay
                    (timeout - delay) (S i) with
            | None => None
            | Some (r, tr) => Some (r, Logged info_msg :: Slept delay :: tr)
            end
        end
  end.

Definition wait_pods (fuel : nat) (label_selector msg : string)
    (delay timeout start_delay : Z) : option (res unit * list event) :=
  let info_msg :=
    "wait " ++ (if String.eqb msg EmptyString then "scaling" else msg) ++ " ..." in
  match sleep start_delay with
  | Raise e => Some (Raise e, [Logged info_msg])
  | Return _ =>
      match wait_loop fuel label_selector info_msg delay timeout 0 with
      | None => None
      | Some (r, tr) => Some (r, Logged info_msg :: Slept start_delay :: tr)
      end
  end.

(** [_scale]: [None] says that the wait ran out of fuel. *)
Definition _scale (fuel : nat) (self : KubeApi) (func : api_func workload)
    (name : string) (replicas : Z) (wait : bool) (kw : kwargs)
  : option (res workload * list log_record) :=
  let kw := Py.set kw "body" (KScaleBody replicas) in
  match _wrapper self func name true true None kw with
  | (Raise e, logs) => Some (Raise e, logs)
  | (Return None, logs) =>
      Some (Raise (AttributeError "'NoneType' object has no attribute 'kind'"),
            logs)
  | (Return (Some resp), logs) =>
      match kind resp with
      | None =>
          Some (Raise (AttributeError
                         "'NoneType' object has no attribute 'lower'"), logs)
      | Some k =>
          let msg := lower k ++ ".apps/" ++ name ++ " scaled to "
                       ++ Py.str_of_int replicas ++ " replicas" in
          let logs := (logs ++ [(INFO, LogText msg)])%list in
          if wait then
            let labels := dict_to_labels (workload_template_labels resp) in
            match wait_pods fuel labels msg 3 120 3 with
            | None => None
            | Some (Raise e, _) => Some (Raise e, logs)
            | Some (Return _, _) => Some (Return resp, logs)
            end
          else Some (Return resp, logs)
      end
  end.

(** The generated client's two patch calls. *)
Variable patch_namespaced_deployment : api_func workload.
Variable patch_namespaced_stateful_set : api_func workload.

Definition scale_deployment (fuel : nat) (self : KubeApi) (name : string)
    (replicas : Z) (wait : bool) (kw : kwargs)
  : option (res workload * list log_record) :=
  _scale fuel self patch_namespaced_deployment name replicas wait kw.

Definition scale_stateful_set (fuel : nat) (self : KubeApi) (name : string)
    (replicas : Z) (wait : bool) (kw : kwargs)
  : option (res workload * list log_record) :=
  _scale fuel self patch_namespaced_stateful_set name replicas wait kw.

End Cluster.

(** * Further code of manifests.py *)

(** ** Builders reached through the mutators *)

(** The Deployment builders a program can hold: a fresh one, and what the
    mutators leave, whether they return or raise. *)
Inductive deployment_reachable : Deployment.state -> Prop :=
| deployment_fresh (name : string) (c : Container) :
    deployment_reachable (Deployment.init name c)
| deployment_after_set_replicas (n : Z) (s : Deployment.state) :
    deployment_reachable s -> deployment_reachable (Deployment.set_replicas n s)
| deployment_after_set_selector_match_labels (kw : Py.dict string)
    (s : Deployment.state) :
    deployment_reachable s ->
    deployment_reachable (snd (Deployment.set_selector_match_labels kw s))
| deployment_after_add_selector_match_expressions (key operator : string)
    (values : list string) (s : Deployment.state) :
    deployment_reachable s ->
    deployment_reachable
      (snd (Deployment.add_selector_match_expressions key operator values s))
| deployment_after_set_annotations (kw : Py.dict string) (s : Deployment.state) :
    deployment_reachable s ->
    deployment_reachable (snd (Deployment.set_annotations kw s))
| deployment_after_set_labels (kw : Py.dict string) (s : Deployment.state) :
    deployment_reachable s ->
    deployment_reachable (snd (Deployment.set_labels kw s)).

(** The same for StatefulSet builders. *)
Inductive statefulset_reachable : StatefulSet.state -> Prop :=
| statefulset_fresh (name : string) (c : Container) :
    statefulset_reachable (StatefulSet.init name c)
| statefulset_after_set_service_name (name : string) (s : StatefulSet.state) :
    statefulset_reachable s ->
    statefulset_reachable (StatefulSet.set_service_name name s)
| statefulset_after_set_replicas (n : Z) (s : StatefulSet.state) :
    statefulset_reachable s -> statefulset_reachable (StatefulSet.set_replicas n s)
| statefulset_after_set_selector_match_labels (kw : Py.dict string)
    (s : StatefulSet.state) :
    statefulset_reachable s ->
    statefulset_reachable (StatefulSet.set_selector_match_labels kw s)
| statefulset_after_add_selector_match_expressions (key operator : string)
    (values : list string) (s : StatefulSet.state) :
    statefulset_reachable s ->
    statefulset_reachable
      (snd (StatefulSet.add_selector_match_expressions key operator values s))
| statefulset_after_set_annotations (kw : Py.dict string) (s : StatefulSet.state) :
    statefulset_reachable s ->
    statefulset_reachable (snd (StatefulSet.set_annotations kw s))
| statefulset_after_set_labels (kw : Py.dict string) (s : StatefulSet.state) :
    statefulset_reachable s ->
    statefulset_reachable (snd (StatefulSet.set_labels kw s)).

(** ** Service *)

Inductive ServiceType : Type :=
| ClusterIP | LoadBalancer | NodePort | ExternalName.

Definition ServiceType_value (t : ServiceType) : string :=
  match t with
  | ClusterIP => "ClusterIP"
  | LoadBalancer => "LoadBalancer"
  | NodePort => "NodePort"
  | ExternalName => "ExternalName"
  end.

(** [client.V1ServicePort] *)
Record V1ServicePort : Type := {
  service_port_name : string;
  service_port_port : Z;
  service_port_target_port : port_value;
  service_port_protocol : option string;
  service_port_node_port : option Z;
  service_port_app_protocol : option string
}.

Record V1ServiceSpec : Type := {
  service_selector : option (Py.dict string);
  service_type : option string;
  service_ports : option (list V1ServicePort)
}.

Record V1Service : Type := {
  service_api_version : option string;
  service_kind : option string;
  service_metadata : option V1ObjectMeta;
  service_spec : V1ServiceSpec
}.

Module Service.

Record state : Type := {
  _metadata : V1ObjectMeta;
  _svc : V1Service
}.

Definition init (name : string) : state :=
  {| _metadata := ObjectMetadata_init name;
     _svc := {| service_api_version := Some "v1";
                service_kind := Some "Service";
                service_metadata := None;
                service_spec := {| service_selector := None;
                                   service_type := None;
                                   service_ports := None |} |} |}.

Definition with_spec (sp : V1ServiceSpec) (s : state) : state :=
  {| _metadata := _metadata s;
     _svc := {| service_api_version := service_api_version (_svc s);
                service_kind := service_kind (_svc s);
                service_metadata := service_metadata (_svc s);
                service_spec := sp |} |}.

Definition manifest (s : state) : V1Service :=
  {| service_api_version := service_api_version (_svc s);
     service_kind := service_kind (_svc s);
     service_metadata := Some (_metadata s);
     service_spec := service_spec (_svc s) |}.

Definition set_selector (kwargs : Py.dict string) (s : state) : state :=
  with_spec {| service_selector := Some kwargs;
               service_type := service_type (service_spec (_svc s));
               service_ports := service_ports (service_spec (_svc s)) |} s.

Definition set_type (t : ServiceType) (s : state) : state :=
  with_spec {| service_selector := service_selector (service_spec (_svc s));
               service_type := Some (ServiceType_value t);
               service_ports := service_ports (service_spec (_svc s)) |} s.

Definition with_ports (ps : list V1ServicePort) (s : state) : state :=
  with_spec {| service_selector := service_selector (service_spec (_svc s));
               service_type := service_type (service_spec (_svc s));
               service_ports := Some ps |} s.

Definition has_port (name : string) (ps : list V1ServicePort) : bool :=
  existsb (fun p => String.eqb (service_port_name p) name) ps.

Definition add_port (name : string) (port : Z) (target_port_or_name : port_value)
    (proto : option string) (node_port : option Z) (app_protocol : option string)
    (s : state) : state :=
  let entry := {| service_port_name := name;
                  service_port_port := port;
                  service_port_target_port := target_port_or_name;
                  service_port_protocol := proto;
                  service_port_node_port := node_port;
                  service_port_app_protocol := app_protocol |} in
  if Py.truthy_opt (service_ports (service_spec (_svc s))) then
    match service_ports (service_spec (_svc s)) with
    | Some ps => if has_port name ps then s
                 else with_ports (ps ++ [entry])%list s
    | None => with_ports [entry] s
    end
  else with_ports [entry] s.

End Service.

(** ** Job *)

Record V1JobSpec : Type := {
  job_backoff_limit : option Z;
  job_ttl_seconds_after_finished : option Z;
  job_parallelism : option Z;
  job_template : V1PodTemplateSpec
}.

(** [client.V1Job].  Its attributes are [api_version], [kind], [metadata],
    [spec] (and [status]); the two further fields are the instance
    attributes [ttl_seconds_after_finished] and [parallelism] that the
    setters of the builder assign on the job object itself, [None] when
    the instance has no such attribute. *)
Record V1Job : Type := {
  job_api_version : option string;
  job_kind : option string;
  job_metadata : option V1ObjectMeta;
  job_spec : V1JobSpec;
  job_object_ttl_seconds_after_finished : option Z;
  job_object_parallelism : option Z
}.

Module Job.

Record state : Type := {
  _metadata : V1ObjectMeta;
  template : PodTemplateSpec;
  _job : V1Job
}.

Definition init (name : string) (c : Container) : state :=
  {| _metadata := ObjectMetadata_init name;
     template := PodTemplateSpec_init c;
     _job := {| job_api_version := Some "batch/v1";
                job_kind := Some "Job";
                job_metadata := None;
                job_spec := {| job_backoff_limit := None;
                               job_ttl_seconds_after_finished := None;
                               job_parallelism := None;
                               job_template := V1PodTemplateSpec_init |};
                job_object_ttl_seconds_after_finished := None;
                job_object_parallelism := None |} |}.

Definition with_job (j : V1Job) (s : state) : state :=
  {| _metadata := _metadata s; template := template s; _job := j |}.

Definition manifest (s : state) : V1Job :=
  let o := _job s in
  {| job_api_version := job_api_version o;
     job_kind := job_kind o;
     job_metadata := Some (_metadata s);
     job_spec := {| job_backoff_limit := job_backoff_limit (job_spec o);
                    job_ttl_seconds_after_finished :=
                      job_ttl_seconds_after_finished (job_spec o);
                    job_parallelism := job_parallelism (job_spec o);
                    job_template := PodTemplateSpec_manifest (template s) |};
     job_object_ttl_seconds_after_finished :=
       job_object_ttl_seconds_after_finished o;
     job_object_parallelism := job_object_parallelism o |}.

(** [self._job.spec.backoff_limit = n] *)
Definition set_backoff_limit (n : Z) (s : state) : state :=
  let o := _job s in
  with_job {| job_api_version := job_api_version o;
              job_kind := job_kind o;
              job_metadata := job_metadata o;
              job_spec := {| job_backoff_limit := Some n;
                             job_ttl_seconds_after_finished :=
                               job_ttl_seconds_after_finished (job_spec o);
                             job_parallelism := job_parallelism (job_spec o);
                             job_template := job_template (job_spec o) |};
              job_object_ttl_seconds_after_finished :=
                job_object_ttl_seconds_after_finished o;
              job_object_parallelism := job_object_parallelism o |} s.

(** [self._job.ttl_seconds_after_finished = n] *)
Definition set_ttl_seconds_after_finished (n : Z) (s : state) : state :=
  let o := _job s in
  with_job {| job_api_version := job_api_version o;
              job_kind := job_kind o;
              job_metadata := job_metadata o;
              job_spec := job_spec o;
              job_object_ttl_seconds_after_finished := Some n;
              job_object_parallelism := job_object_parallelism o |} s.

(** [self._job.parallelism = n] *)
Definition set_parallelism (n : Z) (s : state) : state :=
  let o := _job s in
  with_job {| job_api_version := job_api_version o;
              job_kind := job_kind o;
              job_metadata := job_metadata o;
              job_spec := job_spec o;
              job_object_ttl_seconds_after_finished :=
                job_object_ttl_seconds_after_finished o;
              job_object_parallelism := Some n |} s.

End Job.

(** The calls a program makes on a Job builder. *)
Inductive job_call : Type :=
| CallSetBackoffLimit (n : Z)
| CallSetTtl (n : Z)
| CallSetParallelism (n : Z).

Definition job_apply (s : Job.state) (c : job_call) : Job.state :=
  match c with
  | CallSetBackoffLimit n => Job.set_backoff_limit n s
  | CallSetTtl n => Job.set_ttl_seconds_after_finished n s
  | CallSetParallelism n => Job.set_parallelism n s
  end.

(** ** PersistentVolumeClaim *)

Inductive PVCAccessMode : Type :=
| ReadWriteOnce | ReadWriteMany | ReadOnlyMany.

Definition PVCAccessMode_value (m : PVCAccessMode) : string :=
  match m with
  | ReadWriteOnce => "ReadWriteOnce"
  | ReadWriteMany => "ReadWriteMany"
  | ReadOnlyMany => "ReadOnlyMany"
  end.

Module MatchExprOperator.

Inductive t : Type := In | NotIn | Exists | DoesNotExist.

Definition value (o : t) : string :=
  match o with
  | In => "In"
  | NotIn => "NotIn"
  | Exists => "Exists"
  | DoesNotExist => "DoesNotExist"
  end.

End MatchExprOperator.

Inductive VolumeModes : Type := Filesystem | Block.

Definition VolumeModes_value (m : VolumeModes) : string :=
  match m with
  | Filesystem => "Filesystem"
  | Block => "Block"
  end.

Record V1PersistentVolumeClaimSpec : Type := {
  pvc_access_modes : list string;
  pvc_selector : option V1LabelSelector;
  pvc_storage_class_name : option string;
  pvc_volume_mode : option string;
  pvc_volume_name : option string;
  pvc_requests : option (Py.dict string);
  pvc_limits : option (Py.dict string)
}.

Record V1PersistentVolumeClaim : Type := {
  pvc_api_version : option string;
  pvc_kind : option string;
  pvc_metadata : option V1ObjectMeta;
  pvc_spec : V1PersistentVolumeClaimSpec
}.

Module PersistentVolumeClaim.

(** [self._pvc] has constant [api_version] and [kind] and no metadata of
    its own; its [spec] is the part the mutators change. *)
Record state : Type := {
  _metadata : V1ObjectMeta;
  spec : V1PersistentVolumeClaimSpec
}.

Definition init (name : string) : state :=
  {| _metadata := ObjectMetadata_init name;
     spec := {| pvc_access_modes := [];
                pvc_selector := None;
                pvc_storage_class_name := None;
                pvc_volume_mode := None;
                pvc_volume_name := None;
                pvc_requests := None;
                pvc_limits := None |} |}.

Definition manifest (s : state) : V1PersistentVolumeClaim :=
  {| pvc_api_version := Some "v1";
     pvc_kind := Some "PersistentVolumeClaim";
     pvc_metadata := Some (_metadata s);
     pvc_spec := spec s |}.

Definition with_selector (sel : option V1LabelSelector) (s : state) : state :=
  {| _metadata := _metadata s;
     spec := {| pvc_access_modes := pvc_access_modes (spec s);
                pvc_selector := sel;
                pvc_storage_class_name := pvc_storage_class_name (spec s);
                pvc_volume_mode := pvc_volume_mode (spec s);
                pvc_volume_name := pvc_volume_name (spec s);
                pvc_requests := pvc_requests (spec s);
                pvc_limits := pvc_limits (spec s) |} |}.

Definition set_access_modes (args : list PVCAccessMode) (s : state) : state :=
  {| _metadata := _metadata s;
     spec := {| pvc_access_modes := map PVCAccessMode_value args;
                pvc_selector := pvc_selector (spec s);
                pvc_storage_class_name := pvc_storage_class_name (spec s);
                pvc_volume_mode := pvc_volume_mode (spec s);
                pvc_volume_name := pvc_volume_name (spec s);
                pvc_requests := pvc_requests (spec s);
                pvc_limits := pvc_limits (spec s) |} |}.

(** The selector after [_check_selector]. *)
Definition checked_selector (s : state) : V1LabelSelector :=
  match pvc_selector (spec s) with
  | Some sel => sel
  | None => V1LabelSelector_init
  end.

Definition _check_selector (s : state) : state :=
  with_selector (Some (checked_selector s)) s.

(** [add_selector_match_expressions(key, operator, *values)].  A
    requirement built without values has [values] [None]; as the method
    sets [values] only from a non-empty tuple, [None] is written [[]]
    here. *)
Definition add_selector_match_expressions (key : string)
    (operator : MatchExprOperator.t) (values : list string) (s : state) : state :=
  let sel := checked_selector s in
  let current := if Py.truthy_opt (match_expressions sel)
                 then match match_expressions sel with
                      | Some l => l
                      | None => []
                      end
                 else [] in
  let select := {| req_key := key;
                   req_operator := MatchExprOperator.value operator;
                   req_values := values |} in
  with_selector
    (Some {| match_labels := match_labels sel;
             match_expressions := Some (current ++ [select])%list;
             match_expression := match_expression sel |}) s.

Definition set_match_labels (kwargs : Py.dict string) (s : state) : state :=
  with_selector (Some (with_match_labels (Some kwargs) (checked_selector s))) s.

End PersistentVolumeClaim.

(** * Further code of kube.py *)

(** ** PodStatus, JobStatus *)

Module PodStatus.

(** [__int__] *)
Definition int (status : string) : Z :=
  if Py.str_in status ["Running"; "Succeeded"] then 0%Z
  else if Py.str_in status ["Failed"] then 1%Z
  else 255%Z.

Definition is_running (status : string) : bool := String.eqb status "Running".
Definition is_failed (status : string) : bool := String.eqb status "Failed".
Definition is_succeeded (status : string) : bool := String.eqb status "Succeeded".

End PodStatus.

(** [client.V1JobStatus], the three counters. *)
Record V1JobStatus : Type := {
  active : option Z;
  succeeded_count : option Z;
  failed_count : option Z
}.

Module JobStatus.

Definition is_one (n : option Z) : bool :=
  match n with
  | Some k => Z.eqb k 1
  | None => false
  end.

(** [__init__]: the status text passed on to [PodStatus]. *)
Definition init (status : V1JobStatus) : string :=
  if is_one (active status) then "Running"
  else if is_one (succeeded_count status) then "Succeeded"
  else if is_one (failed_count status) then "Failed"
  else "Unknown".

End JobStatus.

(** ** base64 decoding, as [base64.b64decode] with its default
    [validate=False]: [binascii.a2b_base64] skips characters outside the
    alphabet, stops at a completed pad sequence and fails ([None] for
    [binascii.Error]) when the data characters do not fill a quad. *)

Module Base64Decode.

Fixpoint index_of (c : ascii) (s : string) (i : N) : option N :=
  match s with
  | EmptyString => None
  | String c' s' => if Ascii.eqb c' c then Some i else index_of c s' (i + 1)%N
  end.

Definition value_of (c : ascii) : option N := index_of c Base64.alphabet 0%N.

Definition push (n : N) (rest : option string) : option string :=
  option_map (String (ascii_of_N n)) rest.

Fixpoint a2b_base64 (s : string) (quad_pos : nat) (leftchar : N) (pads : nat)
  : option string :=
  match s with
  | EmptyString =>
      match quad_pos with
      | O => Some EmptyString
      | _ => None
      end
  | String c s' =>
      if Ascii.eqb c "="%char then
        if Nat.leb 2 quad_pos then
          if Nat.leb 4 (quad_pos + S pads) then Some EmptyString
          else a2b_base64 s' quad_pos leftchar (S pads)
        else a2b_base64 s' quad_pos leftchar pads
      else
        match value_of c with
        | None => a2b_base64 s' quad_pos leftchar pads
        | Some this_ch =>
            match quad_pos with
            | 0%nat => a2b_base64 s' 1 this_ch 0
            | 1%nat => push (leftchar * 4 + this_ch / 16)
                         (a2b_base64 s' 2 (this_ch mod 16) 0)
            | 2%nat => push (leftchar * 16 + this_ch / 4)
                         (a2b_base64 s' 3 (this_ch mod 4) 0)
            | _ => push (leftchar * 64 + this_ch) (a2b_base64 s' 0 0%N 0)
            end
        end
  end.

Definition b64decode (s : string) : option string := a2b_base64 s 0 0%N 0.

End Base64Decode.

(** ** The per-kind methods of the facade

    Each takes the bound method of the generated client it wraps as its
    first argument, under the client's name for it. *)


Section Facade.

Variable A : Type.













Definition custom_object_get
    (get_cluster_custom_object get_namespaced_custom_object : api_func A)
    (self : KubeApi) (name : string) (co : CustomObjectDef)
    (namespaced check_err : bool) (kw : kwargs) :=
  let func := if namespaced then get_namespaced_custom_object
              else get_cluster_custom_object in
  _wrapper self func name check_err namespaced (Some co) kw.

(** The [*_get] methods; [check_err] defaults to [True]. *)
Definition configmap_get (read_namespaced_config_map : api_func A)
    (self : KubeApi) (name : string) (check_err : bool) (kw : kwargs) :=
  _wrapper self read_namespaced_config_map name check_err true None kw.

Definition pod_get (read_namespaced_pod : api_func A)
    (self : KubeApi) (name : string) (check_err : bool) (kw : kwargs) :=
  _wrapper self read_namespaced_pod name check_err true None kw.

Definition secret_get (read_namespaced_secret : api_func A)
    (self : KubeApi) (name : string) (check_err : bool) (kw : kwargs) :=
  _wrapper self read_namespaced_secret name check_err true None kw.

Definition deployment_get (read_namespaced_deployment : api_func A)
    (self : KubeApi) (name : string) (check_err : bool) (kw : kwargs) :=
  _wrapper self read_namespaced_deployment name check_err true None kw.

(** [namespace_get] has no [check_err] parameter: it passes [False]. *)
Definition namespace_get (read_namespace : api_func A)
    (self : KubeApi) (name : string) (kw : kwargs) :=
  _wrapper self read_namespace name false false None kw.

(** The [*_create] methods; [check_err] defaults to [True], except for
    [namespace_create], where it defaults to [False]. *)
Definition pod_create (create_namespaced_pod : api_func A)
    (self : KubeApi) (pod : kwval) (check_err : bool) (kw : kwargs) :=
  _wrapper_create self create_namespaced_pod pod check_err true kw.

Definition deployment_create (create_namespaced_deployment : api_func A)
    (self : KubeApi) (deploy : kwval) (check_err : bool) (kw : kwargs) :=
  _wrapper_create self create_namespaced_deployment deploy check_err true kw.

Definition namespace_create (create_namespace : api_func A)
    (self : KubeApi) (ns : kwval) (check_err : bool) (kw : kwargs) :=
  _wrapper_create self create_namespace ns check_err false kw.

(** The [*_list] methods that pop [namespace]:
    [ns = kwargs.pop('namespace', self._ns)], then the call with [ns]. *)
Definition pod_list (list_namespaced_pod : api_func A)
    (self : KubeApi) (kw : kwargs) : res A :=
  let (ns, kw') := Py.pop kw "namespace" (KStr (_ns self)) in
  list_namespaced_pod [ns] kw'.

Definition configmap_list (list_namespaced_config_map : api_func A)
    (self : KubeApi) (kw : kwargs) : res A :=
  let (ns, kw') := Py.pop kw "namespace" (KStr (_ns self)) in
  list_namespaced_config_map [ns] kw'.

Definition stateful_set_list (list_namespaced_stateful_set : api_func A)
    (self : KubeApi) (kw : kwargs) : res A :=
  let (ns, kw') := Py.pop kw "namespace" (KStr (_ns self)) in
  list_namespaced_stateful_set [ns] kw'.

(** [deployment_list]:
    [self.apps_v1.list_namespaced_deployment(self._ns, **kwargs)]. *)
Definition deployment_list (list_namespaced_deployment : api_func A)
    (self : KubeApi) (kw : kwargs) : res A :=
  list_namespaced_deployment [KStr (_ns self)] kw.

(** [namespace_list] *)
Definition namespace_list (list_namespace : api_func A)
    (self : KubeApi) (kw : kwargs) : res A :=
  list_namespace [] kw.

(** [custom_object_list] *)
Definition custom_object_list
    (list_namespaced_custom_object list_cluster_custom_object : api_func A)
    (self : KubeApi) (co : CustomObjectDef) (namespaced : bool) (kw : kwargs)
  : res A :=
  if namespaced then
    let (ns, kw') := Py.pop kw "namespace" (KStr (_ns self)) in
    list_namespaced_custom_object
      [KStr (group co); KStr (version co); ns; KStr (plural co)] kw'
  else
    list_cluster_custom_object
      [KStr (group co); KStr (version co); KStr (plural co)] kw.

End Facade.

(** ** read_configmap, read_secret, get_logs *)

(** [client.V1ConfigMap], as far as [read_configmap] reads it. *)
Record V1ConfigMap : Type := {
  configmap_data : option (Py.dict string);
  configmap_binary_data : option (Py.dict string)
}.

(** [namespace=namespace] with the parameter's default [None]. *)
Definition namespace_kwarg (namespace : option string) : kwargs :=
  [("namespace", match namespace with
                 | Some ns => KStr ns
                 | None => KNone
                 end)].

(** [read_configmap]: [None] when the ConfigMap is not found, else its
    [data], which may be [None] as well. *)
Definition read_configmap (read_namespaced_config_map : api_func V1ConfigMap)
    (self : KubeApi) (name : string) (namespace : option string)
  : res (option (Py.dict string)) :=
  match fst (configmap_get V1ConfigMap read_namespaced_config_map self name true
               (namespace_kwarg namespace)) with
  | Raise e => Raise e
  | Return None => Return None
  | Return (Some cm) => Return (configmap_data cm)
  end.

(** [(item[0], base64.b64decode(item[1]).decode())] over the items; texts
    are their UTF-8 bytes here, so that [decode()] keeps them. *)
Fixpoint decode_items (d : Py.dict string) : option (Py.dict string) :=
  match d with
  | [] => Some []
  | (k, v) :: d' =>
      match Base64Decode.b64decode v, decode_items d' with
      | Some text, Some rest => Some ((k, text) :: rest)
      | _, _ => None
      end
  end.

Definition read_secret (read_namespaced_secret : api_func V1Secret)
    (self : KubeApi) (name : string) (namespace : option string)
  : res (option (Py.dict string)) :=
  match fst (secret_get V1Secret read_namespaced_secret self name true
               (namespace_kwarg namespace)) with
  | Raise e => Raise e
  | Return None => Return None
  | Return (Some sec) =>
      match secret_data sec with
      | None => Raise (AttributeError "'NoneType' object has no attribute 'items'")
      | Some d =>
          match decode_items d with
          | Some texts => Return (Some texts)
          | None => Raise (ValueError "binascii.Error")
          end
      end
  end.





(** ** scale_down_all *)

(** An item of a workload listing: its name and [spec.replicas]. *)
Record workload_item : Type := {
  item_name : string;
  item_replicas : option Z
}.

Definition truthy_replicas (n : option Z) : bool :=
  match n with
  | Some k => negb (Z.eqb k 0)
  | None => false
  end.

(** One of the two [for item in ...items] loops: [scale name] is the
    scaling call; an exception ends the loop. *)
Fixpoint scale_each (scale : string -> option (res workload * list log_record))
    (items : list workload_item) : option (res unit * list log_record) :=
  match items with
  | [] => Some (Return tt, [])
  | item :: rest =>
      if truthy_replicas (item_replicas item) then
        match scale (item_name item) with
        | None => None
        | Some (Raise e, logs) => Some (Raise e, logs)
        | Some (Return _, logs) =>
            match scale_each scale rest with
            | None => None
            | Some (r, logs') => Some (r, (logs ++ logs')%list)
            end
        end
      else scale_each scale rest
  end.

Definition scale_down_all
    (list_namespaced_deployment list_namespaced_stateful_set
       : api_func (list workload_item))
    (pods : string -> string -> nat -> list V1Pod)
    (patch_namespaced_deployment patch_namespaced_stateful_set : api_func workload)
    (fuel : nat) (self : KubeApi) : option (res unit * list log_record) :=
  match deployment_list _ list_namespaced_deployment self [] with
  | Raise e => Some (Raise e, [])
  | Return deployments =>
      match scale_each
              (fun name => scale_deployment pods patch_namespaced_deployment
                             fuel self name 0 false [])
              deployments with
      | None => None
      | Some (Raise e, logs) => Some (Raise e, logs)
      | Some (Return _, logs) =>
          match stateful_set_list _ list_namespaced_stateful_set self [] with
          | Raise e => Some (Raise e, logs)
          | Return stateful_sets =>
              match scale_each
                      (fun name => scale_stateful_set pods
                                     patch_namespaced_stateful_set
                                     fuel self name 0 false [])
                      stateful_sets with
              | None => None
              | Some (r, logs') => Some (r, (logs ++ logs')%list)
              end
          end
      end
  end.

(** * Notions used by the further properties *)

(** The names of the ports a Service builder holds, in order. *)
Definition service_port_names (s : Service.state) : list string :=
  match service_ports (service_spec (Service._svc s)) with
  | Some ps => map service_port_name ps
  | None => []
  end.

(** The rules an Ingress builder holds. *)
Definition ingress_rules (s : Ingress.state) : list V1IngressRule :=
  match rules (Ingress.spec s) with
  | Some rs => rs
  | None => []
  end.

(** No host twice among the rules, no path twice under a host. *)
Definition rules_keyed (rs : list V1IngressRule) : Prop :=
  NoDup (map rule_host rs)
  /\ Forall (fun r => NoDup (map path_path (rule_paths r))) rs.

(** The secret names of the TLS entries an Ingress builder holds. *)
Definition ingress_tls_names (s : Ingress.state) : list (option string) :=
  match tls (Ingress.spec s) with
  | Some l => map tls_secret_name l
  | None => []
  end.

(** Whether an outcome is a raised [ValueError]. *)
Definition raises_value_error {A : Type} (r : res A) : bool :=
  match r with
  | Raise (ValueError _) => true
  | _ => false
  end.

(** The requirements a PVC builder holds. *)
Definition pvc_expressions (s : PersistentVolumeClaim.state)
  : list V1LabelSelectorRequirement :=
  match pvc_selector (PersistentVolumeClaim.spec s) with
  | Some sel =>
      match match_expressions sel with
      | Some l => l
      | None => []
      end
  | None => []
  end.

(** The calls a program makes to add requirements to a PVC selector. *)
Definition pvc_requirement_call : Type :=
  (string * MatchExprOperator.t * list string)%type.

Definition pvc_add (s : PersistentVolumeClaim.state) (c : pvc_requirement_call)
  : PersistentVolumeClaim.state :=
  let '(key, operator, values) := c in
  PersistentVolumeClaim.add_selector_match_expressions key operator values s.

Definition pvc_requirement (c : pvc_requirement_call) : V1LabelSelectorRequirement :=
  let '(key, operator, values) := c in
  {| req_key := key;
     req_operator := MatchExprOperator.value operator;
     req_values := values |}.


(** Whether a text holds a newline. *)
Fixpoint has_newline (s : string) : bool :=
  match s with
  | EmptyString => false
  | String c s' => orb (Ascii.eqb c newline) (has_newline s')
  end.


Definition creds_secret : V1Secret :=
  Secret.manifest (Secret.set "password" (Bytes "s3cret") (Secret.init "creds" Opaque)).

(** A cluster that knows the object in the default namespace only. *)
Definition only_in_default {A : Type} (obj : A) : api_func A :=
  fun args _ =>
    match args with
    | [_; KStr "default"] => Return obj
    | _ => Raise (ApiException 404)
    end.

(** The non-empty chunks a stream delivers on a channel, in order. *)
Definition delivered (channel : frame -> string) (fs : list frame) : list string :=
  filter (fun t => negb (String.eqb t EmptyString)) (map channel fs).

(** The chunks of a list, one after the other. *)
Definition text_of (chunks : list string) : string :=
  fold_right append EmptyString chunks.


(** * Scenarios and auxiliary notions *)

Definition scenario_c : SecretImagePull.state :=
  SecretImagePull.add_registry "r.io" "u" "p" "e@x" (SecretImagePull.init "reg").

Definition web : Container :=
  {| container_name := "app"; container_image := "nginx:1.27" |}.

Definition one_rule : Ingress.state :=
  snd (Ingress.add_rule "a.io" "/" Prefix (Some "web") (Some (PortInt 80)) None
         (Ingress.init "front")).

Definition default_api : KubeApi := {| _ns := "default" |}.

(** A text between double quotes. *)
Definition quoted (s : string) : string := dquote ++ s ++ dquote.

(** The text of the given UTF-8 bytes. *)
Definition utf8 (bytes : list nat) : string :=
  fold_right (fun b s => String (ascii_of_nat b) s) EmptyString bytes.

Definition succeeded : status_document :=
  {| status := "Success"; causes := None |}.

(** Whether [kubernetes.stream.stream] preloads for a request: it reads
    [kwargs.get('_preload_content', True)]. *)
Definition preloads (request : exec_request) : bool :=
  kw_truthy (match Py.get (exec_kwargs request) "_preload_content" with
             | Some v => v
             | None => KBool true
             end).

(** A stream call that answers as the library does: with a channel only
    for a request that does not preload, with text only for one that
    does. *)
Definition answers_as_library (stream : exec_request -> res stream_result) : Prop :=
  forall (request : exec_request) (x : stream_result),
    stream request = Return x ->
    match x with
    | Channel _ => preloads request = false
    | Preloaded _ => preloads request = true
    end.

(** The library in front of a pod whose exec channel is [r]: the channel
    for a request that does not preload, and otherwise all that the
    channel delivers, as text. *)
Definition serving (r : WSClient) (request : exec_request) : res stream_result :=
  if preloads request
  then Return (Preloaded (text_of (flat_map (fun f => [on_stdout f; on_stderr f])
                                     (frames r))))
  else Return (Channel r).

(** A cluster in which the pod exists in the namespace [other] only. *)
Definition pod_in_other_namespace (request : exec_request) : res stream_result :=
  match exec_namespace request with
  | KStr "other" => serving {| frames := []; error_channel := succeeded |} request
  | _ => Raise (ApiException 404)
  end.

(** [int] on the cause messages of the scenarios, which are decimal
    numerals. *)
Definition numeral (m : string) : res Z :=
  match m, NilZero.uint_of_string m with
  | String _ _, Some u => Return (Z.of_uint u)
  | _, _ => Raise (ValueError ("invalid literal for int() with base 10: '"
                                 ++ m ++ "'"))
  end.

(** A sink accepts writes unless it is a file that was closed. *)
Definition writable (w : Writer) : bool :=
  match w with
  | FileWriter _ true => false
  | _ => true
  end.

(** Whether the caller asked for preloaded content. *)
Definition preload_requested (kw : kwargs) : bool :=
  match Py.get kw "_preload_content" with
  | Some v => kw_truthy v
  | None => false
  end.

Definition failed_with_1 : status_document :=
  {| status := "Failure"; causes := Some ["1"] |}.

(** The trace of [k] rounds of the loop: a log record and a sleep each. *)
Fixpoint loop_trace (info_msg : string) (delay : Z) (k : nat) : list event :=
  match k with
  | O => []
  | S k' => Logged info_msg :: Slept delay :: loop_trace info_msg delay k'
  end.

(** The rounds the loop makes before a timeout: [timeout / delay], rounded
    up. *)
Definition rounds (delay timeout : Z) : nat :=
  Z.to_nat ((timeout + delay - 1) / delay).

(** A source whose listing for the selector is never empty and never all
    ready. *)
Definition never_ready (pod_list : string -> string -> nat -> list V1Pod)
    (label_selector : string) : Prop :=
  forall i,
    Py.truthy (pod_list "status.phase!=Succeeded" label_selector i) = true
    /\ forallb is_pod_ready (pod_list "status.phase!=Succeeded" label_selector i)
       = false.

(** One pod whose only container is never ready. *)
Definition unready_pod : V1Pod :=
  {| deletion_timestamp := None; container_statuses := Some [Some false] |}.

Definition one_unready_pod (field_selector label_selector : string) (i : nat)
  : list V1Pod := [unready_pod].

(** ** Notions about waiting and deleting *)

(** Whether the [i]-th listing ends the wait: it is empty, or all its
    pods are ready. *)
Definition settled (pod_list : string -> string -> nat -> list V1Pod)
    (label_selector : string) (i : nat) : bool :=
  let items := pod_list "status.phase!=Succeeded" label_selector i in
  orb (negb (Py.truthy items)) (forallb is_pod_ready items).

(** Listing [i + k] is the first from listing [i] on that ends the wait. *)
Definition first_settled (pod_list : string -> string -> nat -> list V1Pod)
    (label_selector : string) (i k : nat) : bool :=
  andb (forallb (fun j => negb (settled pod_list label_selector j)) (seq i k))
       (settled pod_list label_selector (i + k)).

(** A source whose one pod becomes ready with listing [k]. *)
Definition ready_from (k : nat) (field_selector label_selector : string) (i : nat)
  : list V1Pod :=
  if Nat.ltb i k then [unready_pod]
  else [{| deletion_timestamp := None; container_statuses := Some [Some true] |}].


(** A client call that fails with the given HTTP status. *)
Definition failing (A : Type) (status : Z) : api_func A :=
  fun _ _ => Raise (ApiException status).




(** * Properties *)

(** The encoders are run on closed texts only. *)
Arguments Base64.b64encode : simpl never.
Arguments Json.dumps_members : simpl never.
Arguments Json.dumps_dict_of_dicts : simpl never.
Arguments Py.str_of_int : simpl never.

(** ** The encoders on concrete texts *)

Example b64_s3cret : Base64.b64encode "s3cret" = "czNjcmV0".
Proof. reflexivity. Qed.

Example b64_pad1 : Base64.b64encode "u:" = "dTo=".
Proof. reflexivity. Qed.

Example b64_pad2 : Base64.b64encode "user" = "dXNlcg==".
Proof. reflexivity. Qed.

Example numeral_1 : numeral "1" = Return 1%Z.
Proof. reflexivity. Qed.

(** [json.dumps] of the registries of scenario C. *)
Example auth_document_scenario_c :
  SecretImagePull.auth_document scenario_c
  = "{" ++ quoted "auths" ++ ": {" ++ quoted "r.io" ++ ": {"
      ++ quoted "username" ++ ": " ++ quoted "u" ++ ", "
      ++ quoted "password" ++ ": " ++ quoted "p" ++ ", "
      ++ quoted "email" ++ ": " ++ quoted "e@x" ++ ", "
      ++ quoted "auth" ++ ": " ++ quoted "dTpw" ++ "}}}".
Proof. reflexivity. Qed.

(** Escaping: a quote and a newline, a control character, and the code
    points U+00E9, U+20AC and U+1F600 from their UTF-8 bytes. *)
Example dumps_str_quote_newline :
  Json.dumps_str (utf8 [97; 34; 10]) = quoted ("a\" ++ dquote ++ "\n").
Proof. reflexivity. Qed.

Example dumps_str_control : Json.dumps_str (utf8 [1; 127]) = quoted "\u0001\u007f".
Proof. reflexivity. Qed.

Example dumps_str_two_bytes : Json.dumps_str (utf8 [195; 169]) = quoted "\u00e9".
Proof. reflexivity. Qed.

Example dumps_str_three_bytes :
  Json.dumps_str (utf8 [226; 130; 172]) = quoted "\u20ac".
Proof. reflexivity. Qed.

Example dumps_str_four_bytes :
  Json.dumps_str (utf8 [240; 159; 152; 128]) = quoted "\ud83d\ude00".
Proof. reflexivity. Qed.

Example str_of_int_137 : Py.str_of_int 137 = "137".
Proof. reflexivity. Qed.

Example split_lines_two :
  split_lines (rstrip_newlines (String "a" (String newline (String "b" (String newline EmptyString)))))
  = ["a"; "b"].
Proof. reflexivity. Qed.

(** ** Dictionaries *)

Lemma get_set_same {V : Type} (d : Py.dict V) (k : string) (v : V) :
  Py.get (Py.set d k v) k = Some v.
Proof.
  induction d as [|[k' v'] d IH]; simpl.
  - now rewrite String.eqb_refl.
  - destruct (String.eqb k' k) eqn:E; simpl; rewrite E; auto.
Qed.

Lemma set_set_same {V : Type} (d : Py.dict V) (k : string) (v : V) :
  Py.set (Py.set d k v) k v = Py.set d k v.
Proof.
  induction d as [|[k' v'] d IH]; simpl.
  - now rewrite String.eqb_refl.
  - destruct (String.eqb k' k) eqn:E; simpl; rewrite E; congruence.
Qed.

Lemma truthy_set {V : Type} (d : Py.dict V) (k : string) (v : V) :
  Py.truthy (Py.set d k v) = true.
Proof.
  destruct d as [|[k' v'] d]; simpl; auto.
  destruct (String.eqb k' k); reflexivity.
Qed.

(** ** Secret *)

Lemma get_discard_same {V : Type} (d : Py.dict V) (k : string) :
  Py.get (Py.discard d k) k = None.
Proof.
  unfold Py.discard. induction d as [|[k' v'] d IH]; simpl; [reflexivity|].
  destruct (String.eqb k' k) eqn:E; simpl; [exact IH | now rewrite E].
Qed.

Lemma discard_discard {V : Type} (d : Py.dict V) (k : string) :
  Py.discard (Py.discard d k) k = Py.discard d k.
Proof.
  unfold Py.discard. induction d as [|[k' v'] d IH]; simpl; [reflexivity|].
  destruct (String.eqb k' k) eqn:E; simpl; [exact IH | now rewrite E, IH].
Qed.

(** A key stored as text is under [string_data] only: the builder's
    binary data no longer holds it. *)
Lemma set_text_clears_binary_key (s : Secret.state) (k v : string) :
  Py.get (_binary_data (Secret.primitive (Secret.set k (Text v) s))) k = None.
Proof. apply get_discard_same. Qed.



(** The bytes path is the one that reaches [data], base64-encoded. *)
Lemma secret_bytes_emitted_as_data (s : Secret.state) (k b : string) :
  exists d, secret_data (Secret.manifest (Secret.set k (Bytes b) s)) = Some d
            /\ Py.get d k = Some (Base64.b64encode b).
Proof.
  exists (Py.set (_binary_data (Secret.primitive s)) k (Base64.b64encode b)). split.
  - unfold Secret.manifest. simpl. now rewrite truthy_set.
  - apply get_set_same.
Qed.

(** ** SecretImagePull *)

(** C2 at [SecretImagePull]: reading [manifest] once changes the builder.
    Before the read the builder of scenario C holds no string data; after
    it, it holds the key [.dockerconfigjson], so the builder left behind
    is not the builder that was read.  The change shows in what is emitted
    later: a key set after an emission comes after [.dockerconfigjson] in
    [string_data], a key set on the builder that never emitted comes
    before it. *)
Theorem image_pull_manifest_mutates_builder :
  _string_data (Secret.primitive (SecretImagePull.secret scenario_c)) = []
  /\ Py.get (_string_data (Secret.primitive
               (SecretImagePull.secret (snd (SecretImagePull.manifest scenario_c)))))
            ".dockerconfigjson"
     = Some (Base64.b64encode (SecretImagePull.auth_document scenario_c))
  /\ snd (SecretImagePull.manifest scenario_c) <> scenario_c
  /\ fst (SecretImagePull.manifest
            (SecretImagePull.set "note" (Text "x")
               (snd (SecretImagePull.manifest scenario_c))))
     <> fst (SecretImagePull.manifest
               (SecretImagePull.set "note" (Text "x") scenario_c)).
Proof.
  split; [reflexivity|]. split; [reflexivity|]. split.
  - intros H.
    apply (f_equal (fun b => _string_data (Secret.primitive (SecretImagePull.secret b))))
      in H.
    vm_compute in H. discriminate.
  - intros H.
    apply (f_equal (fun m => option_map (map fst) (secret_string_data m))) in H.
    vm_compute in H. discriminate.
Qed.

(** What does hold of [SecretImagePull.manifest]: with no mutator called
    in between, a second read emits the same manifest and leaves the
    builder as the first read left it. *)
Lemma image_pull_manifest_twice (s : SecretImagePull.state) :
  SecretImagePull.manifest (snd (SecretImagePull.manifest s))
  = SecretImagePull.manifest s.
Proof.
  unfold SecretImagePull.manifest, SecretImagePull.auth_document,
    SecretImagePull.set, Secret.set.
  simpl. now rewrite set_set_same, discard_discard.
Qed.

(** ** StatefulSet: required fields at emission *)

(** C5: reading [StatefulSet.manifest] raises the [ValueError] exactly when
    [spec.service_name] is empty or the selector has neither [match_labels]
    nor [match_expressions]; it emits a manifest exactly when the service
    name is not empty and one of the two selector members is set. *)
Theorem statefulset_manifest_raises_iff :
  forall s : StatefulSet.state,
    let sp := sts_spec (StatefulSet._sts s) in
    ((exists msg, StatefulSet.manifest s = Raise (ValueError msg))
     <-> (sts_service_name sp = EmptyString
          \/ (match_labels (sts_selector sp) = None
              /\ match_expressions (sts_selector sp) = None)))
    /\ ((exists o, StatefulSet.manifest s = Return o)
        <-> (sts_service_name sp <> EmptyString
             /\ ~ (match_labels (sts_selector sp) = None
                   /\ match_expressions (sts_selector sp) = None))).
Proof.
  intros s sp. unfold StatefulSet.manifest. fold sp.
  destruct (String.eqb (sts_service_name sp) EmptyString) eqn:E.
  - apply String.eqb_eq in E. split; split.
    + intros _. now left.
    + intros _. eexists. reflexivity.
    + intros [o H]. discriminate.
    + intros [H _]. contradiction.
  - apply String.eqb_neq in E.
    destruct (match_expressions (sts_selector sp)) as [me|] eqn:Eme;
      destruct (match_labels (sts_selector sp)) as [ml|] eqn:Eml.
    all: split; split.
    all: try (intros [x H]; discriminate H).
    all: try (intros [H|[H1 H2]]; [contradiction | discriminate]).
    all: try (intros _; split; [exact E | intros [H1 H2]; discriminate]).
    all: try (intros _; eexists; reflexivity).
    + intros _. right. split; reflexivity.
    + intros [_ H]. exfalso. apply H. split; reflexivity.
Qed.

(** ** Selector match expressions *)

(** The helper never assigns [match_expressions] (plural), the attribute
    the duplicate check and the emission read. *)
Lemma add_match_expressions_keeps_plural (key operator : string)
    (values : list string) (sel : V1LabelSelector) :
  match_expressions (snd (selector_add_match_expressions key operator values sel))
  = match_expressions sel.
Proof.
  unfold selector_add_match_expressions.
  destruct (negb (Py.str_in operator allowed_operators)); [reflexivity|].
  destruct (Py.truthy_opt (match_expressions sel)).
  - destruct (match_expressions sel) as [l|] eqn:E.
    + destruct (has_requirement key operator l); [exact E|].
      destruct (match_expression sel); exact E.
    + destruct (match_expression sel); exact E.
  - reflexivity.
Qed.

(** On a selector whose [match_expressions] is unset, an accepted call
    leaves exactly the new requirement in [match_expression]: whatever
    earlier calls stored there is gone. *)
Lemma add_match_expressions_restarts (key operator : string)
    (values : list string) (sel : V1LabelSelector) :
  match_expressions sel = None ->
  Py.str_in operator allowed_operators = true ->
  selector_add_match_expressions key operator values sel
  = (Return tt,
     with_match_expression
       (Some [{| req_key := key; req_operator := operator; req_values := values |}])
       sel).
Proof.
  intros H Hop. unfold selector_add_match_expressions.
  rewrite Hop, H. reflexivity.
Qed.

(** C8 on the code: a second [add_selector_match_expressions] with the
    same key and operator is not a no-op.  On a fresh Deployment (and a
    fresh StatefulSet) both calls return, and the second leaves a builder
    that differs from the one the first call left: the requirement stored
    by the first call is replaced by the one of the second. *)
Theorem second_add_same_pair_replaces_first :
  let d1 := snd (Deployment.add_selector_match_expressions "tier" "In" ["a"]
                   (Deployment.init "web" web)) in
  let d2 := snd (Deployment.add_selector_match_expressions "tier" "In" ["b"] d1) in
  let s1 := snd (StatefulSet.add_selector_match_expressions "tier" "In" ["a"]
                   (StatefulSet.init "db" web)) in
  let s2 := snd (StatefulSet.add_selector_match_expressions "tier" "In" ["b"] s1) in
  fst (Deployment.add_selector_match_expressions "tier" "In" ["b"] d1) = Return tt
  /\ d2 <> d1
  /\ option_map match_expression
       (deploy_selector (deploy_spec (Deployment._deploy d2)))
     = Some (Some [{| req_key := "tier"; req_operator := "In"; req_values := ["b"] |}])
  /\ fst (StatefulSet.add_selector_match_expressions "tier" "In" ["b"] s1) = Return tt
  /\ s2 <> s1
  /\ match_expression (sts_selector (sts_spec (StatefulSet._sts s2)))
     = Some [{| req_key := "tier"; req_operator := "In"; req_values := ["b"] |}].
Proof.
  cbv zeta. repeat split; try reflexivity.
  - intros H.
    apply (f_equal (fun d => option_map match_expression
                     (deploy_selector (deploy_spec (Deployment._deploy d))))) in H.
    vm_compute in H. discriminate.
  - intros H.
    apply (f_equal (fun s => match_expression
                     (sts_selector (sts_spec (StatefulSet._sts s))))) in H.
    vm_compute in H. discriminate.
Qed.

(** A StatefulSet whose selector was given through
    [add_selector_match_expressions] only is still rejected at emission. *)
Lemma statefulset_expressions_only_rejected :
  StatefulSet.manifest
    (snd (StatefulSet.add_selector_match_expressions "tier" "In" ["a"]
            (StatefulSet.set_service_name "db" (StatefulSet.init "db" web))))
  = Raise (ValueError "Invalid value for `selector`, must not be empty").
Proof. reflexivity. Qed.

(** ** Ingress: rules keyed by host, TLS entries keyed by secret name *)

Lemma has_path_app (path : string) (ps : list V1HTTPIngressPath)
    (bp : V1HTTPIngressPath) :
  path_path bp = path -> Ingress.has_path path (ps ++ [bp])%list = true.
Proof.
  intros H. unfold Ingress.has_path. rewrite existsb_app. simpl.
  rewrite H, String.eqb_refl. now rewrite orb_true_r.
Qed.

(** Once the loop has returned for [(host, path)], it returns again, for
    any backend, with the list as it is. *)
Lemma add_path_under_host_again (host path : string)
    (bp bp' : V1HTTPIngressPath) (rs rs' : list V1IngressRule) :
  path_path bp = path ->
  Ingress.add_path_under_host host path bp rs = Some rs' ->
  Ingress.add_path_under_host host path bp' rs' = Some rs'.
Proof.
  intros Hbp. revert rs'.
  induction rs as [|rule rs IH]; intros rs' H; simpl in H; [discriminate|].
  destruct (String.eqb (rule_host rule) host) eqn:Eh.
  - destruct (Ingress.has_path path (rule_paths rule)) eqn:Ep.
    + injection H as <-. simpl. now rewrite Eh, Ep.
    + injection H as <-. simpl. now rewrite Eh, has_path_app.
  - destruct (Ingress.add_path_under_host host path bp rs) as [rs1|] eqn:E;
      [|discriminate].
    injection H as <-. simpl. rewrite Eh. now rewrite (IH rs1 eq_refl).
Qed.

(** When no rule has the host, the rule appended for it is found by the
    next call. *)
Lemma add_path_under_host_appended (host path : string)
    (bp bp' : V1HTTPIngressPath) (rs : list V1IngressRule) :
  path_path bp = path ->
  Ingress.add_path_under_host host path bp rs = None ->
  let rs' := (rs ++ [{| rule_host := host; rule_paths := [bp] |}])%list in
  Ingress.add_path_under_host host path bp' rs' = Some rs'.
Proof.
  intros Hbp. induction rs as [|rule rs IH]; intros H; simpl in *.
  - rewrite String.eqb_refl. unfold Ingress.has_path. simpl.
    now rewrite Hbp, String.eqb_refl.
  - destruct (String.eqb (rule_host rule) host) eqn:Eh.
    + destruct (Ingress.has_path path (rule_paths rule)); discriminate.
    + destruct (Ingress.add_path_under_host host path bp rs); [discriminate|].
      now rewrite (IH eq_refl).
Qed.

(** The first rule of the host receives the new path at the end of its
    path list; the rules before and after it stay. *)
Lemma add_path_under_host_extends (host path : string) (bp : V1HTTPIngressPath)
    (before after : list V1IngressRule) (rule : V1IngressRule) :
  forallb (fun r => negb (String.eqb (rule_host r) host)) before = true ->
  rule_host rule = host ->
  Ingress.has_path path (rule_paths rule) = false ->
  Ingress.add_path_under_host host path bp (before ++ rule :: after)%list
  = Some (before ++ {| rule_host := host;
                       rule_paths := (rule_paths rule ++ [bp])%list |} :: after)%list.
Proof.
  intros Hb Hh Hp. induction before as [|r before IH]; simpl in *.
  - rewrite Hh, String.eqb_refl, Hp. reflexivity.
  - apply andb_true_iff in Hb as [Hr Hb]. apply negb_true_iff in Hr.
    rewrite Hr, (IH Hb). reflexivity.
Qed.

Lemma with_rules_same (s : Ingress.state) (rs : list V1IngressRule) :
  rules (Ingress.spec s) = Some rs -> Ingress.with_rules (Some rs) s = s.
Proof.
  destruct s as [m [db cn r t]]. simpl. intros ->. reflexivity.
Qed.

Lemma secret_name_eqb_refl (a : option string) : Ingress.secret_name_eqb a a = true.
Proof. destruct a; simpl; auto using String.eqb_refl. Qed.

Lemma add_tls_present (hosts : list string) (secret_name : option string)
    (s : Ingress.state) (l : list V1IngressTLS) :
  tls (Ingress.spec s) = Some l ->
  existsb (fun t => Ingress.secret_name_eqb secret_name (tls_secret_name t)) l = true ->
  Ingress.add_tls hosts secret_name s = s.
Proof.
  intros Hl He. unfold Ingress.add_tls. rewrite Hl.
  destruct l as [|t l]; [discriminate|]. simpl Py.truthy_opt. cbv iota.
  now rewrite He.
Qed.

(** After [add_tls] the secret name is among the TLS entries. *)
Lemma add_tls_stores (hosts : list string) (secret_name : option string)
    (s : Ingress.state) :
  exists l,
    tls (Ingress.spec (Ingress.add_tls hosts secret_name s)) = Some l
    /\ existsb (fun t => Ingress.secret_name_eqb secret_name (tls_secret_name t)) l
       = true.
Proof.
  unfold Ingress.add_tls.
  destruct (Py.truthy_opt (tls (Ingress.spec s))) eqn:T.
  - destruct (tls (Ingress.spec s)) as [l|] eqn:El; [|discriminate].
    destruct (existsb _ l) eqn:Ex.
    + exists l. now split.
    + eexists. split; [reflexivity|].
      rewrite existsb_app. simpl. rewrite secret_name_eqb_refl.
      now rewrite orb_true_r.
  - eexists. split; [reflexivity|]. simpl. now rewrite secret_name_eqb_refl.
Qed.

(** A call for a [(host, path)] the loop already finds changes nothing,
    whether its backend arguments are accepted or not. *)
Lemma add_rule_found (s : Ingress.state) (host path : string)
    (pt : IngressRulePathType) (sn : option string) (sp : option port_value)
    (ref : option V1TypedLocalObjectReference) (rs : list V1IngressRule) :
  rules (Ingress.spec s) = Some rs ->
  (forall bp, Ingress.add_path_under_host host path bp rs = Some rs) ->
  snd (Ingress.add_rule host path pt sn sp ref s) = s.
Proof.
  intros Hrs Hfound. unfold Ingress.add_rule.
  destruct (Ingress._ingress_backend sn sp ref) as [b|e]; [|reflexivity].
  rewrite Hrs, Hfound. simpl. now apply with_rules_same.
Qed.

(** C9: [add_rule] is idempotent on [(host, path)]: after a call that
    returned, any further call with that host and path, whatever its
    backend arguments and whether it returns or raises, leaves the builder
    unchanged.  A path the host's rule does not have yet is appended to
    that rule's path list, and no rule is created.  [add_tls] is idempotent
    on [secret_name]: a second call with the secret name, for any hosts,
    changes nothing. *)
Theorem ingress_adds_are_keyed :
  forall (s : Ingress.state) (host path : string)
         (pt pt' : IngressRulePathType)
         (sn sn' : option string) (sp sp' : option port_value)
         (ref ref' : option V1TypedLocalObjectReference)
         (before after : list V1IngressRule) (rule : V1IngressRule)
         (backend : V1IngressBackend)
         (hosts hosts' : list string) (secret_name : option string),
    (fst (Ingress.add_rule host path pt sn sp ref s) = Return tt ->
     snd (Ingress.add_rule host path pt' sn' sp' ref'
            (snd (Ingress.add_rule host path pt sn sp ref s)))
     = snd (Ingress.add_rule host path pt sn sp ref s))
    /\ (rules (Ingress.spec s) = Some (before ++ rule :: after)%list ->
        forallb (fun r => negb (String.eqb (rule_host r) host)) before = true ->
        rule_host rule = host ->
        Ingress.has_path path (rule_paths rule) = false ->
        Ingress._ingress_backend sn sp ref = Return backend ->
        Ingress.add_rule host path pt sn sp ref s
        = (Return tt,
           Ingress.with_rules
             (Some (before
                    ++ {| rule_host := host;
                          rule_paths :=
                            (rule_paths rule
                             ++ [{| path_backend := backend; path_path := path;
                                    path_type := IngressRulePathType_value pt |}])%list |}
                    :: after)%list) s))
    /\ Ingress.add_tls hosts' secret_name (Ingress.add_tls hosts secret_name s)
       = Ingress.add_tls hosts secret_name s.
Proof.
  intros. split; [|split].
  - unfold Ingress.add_rule at 1 3 4.
    destruct (Ingress._ingress_backend sn sp ref) as [b|e]; [|discriminate].
    intros _.
    set (bp := {| path_backend := b; path_path := path;
                  path_type := IngressRulePathType_value pt |}).
    set (rs := match rules (Ingress.spec s) with Some rs => rs | None => [] end).
    destruct (Ingress.add_path_under_host host path bp rs) as [rs1|] eqn:E; simpl snd.
    + apply add_rule_found with (rs := rs1); [reflexivity|].
      intros bp'. now apply add_path_under_host_again with (bp := bp) (rs := rs).
    + apply add_rule_found
        with (rs := (rs ++ [{| rule_host := host; rule_paths := [bp] |}])%list);
        [reflexivity|].
      intros bp'. now apply add_path_under_host_appended.
  - intros Hrs Hbefore Hhost Hpath Hbackend.
    unfold Ingress.add_rule. rewrite Hbackend, Hrs.
    now rewrite add_path_under_host_extends.
  - destruct (add_tls_stores hosts secret_name s) as [l [Hl Hex]].
    now apply add_tls_present with (l := l).
Qed.

(** C9 on a builder with one rule for [a.io]: a repeated
    [add_rule("a.io", "/api", ...)], a first [("a.io", "/api")] appended
    under the rule of [a.io], and a repeated [add_tls] of [cert]. *)
Lemma ingress_adds_are_keyed_witness :
  snd (Ingress.add_rule "a.io" "/api" Exact (Some "other") (Some (PortStr "http")) None
         (snd (Ingress.add_rule "a.io" "/api" Prefix (Some "api") (Some (PortInt 8080))
                 None one_rule)))
  = snd (Ingress.add_rule "a.io" "/api" Prefix (Some "api") (Some (PortInt 8080))
           None one_rule)
  /\ option_map (map (fun r => List.length (rule_paths r)))
       (rules (Ingress.spec
          (snd (Ingress.add_rule "a.io" "/api" Prefix (Some "api")
                  (Some (PortInt 8080)) None one_rule))))
     = Some [2%nat]
  /\ Ingress.add_tls ["b.io"] (Some "cert")
       (Ingress.add_tls ["a.io"] (Some "cert") one_rule)
     = Ingress.add_tls ["a.io"] (Some "cert") one_rule.
Proof.
  destruct (ingress_adds_are_keyed one_rule "a.io" "/api" Prefix Exact
              (Some "api") (Some "other") (Some (PortInt 8080)) (Some (PortStr "http"))
              None None []
              []
              {| rule_host := "a.io";
                 rule_paths :=
                   [{| path_backend :=
                         {| backend_resource := None;
                            backend_service :=
                              Some ("web", {| port_name := None;
                                              port_number := Some 80%Z |}) |};
                       path_path := "/";
                       path_type := "Prefix" |}] |}
              {| backend_resource := None;
                 backend_service :=
                   Some ("api", {| port_name := None; port_number := Some 8080%Z |}) |}
              ["a.io"] ["b.io"] (Some "cert")) as [H1 [H2 H3]].
  split; [apply H1; reflexivity|]. split; [|exact H3].
  rewrite H2; reflexivity.
Defined.

(** ** The request wrappers *)

Lemma pop_present {V : Type} (d : Py.dict V) (k : string) (v default : V) :
  Py.get d k = Some v -> fst (Py.pop d k default) = v.
Proof. unfold Py.pop. now intros ->. Qed.

Lemma pop_absent {V : Type} (d : Py.dict V) (k : string) (default : V) :
  Py.get d k = None -> Py.pop d k default = (default, d).
Proof. unfold Py.pop. now intros ->. Qed.

(** Through [_wrapper] a [namespace=] keyword argument is the namespace of
    the call, and without it the default namespace is. *)
Lemma wrapper_call_namespace (self : KubeApi) (obj_name : string) (kw : kwargs) :
  fst (_wrapper_call self obj_name true None kw)
  = [KStr obj_name;
     match Py.get kw "namespace" with
     | Some ns => ns
     | None => KStr (_ns self)
     end].
Proof.
  unfold _wrapper_call, Py.pop.
  destruct (Py.get kw "namespace"); reflexivity.
Qed.

(** C1 on the create path: a create call answered with HTTP 404 under
    [check_err = True] raises the error, it does not return [None], while
    the same answer through [_wrapper] returns [None].  [_wrapper_create]
    tests the status against 409 only, although it promises [None] for a
    resource that is not found as [_wrapper] does. *)
Theorem create_not_found_is_raised :
  fst (_wrapper_create (A := unit) default_api
         (fun _ _ => Raise (ApiException 404)) KNone true true [])
  = Raise (ApiException 404)
  /\ fst (_wrapper_create (A := unit) default_api
            (fun _ _ => Raise (ApiException 404)) KNone true true [])
     <> Return None
  /\ fst (_wrapper (A := unit) default_api
            (fun _ _ => Raise (ApiException 404)) "web" true true None [])
     = Return None.
Proof. split; [reflexivity | split; [discriminate | reflexivity]]. Qed.

(** What the two wrappers do with an API error, status by status: when
    the wrapped call raises [ApiException(status)], [_wrapper] returns
    [None] for 404 whatever [check_err] is, and [_wrapper_create] returns
    [None] for 409 whatever [check_err] is; every other status on a path
    (409 through [_wrapper] and 404 through [_wrapper_create] among them)
    is raised again exactly when [check_err] is true, and otherwise logged
    at error level with [None] returned. *)
Lemma wrappers_classify_api_errors :
  forall (A : Type) (self : KubeApi) (func : api_func A) (obj_name : string)
         (obj : kwval) (check_err namespaced : bool)
         (custom_object_def : option CustomObjectDef) (kw : kwargs) (status : Z),
    (func (fst (_wrapper_call self obj_name namespaced custom_object_def kw))
          (snd (_wrapper_call self obj_name namespaced custom_object_def kw))
     = Raise (ApiException status) ->
     let r := _wrapper self func obj_name check_err namespaced custom_object_def kw in
     (status = 404%Z -> fst r = Return None)
     /\ (status <> 404%Z ->
         (fst r = Raise (ApiException status) <-> check_err = true)
         /\ (check_err = false ->
             r = (Return None, [(ERROR, LogException (ApiException status))]))))
    /\ (func (fst (_wrapper_create_call self obj namespaced kw))
             (snd (_wrapper_create_call self obj namespaced kw))
        = Raise (ApiException status) ->
        let r := _wrapper_create self func obj check_err namespaced kw in
        (status = 409%Z -> fst r = Return None)
        /\ (status <> 409%Z ->
            (fst r = Raise (ApiException status) <-> check_err = true)
            /\ (check_err = false ->
                r = (Return None, [(ERROR, LogException (ApiException status))])))).
Proof.
  intros. split.
  - intros H. unfold _wrapper.
    destruct (_wrapper_call self obj_name namespaced custom_object_def kw) as [args kw'].
    simpl in H. rewrite H. cbv zeta. split.
    + intros ->. reflexivity.
    + intros Hs. apply Z.eqb_neq in Hs. rewrite Hs.
      destruct check_err; simpl; split; try split; try intros; try reflexivity;
        try discriminate.
  - intros H. unfold _wrapper_create.
    destruct (_wrapper_create_call self obj namespaced kw) as [args kw'].
    simpl in H. rewrite H. cbv zeta. split.
    + intros ->. reflexivity.
    + intros Hs. apply Z.eqb_neq in Hs. rewrite Hs.
      destruct check_err; simpl; split; try split; try intros; try reflexivity;
        try discriminate.
Qed.

(** A call answered with HTTP 500 under [check_err = False]: both
    wrappers log the error and return [None]. *)
Lemma wrappers_classify_api_errors_witness :
  _wrapper (A := unit) default_api (fun _ _ => Raise (ApiException 500))
    "web" false true None []
  = (Return None, [(ERROR, LogException (ApiException 500))])
  /\ _wrapper_create (A := unit) default_api (fun _ _ => Raise (ApiException 500))
       KNone false true []
     = (Return None, [(ERROR, LogException (ApiException 500))]).
Proof.
  destruct (wrappers_classify_api_errors unit default_api
              (fun _ _ => Raise (ApiException 500)) "web" KNone false true None []
              500%Z) as [H1 H2].
  split.
  - destruct (H1 eq_refl) as [_ Hother].
    destruct (Hother ltac:(discriminate)) as [_ Hlogged].
    exact (Hlogged eq_refl).
  - destruct (H2 eq_refl) as [_ Hother].
    destruct (Hother ltac:(discriminate)) as [_ Hlogged].
    exact (Hlogged eq_refl).
Defined.

(** ** The namespace of an exec call *)

(** C3 on the exec path: the request [_exec] hands to [stream] names the
    default namespace of the facade, whatever the keyword arguments hold;
    [namespace] is popped from them and then left unused.  So
    [run_command] and [copy_file_from_pod] with [namespace="other"], on a
    facade whose default namespace is [default], look for the pod in
    [default] and fail with the 404 of that namespace. *)
Theorem exec_ignores_namespace_argument :
  (forall (self : KubeApi) (pod_name : string) (command : list string)
          (kw : kwargs),
      exec_namespace (fst (_exec_request self pod_name command kw))
      = KStr (_ns self))
  /\ (forall int : string -> res Z,
         fst (run_command pod_in_other_namespace int default_api "p" ["ls"] None
                [("namespace", KStr "other")])
         = Raise (ApiException 404))
  /\ (forall int : string -> res Z,
         fst (copy_file_from_pod pod_in_other_namespace int default_api "p"
                "/etc/hosts" [("namespace", KStr "other")])
         = Raise (ApiException 404)).
Proof.
  split; [|split; reflexivity].
  intros self pod_name command kw. unfold _exec_request.
  destruct (Py.setdefault _ "_preload_content" _) as [p kw1].
  destruct (Py.pop _ "namespace" _) as [ns kw2]. reflexivity.
Qed.

(** ** Scaling a workload that does not exist *)

(** C10: when the patch call answers HTTP 404, [_wrapper] turns it into
    [None], and [scale_deployment] and [scale_stateful_set] then raise
    [AttributeError] on [resp.kind]; they do not return [None]. *)
Theorem scale_not_found_raises_attribute_error :
  forall (pod_list : string -> string -> nat -> list V1Pod)
         (patch : api_func workload) (fuel : nat) (self : KubeApi)
         (name : string) (replicas : Z) (wait : bool) (kw : kwargs),
    let kw' := Py.set kw "body" (KScaleBody replicas) in
    patch (fst (_wrapper_call self name true None kw'))
          (snd (_wrapper_call self name true None kw'))
    = Raise (ApiException 404) ->
    fst (_wrapper self patch name true true None kw') = Return None
    /\ scale_deployment pod_list patch fuel self name replicas wait kw
       = Some (Raise (AttributeError "'NoneType' object has no attribute 'kind'"),
               [(DEBUG, LogException (ApiException 404))])
    /\ scale_stateful_set pod_list patch fuel self name replicas wait kw
       = Some (Raise (AttributeError "'NoneType' object has no attribute 'kind'"),
               [(DEBUG, LogException (ApiException 404))]).
Proof.
  intros pod_list patch fuel self name replicas wait kw kw' H.
  assert (Hw : _wrapper self patch name true true None kw'
               = (Return None, [(DEBUG, LogException (ApiException 404))])).
  { unfold _wrapper.
    destruct (_wrapper_call self name true None kw') as [args kw2].
    simpl in H. now rewrite H. }
  split; [now rewrite Hw|].
  unfold scale_deployment, scale_stateful_set, _scale. fold kw'.
  rewrite Hw. split; reflexivity.
Qed.

(** C10 on [scale_deployment("web", 0)] against a cluster without the
    Deployment. *)
Lemma scale_not_found_raises_attribute_error_witness :
  scale_deployment (fun _ _ _ => []) (fun _ _ => Raise (ApiException 404))
    0 default_api "web" 0 false []
  = Some (Raise (AttributeError "'NoneType' object has no attribute 'kind'"),
          [(DEBUG, LogException (ApiException 404))]).
Proof.
  exact (proj1 (proj2
    (scale_not_found_raises_attribute_error (fun _ _ _ => [])
       (fun _ _ => Raise (ApiException 404)) 0 default_api "web" 0%Z false []
       eq_refl))).
Defined.

(** ** The outcome of an exec call *)

Lemma append_assoc (a b c : string) : (a ++ b) ++ c = a ++ (b ++ c).
Proof. induction a as [|x a IH]; simpl; [reflexivity | now rewrite IH]. Qed.

Lemma append_empty_r (a : string) : a ++ EmptyString = a.
Proof. induction a as [|x a IH]; simpl; [reflexivity | now rewrite IH]. Qed.

Lemma get_set_other {V : Type} (d : Py.dict V) (k k' : string) (v : V) :
  String.eqb k k' = false -> Py.get (Py.set d k v) k' = Py.get d k'.
Proof.
  intros Hk. induction d as [|[k0 v0] d IH]; simpl.
  - now rewrite Hk.
  - destruct (String.eqb k0 k) eqn:E; simpl.
    + apply String.eqb_eq in E. subst k0. now rewrite Hk.
    + now rewrite IH.
Qed.

Lemma get_setdefault_other {V : Type} (d : Py.dict V) (k k' : string) (v : V) :
  String.eqb k k' = false ->
  Py.get (snd (Py.setdefault d k v)) k' = Py.get d k'.
Proof.
  intros Hk. unfold Py.setdefault.
  destruct (Py.get d k); simpl; [reflexivity | now apply get_set_other].
Qed.

Lemma get_remove_other {V : Type} (d : Py.dict V) (k k' : string) :
  String.eqb k k' = false -> Py.get (Py.remove d k) k' = Py.get d k'.
Proof.
  intros Hk. induction d as [|[k0 v0] d IH]; simpl; [reflexivity|].
  destruct (String.eqb k0 k) eqn:E; simpl.
  - apply String.eqb_eq in E. subst k0. now rewrite Hk.
  - now rewrite IH.
Qed.

Lemma get_pop_other {V : Type} (d : Py.dict V) (k k' : string) (default : V) :
  String.eqb k k' = false -> Py.get (snd (Py.pop d k default)) k' = Py.get d k'.
Proof.
  intros Hk. unfold Py.pop.
  destruct (Py.get d k); simpl; [now apply get_remove_other | reflexivity].
Qed.

Lemma get_setdefault_same {V : Type} (d : Py.dict V) (k : string) (v : V) :
  Py.get (snd (Py.setdefault d k v)) k = Some (fst (Py.setdefault d k v)).
Proof.
  unfold Py.setdefault. destruct (Py.get d k) eqn:E; simpl;
    [exact E | apply get_set_same].
Qed.

(** The flag [_exec] reads is the caller's [_preload_content], [False]
    when the caller gave none. *)
Lemma exec_preload_flag (self : KubeApi) (pod_name : string)
    (command : list string) (kw : kwargs) :
  snd (_exec_request self pod_name command kw)
  = match Py.get kw "_preload_content" with
    | Some v => v
    | None => KBool false
    end.
Proof.
  unfold _exec_request.
  set (kw5 := snd (Py.setdefault (snd (Py.setdefault (snd (Py.setdefault
                (snd (Py.setdefault (snd (Py.setdefault kw "stdout" (KBool true)))
                   "stderr" (KBool true))) "async_req" (KBool false)))
                "stdin" (KBool false))) "tty" (KBool false))).
  assert (H : Py.get kw5 "_preload_content" = Py.get kw "_preload_content").
  { unfold kw5. now rewrite !get_setdefault_other by reflexivity. }
  unfold Py.setdefault at 1. rewrite H.
  destruct (Py.get kw "_preload_content") as [v|];
    destruct (Py.pop _ "namespace" _); reflexivity.
Qed.

Lemma write_writable (w : Writer) (data : string) :
  writable w = true ->
  exists w', write w data = Return w' /\ writable w' = true.
Proof.
  destruct w as [l|lvl rs|c [|]]; simpl; intros H; try discriminate;
    eexists; split; reflexivity.
Qed.

(** On writable sinks the drain loop reaches the end of the frames. *)
Lemma drain_returns (fs : list frame) (stdout stderr : Writer) :
  writable stdout = true -> writable stderr = true ->
  fst (drain fs stdout stderr) = Return tt.
Proof.
  revert stdout stderr.
  induction fs as [|f fs IH]; intros stdout stderr Ho He; simpl; [reflexivity|].
  assert (Hout : exists o, (if String.eqb (on_stdout f) EmptyString
                            then Return stdout else write stdout (on_stdout f))
                           = Return o /\ writable o = true).
  { destruct (String.eqb (on_stdout f) EmptyString);
      [now exists stdout | now apply write_writable]. }
  destruct Hout as [o [-> Ho']].
  assert (Herr : exists e, (if String.eqb (on_stderr f) EmptyString
                            then Return stderr else write stderr (on_stderr f))
                           = Return e /\ writable e = true).
  { destruct (String.eqb (on_stderr f) EmptyString);
      [now exists stderr | now apply write_writable]. }
  destruct Herr as [e [-> He']].
  now apply IH.
Qed.

Lemma failure_message_contains (command : list string) (code : Z) :
  contains (exec_failure_message command code) (Py.join " " command)
  /\ contains (exec_failure_message command code) (Py.str_of_int code).
Proof.
  unfold exec_failure_message, contains. split.
  - exists ("command " ++ dquote),
           (dquote ++ " ended with status code: " ++ Py.str_of_int code).
    reflexivity.
  - exists ("command " ++ dquote ++ Py.join " " command ++ dquote
              ++ " ended with status code: "), EmptyString.
    rewrite append_empty_r. rewrite !append_assoc. reflexivity.
Qed.

(** The request carries the flag [_exec] reads: the library sees the
    caller's [_preload_content], [False] when the caller gave none. *)
Lemma exec_request_preloads (self : KubeApi) (pod_name : string)
    (command : list string) (kw : kwargs) :
  preloads (fst (_exec_request self pod_name command kw)) = preload_requested kw.
Proof.
  pose proof (exec_preload_flag self pod_name command kw) as Hflag.
  unfold preloads, preload_requested. unfold _exec_request in *.
  set (kw5 := snd (Py.setdefault (snd (Py.setdefault (snd (Py.setdefault
                (snd (Py.setdefault (snd (Py.setdefault kw "stdout" (KBool true)))
                   "stderr" (KBool true))) "async_req" (KBool false)))
                "stdin" (KBool false))) "tty" (KBool false))) in *.
  pose proof (get_setdefault_same kw5 "_preload_content" (KBool false)) as Hsame.
  destruct (Py.setdefault kw5 "_preload_content" (KBool false)) as [flag kw6].
  cbn [fst snd] in Hsame.
  pose proof (get_pop_other (Py.set kw6 "command" (KList command)) "namespace"
                "_preload_content" (KStr (_ns self)) eq_refl) as Hpop.
  destruct (Py.pop (Py.set kw6 "command" (KList command)) "namespace"
              (KStr (_ns self))) as [ns kw7].
  cbn [fst snd exec_kwargs] in *.
  rewrite Hpop, get_set_other by reflexivity. rewrite Hsame, Hflag.
  destruct (Py.get kw "_preload_content"); reflexivity.
Qed.

(** The half of the exec policy that the code keeps: on an open channel
    and writable sinks, without preloaded content, a status other than
    ["Success"] whose first cause decodes to a number raises an exception
    whose message contains the command joined by spaces and the number. *)
Lemma exec_failure_names_command_and_code :
  forall (stream : exec_request -> res stream_result) (int : string -> res Z)
         (self : KubeApi) (pod_name : string) (command : list string)
         (stdout stderr : Writer) (kw : kwargs) (r : WSClient) (code : Z),
    stream (fst (_exec_request self pod_name command kw)) = Return (Channel r) ->
    writable stdout = true ->
    writable stderr = true ->
    preload_requested kw = false ->
    status (error_channel r) <> "Success" ->
    exit_code int (error_channel r) = Return code ->
    exists msg,
      fst (_exec stream int self pod_name command stdout stderr kw)
      = Raise (Exception msg)
      /\ contains msg (Py.join " " command)
      /\ contains msg (Py.str_of_int code).
Proof.
  intros stream int self pod_name command stdout stderr kw r code Hs Ho He Hp Hst Hc.
  pose proof (exec_preload_flag self pod_name command kw) as Hflag.
  pose proof (drain_returns (frames r) stdout stderr Ho He) as Hd.
  unfold _exec.
  destruct (_exec_request self pod_name command kw) as [request flag].
  simpl in Hs, Hflag. rewrite Hs.
  destruct (drain (frames r) stdout stderr) as [d [out errs]].
  simpl in Hd. subst d.
  assert (Hf : kw_truthy flag = false).
  { rewrite Hflag. unfold preload_requested in Hp.
    destruct (Py.get kw "_preload_content"); exact Hp. }
  rewrite Hf. apply String.eqb_neq in Hst. rewrite Hst, Hc. simpl.
  exists (exec_failure_message command code).
  split; [reflexivity | apply failure_message_contains].
Qed.

(** C6, on its preloaded half: [_exec] forwards the caller's
    [_preload_content] to [kubernetes.stream.stream], which then hands back
    text and no channel.  So an exec call that asks for preloaded content
    never returns, and in particular never returns the two sinks with the
    error document: whenever the stream call itself answers, [_exec]
    raises [AttributeError] at [r.is_open()], with both sinks as they
    were, and so does [run_command]. *)
Theorem exec_preloaded_never_returns :
  forall (stream : exec_request -> res stream_result) (int : string -> res Z)
         (self : KubeApi) (pod_name : string) (command : list string)
         (stdout stderr : Writer) (kw : kwargs),
    answers_as_library stream ->
    preload_requested kw = true ->
    (forall t, fst (_exec stream int self pod_name command stdout stderr kw)
               <> Return t)
    /\ (forall x,
          stream (fst (_exec_request self pod_name command kw)) = Return x ->
          _exec stream int self pod_name command stdout stderr kw
          = (Raise (AttributeError "'str' object has no attribute 'is_open'"),
             (stdout, stderr))
          /\ run_command stream int self pod_name command None kw
             = (Raise (AttributeError "'str' object has no attribute 'is_open'"),
                (ResponseDataCollector [], ResponseDataCollector []))).
Proof.
  intros stream int self pod_name command stdout stderr kw Hlib Hp.
  pose proof (exec_request_preloads self pod_name command kw) as Hpre.
  rewrite Hp in Hpre.
  assert (Hexec : forall out errs x,
             stream (fst (_exec_request self pod_name command kw)) = Return x ->
             _exec stream int self pod_name command out errs kw
             = (Raise (AttributeError "'str' object has no attribute 'is_open'"),
                (out, errs))).
  { intros out errs x Hx. pose proof (Hlib _ _ Hx) as Hkind.
    unfold _exec. destruct (_exec_request self pod_name command kw) as [request flag].
    cbn [fst] in *. rewrite Hx.
    destruct x as [r|output]; [congruence | reflexivity]. }
  split.
  - intros t Ht.
    destruct (stream (fst (_exec_request self pod_name command kw))) as [x|e] eqn:Hx.
    + rewrite (Hexec stdout stderr x eq_refl) in Ht. discriminate Ht.
    + unfold _exec in Ht.
      destruct (_exec_request self pod_name command kw) as [request flag].
      cbn [fst] in Hx. rewrite Hx in Ht. discriminate Ht.
  - intros x Hx. split; [now apply Hexec with (x := x)|].
    unfold run_command. cbn [Py.truthy_str].
    unfold preload_requested in Hp.
    destruct (Py.get kw "_preload_content") as [v|]; [|discriminate Hp].
    rewrite Hp. now apply Hexec with (x := x).
Qed.

(** C6 on the preloaded twin of scenario D: [run_command("p", ["false"],
    _preload_content=True)] against a pod that answers raises the
    [AttributeError]; the collectors stay empty. *)
Lemma exec_preloaded_never_returns_witness :
  run_command (serving {| frames := []; error_channel := failed_with_1 |}) numeral
    default_api "p" ["false"] None [("_preload_content", KBool true)]
  = (Raise (AttributeError "'str' object has no attribute 'is_open'"),
     (ResponseDataCollector [], ResponseDataCollector [])).
Proof.
  assert (Hlib : answers_as_library
                   (serving {| frames := []; error_channel := failed_with_1 |})).
  { intros request x. unfold serving.
    destruct (preloads request); intros [= <-]; reflexivity. }
  exact (proj2 (proj2 (exec_preloaded_never_returns
                         (serving {| frames := []; error_channel := failed_with_1 |})
                         numeral default_api "p" ["false"]
                         (ResponseDataCollector []) (ResponseDataCollector [])
                         [("_preload_content", KBool true)] Hlib eq_refl)
                  _ eq_refl)).
Defined.

(** Scenario D through [run_command], with the message spelled out. *)
Example run_command_false :
  fst (run_command (serving {| frames := []; error_channel := failed_with_1 |})
         numeral default_api "p" ["false"] None [("_preload_content", KBool false)])
  = Raise (Exception ("command " ++ dquote ++ "false" ++ dquote
                        ++ " ended with status code: 1")).
Proof. reflexivity. Qed.

(** In streaming mode the output reaches the two loggers. *)
Example run_command_streams :
  snd (run_command
         (serving {| frames := [{| on_stdout := "out"; on_stderr := EmptyString |};
                                {| on_stdout := EmptyString; on_stderr := "err" |}];
                     error_channel := succeeded |})
         numeral default_api "p" ["ls"] None [])
  = (Logger INFO ["out"], Logger ERROR ["err"]).
Proof. reflexivity. Qed.

(** ** wait_pods *)

Lemma seconds_slept_loop_trace (info_msg : string) (delay : Z) (k : nat) :
  seconds_slept (loop_trace info_msg delay k) = (delay * Z.of_nat k)%Z.
Proof.
  induction k as [|k IH]; [simpl; lia|].
  cbn [loop_trace seconds_slept]. rewrite IH. lia.
Qed.

Lemma ticks_loop_trace (info_msg : string) (delay : Z) (k : nat) :
  ticks (loop_trace info_msg delay k) = repeat delay k.
Proof. induction k as [|k IH]; simpl; [reflexivity | now rewrite IH]. Qed.

Lemma rounds_nonpositive (delay timeout : Z) :
  (0 < delay)%Z -> (timeout <= 0)%Z -> rounds delay timeout = O.
Proof.
  intros Hd Ht. unfold rounds.
  assert ((timeout + delay - 1) / delay <= 0)%Z.
  { apply Z.lt_succ_r. apply Z.div_lt_upper_bound; lia. }
  lia.
Qed.

Lemma rounds_positive (delay timeout : Z) :
  (0 < delay)%Z -> (0 < timeout)%Z ->
  rounds delay timeout = S (rounds delay (timeout - delay)).
Proof.
  intros Hd Ht. unfold rounds.
  replace (timeout + delay - 1)%Z with ((timeout - delay + delay - 1) + 1 * delay)%Z
    by lia.
  rewrite Z.div_add by lia.
  assert (0 <= (timeout - delay + delay - 1) / delay)%Z
    by (apply Z.div_pos; lia).
  lia.
Qed.

(** With enough fuel the loop over a never-ready source ends in the
    timeout, after [rounds delay timeout] rounds. *)
Lemma wait_loop_times_out (pod_list : string -> string -> nat -> list V1Pod)
    (label_selector info_msg : string) (delay : Z) :
  (0 < delay)%Z ->
  never_ready pod_list label_selector ->
  forall (fuel : nat) (timeout : Z) (i : nat),
    (rounds delay timeout < fuel)%nat ->
    wait_loop pod_list fuel label_selector info_msg delay timeout i
    = Some (Raise (TimeoutError "Wait for scaling: timeout reached!"),
            loop_trace info_msg delay (rounds delay timeout)).
Proof.
  intros Hd Hsrc. induction fuel as [|fuel IH]; intros timeout i Hfuel; [lia|].
  cbn [wait_loop]. destruct (Hsrc i) as [Hne Hnr]. rewrite Hne, Hnr. cbn [negb].
  destruct (Z.leb timeout 0) eqn:Ht.
  - apply Z.leb_le in Ht. now rewrite rounds_nonpositive.
  - apply Z.leb_gt in Ht. unfold sleep.
    replace (Z.ltb delay 0) with false by (symmetry; apply Z.ltb_ge; lia).
    rewrite (rounds_positive delay timeout Hd Ht) in *.
    rewrite IH by lia. reflexivity.
Qed.

(** With [delay = 0] and a positive timeout the loop over a never-ready
    source does not end: no amount of fuel yields an outcome. *)
Lemma wait_loop_zero_delay_runs_on (pod_list : string -> string -> nat -> list V1Pod)
    (label_selector info_msg : string) (timeout : Z) :
  (0 < timeout)%Z ->
  never_ready pod_list label_selector ->
  forall (fuel i : nat),
    wait_loop pod_list fuel label_selector info_msg 0 timeout i = None.
Proof.
  intros Ht Hsrc. induction fuel as [|fuel IH]; intros i; [reflexivity|].
  cbn [wait_loop]. destruct (Hsrc i) as [Hne Hnr]. rewrite Hne, Hnr. cbn [negb].
  replace (Z.leb timeout 0) with false by (symmetry; apply Z.leb_gt; lia).
  cbn [sleep Z.ltb Z.compare]. rewrite Z.sub_0_r. now rewrite IH.
Qed.

Lemma one_unready_pod_never_ready (label_selector : string) :
  never_ready one_unready_pod label_selector.
Proof. intros i. split; reflexivity. Qed.

(** C7, as the claim states it, fails when [delay] does not divide
    [timeout]: with [delay = 3], [timeout = 4], [start_delay = 3] the call
    raises the timeout after sleeping 9 seconds, more than
    [timeout + start_delay = 7]. *)
Lemma wait_pods_overshoots_timeout :
  exists tr,
    wait_pods one_unready_pod 10 "app=web" EmptyString 3 4 3
    = Some (Raise (TimeoutError "Wait for scaling: timeout reached!"), tr)
    /\ seconds_slept tr = 9%Z
    /\ ~ (seconds_slept tr <= 4 + 3)%Z.
Proof.
  eexists. split; [reflexivity|]. split; [reflexivity|].
  cbn. lia.
Qed.

(** C7, amended: for [delay > 0], [timeout >= 0], [start_delay >= 0] and a
    source whose matching pod set is never empty and never all ready,
    [wait_pods] ends by raising the timeout (every sufficient fuel gives
    that outcome), having slept [start_delay] and then [delay] once per
    round, [timeout / delay] rounded up rounds in all.  The seconds slept
    are at least [timeout + start_delay] and less than
    [timeout + start_delay + delay]; they are exactly
    [timeout + start_delay] when [delay] divides [timeout]. *)
Theorem wait_pods_times_out :
  forall (pod_list : string -> string -> nat -> list V1Pod)
         (label_selector msg : string) (delay timeout start_delay : Z),
    (0 < delay)%Z -> (0 <= timeout)%Z -> (0 <= start_delay)%Z ->
    never_ready pod_list label_selector ->
    exists (fuel0 : nat) (tr : list event),
      (forall fuel, (fuel0 <= fuel)%nat ->
         wait_pods pod_list fuel label_selector msg delay timeout start_delay
         = Some (Raise (TimeoutError "Wait for scaling: timeout reached!"), tr))
      /\ ticks tr = start_delay :: repeat delay (rounds delay timeout)
      /\ seconds_slept tr = (start_delay + delay * ((timeout + delay - 1) / delay))%Z
      /\ (timeout + start_delay <= seconds_slept tr < timeout + start_delay + delay)%Z
      /\ ((timeout mod delay = 0)%Z -> seconds_slept tr = (timeout + start_delay)%Z).
Proof.
  intros pod_list label_selector msg delay timeout start_delay Hd Ht Hs Hsrc.
  set (info_msg := "wait " ++ (if String.eqb msg EmptyString then "scaling" else msg)
                     ++ " ...").
  exists (S (rounds delay timeout)),
         (Logged info_msg :: Slept start_delay
            :: loop_trace info_msg delay (rounds delay timeout)).
  assert (Hq : (0 <= (timeout + delay - 1) / delay)%Z) by (apply Z.div_pos; lia).
  assert (Hslept : seconds_slept
                     (Logged info_msg :: Slept start_delay
                        :: loop_trace info_msg delay (rounds delay timeout))
                   = (start_delay + delay * ((timeout + delay - 1) / delay))%Z).
  { cbn [seconds_slept]. rewrite seconds_slept_loop_trace. unfold rounds.
    rewrite Z2Nat.id by exact Hq. reflexivity. }
  pose proof (Z.mul_div_le (timeout + delay - 1) delay Hd) as Hle.
  pose proof (Z.mul_succ_div_gt (timeout + delay - 1) delay Hd) as Hgt.
  split; [|split; [|split; [|split]]].
  - intros fuel Hfuel. unfold wait_pods. fold info_msg. unfold sleep.
    replace (Z.ltb start_delay 0) with false by (symmetry; apply Z.ltb_ge; lia).
    rewrite (wait_loop_times_out pod_list label_selector info_msg delay Hd Hsrc)
      by lia.
    reflexivity.
  - cbn [ticks]. now rewrite ticks_loop_trace.
  - exact Hslept.
  - rewrite Hslept. lia.
  - intros Hmod. rewrite Hslept.
    pose proof (Z.div_mod timeout delay ltac:(lia)) as Hdm. rewrite Hmod in Hdm.
    replace (timeout + delay - 1)%Z with ((delay - 1) + (timeout / delay) * delay)%Z
      by lia.
    rewrite Z.div_add by lia. rewrite (Z.div_small (delay - 1) delay) by lia. lia.
Qed.

(** C7, amended, on scenario E: [delay = 1], [timeout = 3],
    [start_delay = 1] and one never-ready pod give the timeout after four
    ticks of one second. *)
Lemma wait_pods_times_out_witness :
  exists (fuel0 : nat) (tr : list event),
    (forall fuel, (fuel0 <= fuel)%nat ->
       wait_pods one_unready_pod fuel "app=web" EmptyString 1 3 1
       = Some (Raise (TimeoutError "Wait for scaling: timeout reached!"), tr))
    /\ ticks tr = [1; 1; 1; 1]%Z
    /\ seconds_slept tr = 4%Z.
Proof.
  destruct (wait_pods_times_out one_unready_pod "app=web" EmptyString 1 3 1
              ltac:(lia) ltac:(lia) ltac:(lia)
              (one_unready_pod_never_ready "app=web"))
    as [fuel0 [tr [Hrun [Hticks [Hslept _]]]]].
  exists fuel0, tr. split; [exact Hrun|]. split; [exact Hticks | exact Hslept].
Defined.

(** Scenario E, run: four sleeps of one second, then the timeout. *)
Example wait_pods_scenario_e :
  option_map (fun r => (fst r, ticks (snd r)))
    (wait_pods one_unready_pod 4 "app=web" EmptyString 1 3 1)
  = Some (Raise (TimeoutError "Wait for scaling: timeout reached!"),
          [1; 1; 1; 1]%Z).
Proof. reflexivity. Qed.

(** A pod is ready when it is not being deleted and every container
    status reports ready; no container status at all counts as ready. *)
Example pod_without_statuses_ready :
  is_pod_ready {| deletion_timestamp := None; container_statuses := None |} = true.
Proof. reflexivity. Qed.

(** * Further properties of manifests.py *)

(** ** SecretImagePull *)

Lemma get_set_truthy (d : Py.dict (Py.dict string)) (k : string)
    (v : Py.dict string) :
  Py.truthy v = true -> Py.truthy_opt (Py.get (Py.set d k v) k) = true.
Proof. intros H. now rewrite get_set_same. Qed.

(** X1: [add_registry] is keyed by the registry: once a
    registry was added, adding it again, with any credentials, changes
    nothing, and the entry of a registry added to a builder that does not
    know it carries [auth = base64(username:password)]. *)
Theorem add_registry_first_wins :
  forall (s : SecretImagePull.state) (registry u p e u' p' e' : string),
    SecretImagePull.add_registry registry u' p' e'
      (SecretImagePull.add_registry registry u p e s)
    = SecretImagePull.add_registry registry u p e s
    /\ (Py.get (SecretImagePull._registries s) registry = None ->
        exists entry,
          Py.get (SecretImagePull._registries
                    (SecretImagePull.add_registry registry u p e s)) registry
          = Some entry
          /\ Py.get entry "username" = Some u
          /\ Py.get entry "password" = Some p
          /\ Py.get entry "email" = Some e
          /\ Py.get entry "auth" = Some (Base64.b64encode (u ++ ":" ++ p))).
Proof.
  intros s registry u p e u' p' e'. split.
  - unfold SecretImagePull.add_registry at 2 3.
    destruct (Py.truthy_opt (Py.get (SecretImagePull._registries s) registry)) eqn:T.
    + unfold SecretImagePull.add_registry. now rewrite T.
    + unfold SecretImagePull.add_registry. cbn [SecretImagePull._registries].
      now rewrite get_set_same.
  - intros Hnone. unfold SecretImagePull.add_registry. rewrite Hnone.
    cbn [Py.truthy_opt SecretImagePull._registries]. rewrite get_set_same.
    eexists. split; [reflexivity|]. repeat split; reflexivity.
Qed.

(** On a fresh builder, a registry added twice keeps the first
    credentials. *)
Lemma add_registry_first_wins_witness :
  exists entry,
    Py.get (SecretImagePull._registries
              (SecretImagePull.add_registry "r.io" "other" "secret" "o@x"
                 (SecretImagePull.add_registry "r.io" "u" "p" "e@x"
                    (SecretImagePull.init "reg")))) "r.io"
    = Some entry
    /\ Py.get entry "auth" = Some "dTpw".
Proof.
  destruct (add_registry_first_wins (SecretImagePull.init "reg") "r.io"
              "u" "p" "e@x" "other" "secret" "o@x") as [Hsame Hentry].
  destruct (Hentry eq_refl) as [entry [Hget [_ [_ [_ Hauth]]]]].
  exists entry. rewrite Hsame. split; [exact Hget | exact Hauth].
Defined.

(** ** Service *)

Lemma has_port_false (name : string) (ps : list V1ServicePort) :
  Service.has_port name ps = false -> ~ List.In name (map service_port_name ps).
Proof.
  induction ps as [|p ps IH]; simpl; [tauto|].
  intros H. apply orb_false_iff in H as [Hp Hps]. apply String.eqb_neq in Hp.
  intros [Hin|Hin]; [contradiction | now apply IH].
Qed.

Lemma add_port_present (name : string) (port : Z) (target : port_value)
    (proto : option string) (node_port : option Z) (app_protocol : option string)
    (s : Service.state) (ps : list V1ServicePort) :
  service_ports (service_spec (Service._svc s)) = Some ps ->
  Service.has_port name ps = true ->
  Service.add_port name port target proto node_port app_protocol s = s.
Proof.
  intros Hps Hhas. unfold Service.add_port. rewrite Hps.
  destruct ps as [|p ps]; [discriminate|]. cbn [Py.truthy_opt Py.truthy].
  now rewrite Hhas.
Qed.

Lemma add_port_stores (name : string) (port : Z) (target : port_value)
    (proto : option string) (node_port : option Z) (app_protocol : option string)
    (s : Service.state) :
  exists ps,
    service_ports (service_spec (Service._svc
      (Service.add_port name port target proto node_port app_protocol s))) = Some ps
    /\ Service.has_port name ps = true.
Proof.
  unfold Service.add_port.
  destruct (Py.truthy_opt (service_ports (service_spec (Service._svc s)))) eqn:T.
  - destruct (service_ports (service_spec (Service._svc s))) as [ps|] eqn:E;
      [|discriminate].
    destruct (Service.has_port name ps) eqn:H.
    + exists ps. now split.
    + eexists. split; [reflexivity|]. unfold Service.has_port.
      rewrite existsb_app. simpl. rewrite String.eqb_refl. now rewrite orb_true_r.
  - eexists. split; [reflexivity|]. unfold Service.has_port. simpl.
    now rewrite String.eqb_refl.
Qed.

(** X4: [Service.add_port] is keyed by the port name: a
    second call with a name the builder has, whatever its other
    arguments, changes nothing. *)
Theorem add_port_first_wins :
  forall (s : Service.state) (name : string) (port port' : Z)
         (target target' : port_value) (proto proto' : option string)
         (node_port node_port' : option Z) (app app' : option string),
    Service.add_port name port' target' proto' node_port' app'
      (Service.add_port name port target proto node_port app s)
    = Service.add_port name port target proto node_port app s.
Proof.
  intros.
  destruct (add_port_stores name port target proto node_port app s) as [ps [Hps Hhas]].
  now apply add_port_present with (ps := ps).
Qed.

(** X5: [Service.add_port] keeps the port names of the
    builder pairwise distinct, and leaves the name among them. *)
Theorem add_port_keeps_names_unique :
  forall (s : Service.state) (name : string) (port : Z) (target : port_value)
         (proto : option string) (node_port : option Z) (app : option string),
    NoDup (service_port_names s) ->
    NoDup (service_port_names
             (Service.add_port name port target proto node_port app s))
    /\ List.In name (service_port_names
                  (Service.add_port name port target proto node_port app s)).
Proof.
  intros s name port target proto node_port app Hnd.
  unfold service_port_names in *. unfold Service.add_port.
  destruct (service_ports (service_spec (Service._svc s))) as [[|p ps]|] eqn:E;
    cbn [Py.truthy_opt Py.truthy].
  - cbn. split; [repeat constructor; tauto | now left].
  - destruct (Service.has_port name (p :: ps)) eqn:H.
    + rewrite E. split; [exact Hnd|].
      unfold Service.has_port in H. apply existsb_exists in H as [q [Hq Hn]].
      apply String.eqb_eq in Hn. subst name. now apply in_map.
    + cbn [Service.with_ports Service.with_spec Service._svc service_spec
             service_ports].
      rewrite map_app. cbn [map service_port_name]. split.
      * apply NoDup_app; [exact Hnd | repeat constructor; tauto |].
        intros x Hx [Hx'|[]]. subst x. now apply (has_port_false _ _ H).
      * apply in_or_app. right. now left.
  - cbn. split; [repeat constructor; tauto | now left].
Qed.

(** Two ports on a fresh Service, then the first name again. *)
Lemma add_port_keeps_names_unique_witness :
  NoDup (service_port_names
           (Service.add_port "http" 8080 (PortInt 8080) None None None
              (Service.add_port "metrics" 9090 (PortStr "metrics") None None None
                 (Service.add_port "http" 80 (PortInt 8080) None None None
                    (Service.init "web"))))).
Proof.
  apply add_port_keeps_names_unique.
  apply add_port_keeps_names_unique.
  apply add_port_keeps_names_unique.
  constructor.
Defined.

(** ** Ingress backends *)

(** X6: [_ingress_backend] raises its [ValueError] exactly
    when neither a service name nor a reference is given, or a service name
    comes without a port (a port [0] or an empty port name counts as
    none, and a reference does not make up for it); [add_rule] and
    [set_default_backend] then raise and leave the builder as it was. *)
Theorem ingress_backend_rejects_iff :
  forall (service_name : option string) (service_port : option port_value)
         (ref : option V1TypedLocalObjectReference) (s : Ingress.state)
         (host path : string) (pt : IngressRulePathType),
    ((exists msg, Ingress._ingress_backend service_name service_port ref
                  = Raise (ValueError msg))
     <-> ((Py.truthy_str service_name = false /\ ref = None)
          \/ (Py.truthy_str service_name = true
              /\ Ingress.truthy_port service_port = false)))
    /\ (raises_value_error (Ingress._ingress_backend service_name service_port ref)
        = true ->
        raises_value_error
          (fst (Ingress.add_rule host path pt service_name service_port ref s)) = true
        /\ snd (Ingress.add_rule host path pt service_name service_port ref s) = s
        /\ raises_value_error
             (fst (Ingress.set_default_backend service_name service_port ref s)) = true
        /\ snd (Ingress.set_default_backend service_name service_port ref s) = s).
Proof.
  intros service_name service_port ref s host path pt. split.
  - unfold Ingress._ingress_backend.
    destruct (Py.truthy_str service_name) eqn:Hn;
      destruct (Ingress.truthy_port service_port) eqn:Hp;
      destruct ref as [r|]; cbn [negb andb].
    all: split.
    all: try (intros [msg H]; discriminate H).
    all: try (intros [[H1 H2]|[H1 H2]]; discriminate).
    all: try (intros _; eexists; reflexivity).
    all: try (intros _; now left).
    all: try (intros _; now right).
    destruct service_name as [n|]; [|discriminate]. intros [msg H]. discriminate H.
  - unfold Ingress.add_rule, Ingress.set_default_backend.
    destruct (Ingress._ingress_backend service_name service_port ref) as [b|e];
      [discriminate|].
    intros H. repeat split; assumption.
Qed.

(** A service name without a port is rejected, also next to a reference. *)
Lemma ingress_backend_rejects_iff_witness :
  snd (Ingress.add_rule "a.io" "/" Prefix (Some "web") None
         (Some {| ref_api_group := None; ref_kind := "Bucket"; ref_name := "b" |})
         (Ingress.init "front"))
  = Ingress.init "front".
Proof.
  apply (proj2 (ingress_backend_rejects_iff (Some "web") None
                  (Some {| ref_api_group := None; ref_kind := "Bucket";
                           ref_name := "b" |})
                  (Ingress.init "front") "a.io" "/" Prefix) eq_refl).
Defined.

(** X7: When [_ingress_backend] returns, a reference, if
    given, is the whole backend; otherwise the backend is the named
    service, with an [int] port as [number] and a [str] port as [name]. *)
Theorem ingress_backend_result :
  forall (service_name : option string) (service_port : option port_value)
         (ref : option V1TypedLocalObjectReference) (b : V1IngressBackend),
    Ingress._ingress_backend service_name service_port ref = Return b ->
    match ref with
    | Some r => b = {| backend_resource := Some r; backend_service := None |}
    | None =>
        backend_resource b = None
        /\ exists name,
             service_name = Some name /\ name <> EmptyString
             /\ ((exists n, service_port = Some (PortInt n) /\ n <> 0%Z
                            /\ backend_service b
                               = Some (name, {| port_name := None;
                                                port_number := Some n |}))
                 \/ (exists p, service_port = Some (PortStr p) /\ p <> EmptyString
                               /\ backend_service b
                                  = Some (name, {| port_name := Some p;
                                                   port_number := None |})))
    end.
Proof.
  intros service_name service_port ref b. unfold Ingress._ingress_backend.
  destruct (Py.truthy_str service_name) eqn:Hn;
    destruct (Ingress.truthy_port service_port) eqn:Hp;
    destruct ref as [r|]; cbn [negb andb]; try discriminate.
  - intros H. now injection H as <-.
  - destruct service_name as [name|]; [|discriminate].
    cbn in Hn. apply negb_true_iff in Hn. apply String.eqb_neq in Hn.
    destruct service_port as [[n|p]|]; [| |discriminate]; cbn in Hp;
      apply negb_true_iff in Hp; intros H; injection H as <-;
      (split; [reflexivity|]); exists name; (split; [reflexivity|]);
      (split; [exact Hn|]).
    + left. exists n. apply Z.eqb_neq in Hp. now repeat split.
    + right. exists p. apply String.eqb_neq in Hp. now repeat split.
  - intros H. now injection H as <-.
  - intros H. now injection H as <-.
Qed.

(** A numbered port and a named port. *)
Lemma ingress_backend_result_witness :
  Ingress._ingress_backend (Some "web") (Some (PortInt 80)) None
  = Return {| backend_resource := None;
              backend_service := Some ("web", {| port_name := None;
                                                 port_number := Some 80%Z |}) |}
  /\ backend_resource
       {| backend_resource := None;
          backend_service := Some ("web", {| port_name := Some "http";
                                             port_number := None |}) |} = None.
Proof.
  split; [reflexivity|].
  exact (proj1 (ingress_backend_result (Some "web") (Some (PortStr "http")) None
                  _ eq_refl)).
Defined.

(** ** Ingress rules and TLS entries stay keyed *)

Lemma has_path_false (path : string) (ps : list V1HTTPIngressPath) :
  Ingress.has_path path ps = false -> ~ List.In path (map path_path ps).
Proof.
  induction ps as [|p ps IH]; simpl; [tauto|].
  intros H. apply orb_false_iff in H as [Hp Hps]. apply String.eqb_neq in Hp.
  intros [Hin|Hin]; [contradiction | now apply IH].
Qed.

Lemma add_path_under_host_keeps_keys (host path : string) (bp : V1HTTPIngressPath)
    (rs rs' : list V1IngressRule) :
  path_path bp = path ->
  Ingress.add_path_under_host host path bp rs = Some rs' ->
  map rule_host rs' = map rule_host rs
  /\ (Forall (fun r => NoDup (map path_path (rule_paths r))) rs ->
      Forall (fun r => NoDup (map path_path (rule_paths r))) rs').
Proof.
  intros Hbp. revert rs'.
  induction rs as [|rule rs IH]; intros rs' H; simpl in H; [discriminate|].
  destruct (String.eqb (rule_host rule) host) eqn:Eh.
  - destruct (Ingress.has_path path (rule_paths rule)) eqn:Ep;
      injection H as <-; [now split|].
    split; [reflexivity|]. intros Hall. inversion Hall as [|? ? Hr Hrs]; subst.
    constructor; [|exact Hrs]. cbn [rule_paths]. rewrite map_app. cbn [map].
    apply NoDup_app; [exact Hr | repeat constructor; tauto |].
    intros x Hx [Hx'|[]]. subst x.
    now apply (has_path_false _ _ Ep).
  - destruct (Ingress.add_path_under_host host path bp rs) as [rs1|] eqn:E;
      [|discriminate].
    injection H as <-. destruct (IH rs1 eq_refl) as [Hhosts Hpaths]. split.
    + cbn [map]. now rewrite Hhosts.
    + intros Hall. inversion Hall as [|? ? Hr Hrs]; subst.
      constructor; [exact Hr | now apply Hpaths].
Qed.

Lemma add_path_under_host_none (host path : string) (bp : V1HTTPIngressPath)
    (rs : list V1IngressRule) :
  Ingress.add_path_under_host host path bp rs = None ->
  ~ List.In host (map rule_host rs).
Proof.
  induction rs as [|rule rs IH]; simpl; [tauto|].
  destruct (String.eqb (rule_host rule) host) eqn:Eh.
  - destruct (Ingress.has_path path (rule_paths rule)); discriminate.
  - destruct (Ingress.add_path_under_host host path bp rs); [discriminate|].
    intros _ [Hin|Hin].
    + apply String.eqb_neq in Eh. contradiction.
    + now apply IH.
Qed.

(** X8: [add_rule] keeps the rules keyed: if no host occurs
    twice among the rules and no path twice under a host, the same holds
    after the call, whether it returns or raises. *)
Theorem add_rule_keeps_rules_keyed :
  forall (s : Ingress.state) (host path : string) (pt : IngressRulePathType)
         (sn : option string) (sp : option port_value)
         (ref : option V1TypedLocalObjectReference),
    rules_keyed (ingress_rules s) ->
    rules_keyed (ingress_rules (snd (Ingress.add_rule host path pt sn sp ref s))).
Proof.
  intros s host path pt sn sp ref [Hhosts Hpaths]. unfold Ingress.add_rule.
  destruct (Ingress._ingress_backend sn sp ref) as [b|e]; [|now split].
  fold (ingress_rules s).
  set (bp := {| path_backend := b; path_path := path;
                path_type := IngressRulePathType_value pt |}).
  destruct (Ingress.add_path_under_host host path bp (ingress_rules s))
    as [rs'|] eqn:E; cbn [snd ingress_rules Ingress.with_rules Ingress.spec rules].
  - destruct (add_path_under_host_keeps_keys host path bp _ rs' eq_refl E)
      as [Hh Hp].
    split; [now rewrite Hh | now apply Hp].
  - split.
    + rewrite map_app. cbn [map rule_host].
      apply NoDup_app; [exact Hhosts | repeat constructor; tauto |].
      intros x Hx [Hx'|[]]. subst x. now apply (add_path_under_host_none _ _ _ _ E).
    + apply Forall_app. split; [exact Hpaths|].
      repeat constructor. cbn. tauto.
Qed.

(** Three calls on a fresh Ingress: two hosts, two paths under the first. *)
Lemma add_rule_keeps_rules_keyed_witness :
  rules_keyed
    (ingress_rules
       (snd (Ingress.add_rule "a.io" "/api" Exact (Some "api") (Some (PortInt 80)) None
          (snd (Ingress.add_rule "b.io" "/" Prefix (Some "web") (Some (PortInt 80)) None
             (snd (Ingress.add_rule "a.io" "/" Prefix (Some "web") (Some (PortInt 80))
                     None (Ingress.init "front")))))))).
Proof.
  apply add_rule_keeps_rules_keyed.
  apply add_rule_keeps_rules_keyed.
  apply add_rule_keeps_rules_keyed.
  split; constructor.
Defined.

Lemma secret_name_eqb_eq (a b : option string) :
  Ingress.secret_name_eqb a b = true <-> a = b.
Proof.
  destruct a as [x|], b as [y|]; simpl; split; intros H;
    try discriminate; try reflexivity.
  - apply String.eqb_eq in H. now subst.
  - injection H as ->. apply String.eqb_refl.
Qed.

(** X9: [add_tls] keeps the secret names of the TLS entries
    pairwise distinct, and leaves the given secret name among them. *)
Theorem add_tls_keeps_names_unique :
  forall (s : Ingress.state) (hosts : list string) (secret_name : option string),
    NoDup (ingress_tls_names s) ->
    NoDup (ingress_tls_names (Ingress.add_tls hosts secret_name s))
    /\ List.In secret_name (ingress_tls_names (Ingress.add_tls hosts secret_name s)).
Proof.
  intros s hosts secret_name Hnd. unfold ingress_tls_names in *.
  unfold Ingress.add_tls.
  destruct (tls (Ingress.spec s)) as [l|] eqn:E; cbn [Py.truthy_opt].
  - destruct (Py.truthy l) eqn:T.
    + destruct (existsb _ l) eqn:H.
      * rewrite E. split; [exact Hnd|].
        apply existsb_exists in H as [q [Hq Hn]].
        apply secret_name_eqb_eq in Hn. subst secret_name. now apply in_map.
      * cbn [Ingress.with_tls Ingress.spec tls]. rewrite map_app.
        cbn [map tls_secret_name]. split.
        -- apply NoDup_app; [exact Hnd | repeat constructor; tauto |].
           intros x Hx [Hx'|[]]. subst x.
           apply in_map_iff in Hx as [q [Hq Hin]].
           assert (Hex : existsb
                           (fun t0 => Ingress.secret_name_eqb secret_name
                                        (tls_secret_name t0)) l = true).
           { apply existsb_exists. exists q. split; [exact Hin|].
             apply secret_name_eqb_eq. now symmetry. }
           rewrite Hex in H. discriminate.
        -- apply in_or_app. right. now left.
    + cbn. split; [repeat constructor; tauto | now left].
  - cbn. split; [repeat constructor; tauto | now left].
Qed.

(** Two certificates on a fresh Ingress, then the first again. *)
Lemma add_tls_keeps_names_unique_witness :
  NoDup (ingress_tls_names
           (Ingress.add_tls ["c.io"] (Some "cert-a")
              (Ingress.add_tls ["b.io"] (Some "cert-b")
                 (Ingress.add_tls ["a.io"] (Some "cert-a") (Ingress.init "front"))))).
Proof.
  apply add_tls_keeps_names_unique.
  apply add_tls_keeps_names_unique.
  apply add_tls_keeps_names_unique.
  constructor.
Defined.

(** ** Deployment and StatefulSet builders reached through the mutators *)

(** What every reachable Deployment builder satisfies: [self._deploy] has
    no metadata, and its selector is an object whose [match_expressions]
    is unset. *)
Lemma deployment_reachable_invariant (s : Deployment.state) :
  deployment_reachable s ->
  deploy_metadata (Deployment._deploy s) = None
  /\ exists sel,
       deploy_selector (deploy_spec (Deployment._deploy s)) = Some sel
       /\ match_expressions sel = None.
Proof.
  induction 1 as [name c | n s _ [Hm [sel [Hs He]]] | kw s _ [Hm [sel [Hs He]]]
                 | key operator values s _ [Hm [sel [Hs He]]]
                 | kw s _ [Hm [sel [Hs He]]] | kw s _ [Hm [sel [Hs He]]]].
  - split; [reflexivity|]. eexists. split; reflexivity.
  - split; [exact Hm|]. exists sel. split; [exact Hs | exact He].
  - unfold Deployment.set_selector_match_labels. rewrite Hs.
    split; [exact Hm|]. eexists. split; [reflexivity | exact He].
  - unfold Deployment.add_selector_match_expressions. rewrite Hs.
    pose proof (add_match_expressions_keeps_plural key operator values sel) as Hk.
    destruct (selector_add_match_expressions key operator values sel) as [r sel'].
    split; [exact Hm|]. exists sel'. split; [reflexivity|].
    simpl in Hk. now rewrite Hk.
  - unfold Deployment.set_annotations. rewrite Hm.
    split; [exact Hm|]. exists sel. split; [exact Hs | exact He].
  - unfold Deployment.set_labels. rewrite Hm.
    split; [exact Hm|]. exists sel. split; [exact Hs | exact He].
Qed.

(** X10: A Deployment builder reached through the mutators emits a
    manifest only after [set_selector_match_labels]: without match labels
    reading [manifest] raises the [ValueError] of the selector setter
    (match expressions added to the builder do not count), and with them
    the emitted selector holds the labels, which [selector_match_labels]
    returns, and no match expressions. *)
Theorem deployment_never_emits_match_expressions :
  forall (s : Deployment.state),
    deployment_reachable s ->
    (Deployment.selector_match_labels s
     = Raise (AttributeError "'NoneType' object has no attribute 'copy'")
     /\ Deployment.manifest s = Raise Deployment.selector_required)
    \/ (exists o sel labels,
           Deployment.manifest s = Return o
           /\ deploy_selector (deploy_spec o) = Some sel
           /\ match_expressions sel = None
           /\ match_labels sel = Some labels
           /\ Deployment.selector_match_labels s = Return labels).
Proof.
  intros s H. destruct (deployment_reachable_invariant s H) as [_ [sel [Hs He]]].
  unfold Deployment.manifest, Deployment.selector_match_labels. rewrite Hs, He.
  destruct (match_labels sel) as [labels|] eqn:El.
  - right. eexists. exists sel, labels. repeat split; try reflexivity; assumption.
  - left. split; reflexivity.
Qed.

(** A Deployment with a match expression and no labels emits nothing; with
    labels it emits them and no expression. *)
Lemma deployment_never_emits_match_expressions_witness :
  Deployment.manifest
    (snd (Deployment.add_selector_match_expressions "tier" "In" ["a"]
            (Deployment.init "web" web)))
  = Raise Deployment.selector_required
  /\ exists o sel,
       Deployment.manifest
         (snd (Deployment.set_selector_match_labels [("app", "web")]
                 (snd (Deployment.add_selector_match_expressions "tier" "In" ["a"]
                         (Deployment.init "web" web)))))
       = Return o
       /\ deploy_selector (deploy_spec o) = Some sel
       /\ match_expressions sel = None
       /\ match_labels sel = Some [("app", "web")].
Proof.
  split.
  - destruct (deployment_never_emits_match_expressions
                (snd (Deployment.add_selector_match_expressions "tier" "In" ["a"]
                        (Deployment.init "web" web)))
                (deployment_after_add_selector_match_expressions "tier" "In" ["a"] _
                   (deployment_fresh "web" web)))
      as [[_ Hraise]|[o [sel [labels [Ho _]]]]]; [exact Hraise | discriminate Ho].
  - destruct (deployment_never_emits_match_expressions
                (snd (Deployment.set_selector_match_labels [("app", "web")]
                        (snd (Deployment.add_selector_match_expressions
                                "tier" "In" ["a"] (Deployment.init "web" web)))))
                (deployment_after_set_selector_match_labels [("app", "web")] _
                   (deployment_after_add_selector_match_expressions
                      "tier" "In" ["a"] _ (deployment_fresh "web" web))))
      as [[Hcopy _]|[o [sel [labels [Ho [Hsel [He [Hl Hcopy]]]]]]]];
      [discriminate Hcopy|].
    exists o, sel. repeat split; try assumption.
    rewrite Hl. f_equal. now injection Hcopy.
Defined.

Lemma statefulset_reachable_invariant (s : StatefulSet.state) :
  statefulset_reachable s ->
  sts_metadata (StatefulSet._sts s) = None
  /\ match_expressions (sts_selector (sts_spec (StatefulSet._sts s))) = None.
Proof.
  induction 1 as [name c | name s _ [Hm He] | n s _ [Hm He] | kw s _ [Hm He]
                 | key operator values s _ [Hm He]
                 | kw s _ [Hm He] | kw s _ [Hm He]].
  - split; reflexivity.
  - split; [exact Hm | exact He].
  - split; [exact Hm | exact He].
  - split; [exact Hm | exact He].
  - unfold StatefulSet.add_selector_match_expressions.
    pose proof (add_match_expressions_keeps_plural key operator values
                  (sts_selector (sts_spec (StatefulSet._sts s)))) as Hk.
    destruct (selector_add_match_expressions key operator values
                (sts_selector (sts_spec (StatefulSet._sts s)))) as [r sel'].
    split; [exact Hm|]. simpl in Hk. cbn. now rewrite Hk.
  - unfold StatefulSet.set_annotations. rewrite Hm. split; [exact Hm | exact He].
  - unfold StatefulSet.set_labels. rewrite Hm. split; [exact Hm | exact He].
Qed.

(** X11: A StatefulSet builder reached through the
    mutators emits a manifest only after [set_selector_match_labels]: the
    emitted selector has match labels and no match expressions, and the
    service name is not empty. *)
Theorem statefulset_emits_labels_only :
  forall (s : StatefulSet.state) (o : V1StatefulSet),
    statefulset_reachable s ->
    StatefulSet.manifest s = Return o ->
    match_labels (sts_selector (sts_spec o)) <> None
    /\ match_expressions (sts_selector (sts_spec o)) = None
    /\ sts_service_name (sts_spec o) <> EmptyString.
Proof.
  intros s o H Ho. destruct (statefulset_reachable_invariant s H) as [_ He].
  unfold StatefulSet.manifest in Ho.
  destruct (String.eqb (sts_service_name (sts_spec (StatefulSet._sts s))) EmptyString)
    eqn:En; [discriminate|].
  rewrite He in Ho.
  destruct (match_labels (sts_selector (sts_spec (StatefulSet._sts s)))) as [l|] eqn:El;
    [|discriminate].
  injection Ho as <-. cbn [sts_spec sts_selector sts_service_name].
  rewrite El, He. apply String.eqb_neq in En. repeat split; [discriminate | exact En].
Qed.

(** A StatefulSet with a service name and labels. *)
Lemma statefulset_emits_labels_only_witness :
  exists o,
    StatefulSet.manifest
      (StatefulSet.set_selector_match_labels [("app", "db")]
         (StatefulSet.set_service_name "db" (StatefulSet.init "db" web)))
    = Return o
    /\ match_labels (sts_selector (sts_spec o)) <> None.
Proof.
  eexists. split; [reflexivity|].
  apply (statefulset_emits_labels_only
           (StatefulSet.set_selector_match_labels [("app", "db")]
              (StatefulSet.set_service_name "db" (StatefulSet.init "db" web)))
           _
           (statefulset_after_set_selector_match_labels _ _
              (statefulset_after_set_service_name "db" _
                 (statefulset_fresh "db" web)))
           eq_refl).
Defined.

(** X12: On a Deployment or StatefulSet builder reached
    through the mutators, [set_annotations] and [set_labels] always raise
    [AttributeError] (the wrapped object has no metadata to assign to) and
    leave the builder as it was. *)
Theorem workload_metadata_setters_raise :
  forall (kw : Py.dict string),
    (forall d : Deployment.state,
        deployment_reachable d ->
        Deployment.set_annotations kw d
        = (Raise (AttributeError "'NoneType' object has no attribute 'annotations'"), d)
        /\ Deployment.set_labels kw d
           = (Raise (AttributeError "'NoneType' object has no attribute 'labels'"), d))
    /\ (forall s : StatefulSet.state,
           statefulset_reachable s ->
           StatefulSet.set_annotations kw s
           = (Raise (AttributeError "'NoneType' object has no attribute 'annotations'"), s)
           /\ StatefulSet.set_labels kw s
              = (Raise (AttributeError "'NoneType' object has no attribute 'labels'"), s)).
Proof.
  intros kw. split.
  - intros d H. destruct (deployment_reachable_invariant d H) as [Hm _].
    unfold Deployment.set_annotations, Deployment.set_labels. rewrite Hm. now split.
  - intros s H. destruct (statefulset_reachable_invariant s H) as [Hm _].
    unfold StatefulSet.set_annotations, StatefulSet.set_labels. rewrite Hm. now split.
Qed.

(** Labels on a Deployment that has its replicas set. *)
Lemma workload_metadata_setters_raise_witness :
  Deployment.set_labels [("app", "web")]
    (Deployment.set_replicas 3 (Deployment.init "web" web))
  = (Raise (AttributeError "'NoneType' object has no attribute 'labels'"),
     Deployment.set_replicas 3 (Deployment.init "web" web)).
Proof.
  apply (proj1 (workload_metadata_setters_raise [("app", "web")])
           (Deployment.set_replicas 3 (Deployment.init "web" web))
           (deployment_after_set_replicas 3 _ (deployment_fresh "web" web))).
Defined.

(** X13: [add_selector_match_expressions] of a Deployment
    or StatefulSet raises [ValueError] exactly for an operator outside
    [In], [NotIn], [Exists], [DoesNotExist], and then leaves the selector
    untouched. *)
Theorem add_match_expressions_checks_operator :
  forall (key operator : string) (values : list string) (sel : V1LabelSelector),
    ((exists msg, fst (selector_add_match_expressions key operator values sel)
                  = Raise (ValueError msg))
     <-> ~ List.In operator ["In"; "NotIn"; "Exists"; "DoesNotExist"])
    /\ (raises_value_error (fst (selector_add_match_expressions key operator values sel))
        = true ->
        snd (selector_add_match_expressions key operator values sel) = sel).
Proof.
  intros key operator values sel.
  assert (Hin : Py.str_in operator allowed_operators = true
                <-> List.In operator ["In"; "NotIn"; "Exists"; "DoesNotExist"]).
  { unfold Py.str_in, allowed_operators. rewrite existsb_exists. split.
    - intros [x [Hx He]]. apply String.eqb_eq in He. now subst.
    - intros H. exists operator. split; [exact H | apply String.eqb_refl]. }
  unfold selector_add_match_expressions.
  destruct (Py.str_in operator allowed_operators) eqn:Hop; cbn [negb].
  - assert (Hno : forall r : res unit * V1LabelSelector,
               (exists l, r = (Return tt, l)) \/ (exists m l, r = (Raise (AttributeError m), l)) ->
               ~ (exists msg, fst r = Raise (ValueError msg))
               /\ raises_value_error (fst r) = false).
    { intros r [[l ->]|[m [l ->]]]; split; try reflexivity;
        intros [msg Hm]; discriminate Hm. }
    match goal with
    | |- ((exists msg, fst ?r = _) <-> _) /\ _ =>
        assert (Hr : (exists l, r = (Return tt, l))
                     \/ (exists m l, r = (Raise (AttributeError m), l)))
    end.
    { destruct (Py.truthy_opt (match_expressions sel)).
      - destruct (match_expressions sel) as [l|].
        + destruct (has_requirement key operator l); [left; eexists; reflexivity|].
          destruct (match_expression sel);
            [left | right; eexists]; eexists; reflexivity.
        + destruct (match_expression sel);
            [left | right; eexists]; eexists; reflexivity.
      - left. eexists. reflexivity. }
    destruct (Hno _ Hr) as [Hn Hv]. split.
    + split; [intros H; contradiction | intros H; exfalso; apply H; now apply Hin].
    + rewrite Hv. discriminate.
  - split.
    + split; [|intros _; eexists; reflexivity].
      intros _ H. apply Hin in H. discriminate.
    + reflexivity.
Qed.

(** The operator [Equals] is rejected on a Deployment. *)
Lemma add_match_expressions_checks_operator_witness :
  snd (selector_add_match_expressions "tier" "Equals" ["a"] V1LabelSelector_init)
  = V1LabelSelector_init.
Proof.
  apply (proj2 (add_match_expressions_checks_operator "tier" "Equals" ["a"]
                  V1LabelSelector_init) eq_refl).
Defined.

(** ** Job *)

Lemma job_apply_keeps_spec_fields (s : Job.state) (c : job_call) :
  job_ttl_seconds_after_finished (job_spec (Job._job (job_apply s c)))
  = job_ttl_seconds_after_finished (job_spec (Job._job s))
  /\ job_parallelism (job_spec (Job._job (job_apply s c)))
     = job_parallelism (job_spec (Job._job s)).
Proof. destruct c; split; reflexivity. Qed.

(** X14: Whatever calls of [set_backoff_limit],
    [set_ttl_seconds_after_finished] and [set_parallelism] are made on a
    fresh Job builder, the emitted [spec] has neither
    [ttl_seconds_after_finished] nor [parallelism]: the two setters assign
    on the job object, not on its [spec]. *)
Theorem job_never_emits_ttl_or_parallelism :
  forall (name : string) (c : Container) (calls : list job_call),
    let o := Job.manifest (fold_left job_apply calls (Job.init name c)) in
    job_ttl_seconds_after_finished (job_spec o) = None
    /\ job_parallelism (job_spec o) = None.
Proof.
  intros name c calls.
  assert (H : forall s,
             job_ttl_seconds_after_finished
               (job_spec (Job._job (fold_left job_apply calls s)))
             = job_ttl_seconds_after_finished (job_spec (Job._job s))
             /\ job_parallelism (job_spec (Job._job (fold_left job_apply calls s)))
                = job_parallelism (job_spec (Job._job s))).
  { induction calls as [|call calls IH]; intros s; [now split|].
    cbn [fold_left]. destruct (IH (job_apply s call)) as [H1 H2].
    destruct (job_apply_keeps_spec_fields s call) as [H3 H4].
    split; congruence. }
  destruct (H (Job.init name c)) as [H1 H2].
  cbv zeta. unfold Job.manifest. cbn [job_spec job_ttl_seconds_after_finished job_parallelism].
  now rewrite H1, H2.
Qed.

(** The value given to [set_backoff_limit] is emitted; the value given to
    [set_parallelism] stays on the job object. *)
Example job_parallelism_on_object :
  let o := Job.manifest
             (Job.set_parallelism 4 (Job.set_backoff_limit 2 (Job.init "batch" web))) in
  job_backoff_limit (job_spec o) = Some 2%Z
  /\ job_parallelism (job_spec o) = None
  /\ job_object_parallelism o = Some 4%Z.
Proof. repeat split. Qed.

(** ** PersistentVolumeClaim *)

Lemma pvc_add_appends (key : string) (operator : MatchExprOperator.t)
    (values : list string) (s : PersistentVolumeClaim.state) :
  pvc_expressions
    (PersistentVolumeClaim.add_selector_match_expressions key operator values s)
  = (pvc_expressions s
     ++ [{| req_key := key; req_operator := MatchExprOperator.value operator;
            req_values := values |}])%list.
Proof.
  unfold pvc_expressions, PersistentVolumeClaim.add_selector_match_expressions,
    PersistentVolumeClaim.checked_selector.
  destruct (pvc_selector (PersistentVolumeClaim.spec s)) as [sel|]; cbn;
    [|reflexivity].
  destruct (match_expressions sel) as [[|r l]|]; reflexivity.
Qed.

(** X15: [add_selector_match_expressions] of a PVC builder
    accumulates: after any calls, the builder holds the requirements it
    held before followed by one requirement per call, in call order and
    with repeated keys kept; [manifest] emits them, and [set_match_labels]
    and [set_access_modes] leave them alone. *)
Theorem pvc_match_expressions_accumulate :
  forall (s : PersistentVolumeClaim.state) (calls : list pvc_requirement_call)
         (labels : Py.dict string) (modes : list PVCAccessMode),
    pvc_expressions (fold_left pvc_add calls s)
    = (pvc_expressions s ++ map pvc_requirement calls)%list
    /\ pvc_expressions (PersistentVolumeClaim.set_match_labels labels s)
       = pvc_expressions s
    /\ pvc_expressions (PersistentVolumeClaim.set_access_modes modes s)
       = pvc_expressions s
    /\ pvc_spec (PersistentVolumeClaim.manifest s) = PersistentVolumeClaim.spec s.
Proof.
  intros s calls labels modes. split; [|split; [|split]].
  - revert s. induction calls as [|[[key operator] values] calls IH]; intros s.
    + cbn. now rewrite app_nil_r.
    + cbn [fold_left map]. rewrite IH. unfold pvc_add at 1. rewrite pvc_add_appends.
      rewrite <- app_assoc. reflexivity.
  - unfold pvc_expressions, PersistentVolumeClaim.set_match_labels,
      PersistentVolumeClaim.checked_selector.
    destruct (pvc_selector (PersistentVolumeClaim.spec s)); reflexivity.
  - reflexivity.
  - reflexivity.
Qed.

(** The same key twice on a fresh PVC builder: both requirements are
    kept. *)
Example pvc_keeps_repeated_keys :
  pvc_expressions
    (fold_left pvc_add
       [("tier", MatchExprOperator.In, ["a"]); ("tier", MatchExprOperator.In, ["b"])]
       (PersistentVolumeClaim.init "data"))
  = [{| req_key := "tier"; req_operator := "In"; req_values := ["a"] |};
     {| req_key := "tier"; req_operator := "In"; req_values := ["b"] |}].
Proof. reflexivity. Qed.

(** * Further properties of kube.py *)

(** ** PodStatus, JobStatus, is_pod_ready *)

(** [PodStatus.__int__] is 0 exactly for [Running] and
    [Succeeded], 1 exactly for [Failed], and 255 for every other status
    text. *)
Lemma pod_status_int_table :
  forall status : string,
    (PodStatus.int status = 0%Z
     <-> orb (PodStatus.is_running status) (PodStatus.is_succeeded status) = true)
    /\ (PodStatus.int status = 1%Z <-> PodStatus.is_failed status = true)
    /\ (PodStatus.int status = 255%Z
        <-> status <> "Running" /\ status <> "Succeeded" /\ status <> "Failed").
Proof.
  intros status.
  unfold PodStatus.int, PodStatus.is_running, PodStatus.is_succeeded,
    PodStatus.is_failed, Py.str_in. cbn [existsb].
  destruct (String.eqb_spec status "Running") as [Er|Er];
    destruct (String.eqb_spec status "Succeeded") as [Es|Es];
    destruct (String.eqb_spec status "Failed") as [Ef|Ef]; cbn [orb].
  all: repeat split; try discriminate; try reflexivity; try tauto; try congruence.
  all: try (intros [H1 [H2 H3]]; congruence).
Qed.

(** X16: [JobStatus] reads the three counters in the order
    active, succeeded, failed and only a count of exactly 1 counts: the
    exit code is 0 exactly when [active] or [succeeded] is 1, and 1 exactly
    when neither is 1 and [failed] is 1; any other counters (two succeeded
    pods, say) give 255. *)
Theorem job_status_int_table :
  forall st : V1JobStatus,
    (PodStatus.int (JobStatus.init st) = 0%Z
     <-> active st = Some 1%Z \/ succeeded_count st = Some 1%Z)
    /\ (PodStatus.int (JobStatus.init st) = 1%Z
        <-> active st <> Some 1%Z /\ succeeded_count st <> Some 1%Z
            /\ failed_count st = Some 1%Z)
    /\ (PodStatus.int (JobStatus.init st) = 0%Z
        \/ PodStatus.int (JobStatus.init st) = 1%Z
        \/ PodStatus.int (JobStatus.init st) = 255%Z).
Proof.
  intros st.
  assert (Hone : forall n, JobStatus.is_one n = true <-> n = Some 1%Z).
  { intros [k|]; simpl; [|split; discriminate].
    rewrite Z.eqb_eq. split; [now intros -> | now intros [= ->]]. }
  assert (Hnot : forall n, JobStatus.is_one n = false -> n <> Some 1%Z).
  { intros n Hn H. apply Hone in H. congruence. }
  unfold JobStatus.init.
  destruct (JobStatus.is_one (active st)) eqn:Ea.
  { apply Hone in Ea. change (PodStatus.int "Running") with 0%Z.
    repeat split; try tauto; try discriminate. }
  apply Hnot in Ea.
  destruct (JobStatus.is_one (succeeded_count st)) eqn:Es.
  { apply Hone in Es. change (PodStatus.int "Succeeded") with 0%Z.
    repeat split; try tauto; try discriminate. }
  apply Hnot in Es.
  destruct (JobStatus.is_one (failed_count st)) eqn:Ef.
  { apply Hone in Ef. change (PodStatus.int "Failed") with 1%Z.
    repeat split; try tauto; try discriminate. }
  apply Hnot in Ef. change (PodStatus.int "Unknown") with 255%Z.
  repeat split; try tauto; try discriminate.
Qed.

(** Two succeeded pods are an unknown status. *)
Example job_status_two_succeeded :
  PodStatus.int (JobStatus.init {| active := None; succeeded_count := Some 2%Z;
                                    failed_count := None |}) = 255%Z.
Proof. reflexivity. Qed.

(** [is_pod_ready] holds exactly for a pod without a
    deletion timestamp all of whose container statuses are present and
    ready; a pod without container statuses is ready, a pod being deleted
    never is. *)
Lemma is_pod_ready_iff :
  forall pod : V1Pod,
    is_pod_ready pod = true
    <-> deletion_timestamp pod = None
        /\ forall s, List.In s (match container_statuses pod with
                                | Some l => l
                                | None => []
                                end) -> s = Some true.
Proof.
  intros pod. unfold is_pod_ready. rewrite andb_true_iff, forallb_forall. split.
  - intros [Hd Hs]. split.
    + destruct (deletion_timestamp pod); [discriminate | reflexivity].
    + intros s Hin. specialize (Hs s Hin). destruct s as [[|]|]; try discriminate.
      reflexivity.
  - intros [Hd Hs]. split.
    + now rewrite Hd.
    + intros s Hin. now rewrite (Hs s Hin).
Qed.

(** ** Lines: rstrip, split, the collector and the log tail *)

Lemma rev_string_acc (s acc : string) :
  Py.rev_string s acc = Py.rev_string s EmptyString ++ acc.
Proof.
  revert acc. induction s as [|c s IH]; intros acc; simpl; [reflexivity|].
  rewrite (IH (String c acc)), (IH (String c EmptyString)).
  now rewrite append_assoc.
Qed.






Lemma join_cons (sep x : string) (l : list string) :
  l <> [] -> Py.join sep (x :: l) = x ++ sep ++ Py.join sep l.
Proof. destruct l; [congruence | reflexivity]. Qed.

Lemma split_lines_from_nonempty (s cur : string) : split_lines_from s cur <> [].
Proof.
  revert cur. induction s as [|c s IH]; intros cur; simpl; [discriminate|].
  destruct (Ascii.eqb c newline); [discriminate | apply IH].
Qed.

Lemma join_split_lines_from (s cur : string) :
  Py.join (String newline EmptyString) (split_lines_from s cur)
  = Py.rev_string cur EmptyString ++ s.
Proof.
  revert cur. induction s as [|c s IH]; intros cur; simpl.
  - now rewrite append_empty_r.
  - destruct (Ascii.eqb c newline) eqn:E.
    + apply Ascii.eqb_eq in E. subst c.
      rewrite join_cons by apply split_lines_from_nonempty.
      rewrite IH. reflexivity.
    + rewrite IH. simpl. rewrite (rev_string_acc cur (String c EmptyString)).
      now rewrite append_assoc.
Qed.

Lemma has_newline_app (a b : string) :
  has_newline (a ++ b) = orb (has_newline a) (has_newline b).
Proof.
  induction a as [|c a IH]; simpl; [reflexivity|].
  now rewrite IH, orb_assoc.
Qed.

Lemma has_newline_rev (s : string) :
  has_newline (Py.rev_string s EmptyString) = has_newline s.
Proof.
  induction s as [|c s IH]; simpl; [reflexivity|].
  rewrite (rev_string_acc s (String c EmptyString)), has_newline_app, IH. simpl.
  rewrite orb_false_r. apply orb_comm.
Qed.

Lemma split_lines_from_no_newline (s cur : string) :
  has_newline cur = false ->
  Forall (fun line => has_newline line = false) (split_lines_from s cur).
Proof.
  revert cur. induction s as [|c s IH]; intros cur Hcur; simpl.
  - constructor; [|constructor]. now rewrite has_newline_rev.
  - destruct (Ascii.eqb c newline) eqn:E.
    + constructor; [now rewrite has_newline_rev | now apply IH].
    + apply IH. simpl. now rewrite E.
Qed.

(** [split("\n")] and [join] are inverse on the lines of a
    text: joining the pieces with newlines gives the text back, there is
    always at least one piece (the empty text splits into one empty line),
    and no piece holds a newline. *)
Lemma split_lines_join :
  forall s : string,
    Py.join (String newline EmptyString) (split_lines s) = s
    /\ split_lines s <> []
    /\ Forall (fun line => has_newline line = false) (split_lines s).
Proof.
  intros s. unfold split_lines. split; [|split].
  - now rewrite join_split_lines_from.
  - apply split_lines_from_nonempty.
  - now apply split_lines_from_no_newline.
Qed.

(** X17: [ResponseDataCollector.write] never raises; it
    appends at least one line, the lines it appends are free of newlines,
    and joined by newlines they are the data without its trailing
    newlines.  So a write of an empty text, or of newlines only, appends
    one empty line. *)
Theorem collector_write_lines :
  forall (collected : list string) (data : string),
    exists added,
      write (ResponseDataCollector collected) data
      = Return (ResponseDataCollector (collected ++ added)%list)
      /\ added <> []
      /\ Forall (fun line => has_newline line = false) added
      /\ Py.join (String newline EmptyString) added = rstrip_newlines data
      /\ (rstrip_newlines data = EmptyString -> added = [EmptyString]).
Proof.
  intros collected data. exists (split_lines (rstrip_newlines data)).
  destruct (split_lines_join (rstrip_newlines data)) as [Hj [Hn Hf]].
  split; [reflexivity|]. split; [exact Hn|]. split; [exact Hf|].
  split; [exact Hj|]. intros ->. reflexivity.
Qed.



(** ** base64: encoding and decoding are inverse *)

Lemma digit_decodes (n : N) :
  (n < 64)%N ->
  Base64Decode.value_of (Base64.digit n) = Some n
  /\ Ascii.eqb (Base64.digit n) "="%char = false.
Proof.
  intros Hn.
  assert (Hall : forallb
                   (fun k => andb
                      (match Base64Decode.value_of (Base64.digit (N.of_nat k)) with
                       | Some m => N.eqb m (N.of_nat k)
                       | None => false
                       end)
                      (negb (Ascii.eqb (Base64.digit (N.of_nat k)) "="%char)))
                   (seq 0 64) = true) by (vm_compute; reflexivity).
  rewrite forallb_forall in Hall.
  specialize (Hall (N.to_nat n)). rewrite Nnat.N2Nat.id in Hall.
  assert (Hin : List.In (N.to_nat n) (seq 0 64)) by (apply in_seq; lia).
  apply Hall in Hin. apply andb_true_iff in Hin as [Hv He].
  destruct (Base64Decode.value_of (Base64.digit n)) as [m|]; [|discriminate].
  apply N.eqb_eq in Hv. subst m. apply negb_true_iff in He. now split.
Qed.

Lemma sextets (a b c : N) :
  (a < 256)%N -> (b < 256)%N -> (c < 256)%N ->
  let n := (a * 65536 + b * 256 + c)%N in
  (n / 262144 < 64)%N
  /\ ((n / 4096) mod 64 < 64)%N
  /\ ((n / 64) mod 64 < 64)%N
  /\ (n mod 64 < 64)%N
  /\ ((n / 262144) * 4 + ((n / 4096) mod 64) / 16 = a)%N
  /\ ((((n / 4096) mod 64) mod 16) * 16 + ((n / 64) mod 64) / 4 = b)%N
  /\ ((((n / 64) mod 64) mod 4) * 64 + n mod 64 = c)%N.
Proof.
  intros Ha Hb Hc n. subst n.
  repeat split; zify; Z.to_euclidean_division_equations; lia.
Qed.

Lemma byte_bound (a : ascii) : (N_of_ascii a < 256)%N.
Proof. apply N_ascii_bounded. Qed.

(** One step of the decoder on a character of the alphabet. *)
Lemma a2b_digit (n : N) (s : string) (quad_pos : nat) (leftchar : N) (pads : nat) :
  (n < 64)%N ->
  Base64Decode.a2b_base64 (String (Base64.digit n) s) quad_pos leftchar pads
  = match quad_pos with
    | 0%nat => Base64Decode.a2b_base64 s 1 n 0
    | 1%nat => Base64Decode.push (leftchar * 4 + n / 16)
                 (Base64Decode.a2b_base64 s 2 (n mod 16) 0)
    | 2%nat => Base64Decode.push (leftchar * 16 + n / 4)
                 (Base64Decode.a2b_base64 s 3 (n mod 4) 0)
    | _ => Base64Decode.push (leftchar * 64 + n) (Base64Decode.a2b_base64 s 0 0%N 0)
    end.
Proof.
  intros Hn. destruct (digit_decodes n Hn) as [Hv He].
  cbn [Base64Decode.a2b_base64]. now rewrite He, Hv.
Qed.

Lemma b64encode_three (a b c : ascii) (rest : string) :
  Base64.b64encode (String a (String b (String c rest)))
  = Base64.quad (N_of_ascii a * 65536 + N_of_ascii b * 256 + N_of_ascii c) 0
      ++ Base64.b64encode rest.
Proof. reflexivity. Qed.

Lemma decode_three (a b c : ascii) (rest : string) (leftchar : N) :
  Base64Decode.a2b_base64
    (Base64.quad (N_of_ascii a * 65536 + N_of_ascii b * 256 + N_of_ascii c) 0 ++ rest)
    0 leftchar 0
  = option_map (fun t => String a (String b (String c t)))
      (Base64Decode.a2b_base64 rest 0 0%N 0).
Proof.
  destruct (sextets (N_of_ascii a) (N_of_ascii b) (N_of_ascii c)
              (byte_bound a) (byte_bound b) (byte_bound c))
    as [H0 [H1 [H2 [H3 [Ha [Hb Hc]]]]]].
  unfold Base64.quad. cbn [append].
  rewrite (a2b_digit _ _ 0 _ _ H0), (a2b_digit _ _ 1 _ _ H1),
    (a2b_digit _ _ 2 _ _ H2), (a2b_digit _ _ 3 _ _ H3).
  rewrite Ha, Hb, Hc. unfold Base64Decode.push. rewrite !ascii_N_embedding.
  destruct (Base64Decode.a2b_base64 rest 0 0%N 0); reflexivity.
Qed.

Lemma decode_two (a b : ascii) (leftchar : N) :
  Base64Decode.a2b_base64
    (Base64.quad (N_of_ascii a * 65536 + N_of_ascii b * 256) 1) 0 leftchar 0
  = Some (String a (String b EmptyString)).
Proof.
  assert (Hz : (0 < 256)%N) by reflexivity.
  destruct (sextets (N_of_ascii a) (N_of_ascii b) 0 (byte_bound a) (byte_bound b) Hz)
    as [H0 [H1 [H2 [_ [Ha [Hb _]]]]]].
  rewrite N.add_0_r in *.
  unfold Base64.quad.
  rewrite (a2b_digit _ _ 0 _ _ H0), (a2b_digit _ _ 1 _ _ H1),
    (a2b_digit _ _ 2 _ _ H2).
  rewrite Ha, Hb. cbn. now rewrite !ascii_N_embedding.
Qed.

Lemma decode_one (a : ascii) (leftchar : N) :
  Base64Decode.a2b_base64 (Base64.quad (N_of_ascii a * 65536) 2) 0 leftchar 0
  = Some (String a EmptyString).
Proof.
  assert (Hz : (0 < 256)%N) by reflexivity.
  destruct (sextets (N_of_ascii a) 0 0 (byte_bound a) Hz Hz)
    as [H0 [H1 [_ [_ [Ha _]]]]].
  rewrite N.mul_0_l, !N.add_0_r in *.
  unfold Base64.quad.
  rewrite (a2b_digit _ _ 0 _ _ H0), (a2b_digit _ _ 1 _ _ H1).
  rewrite Ha. cbn. now rewrite ascii_N_embedding.
Qed.

Lemma b64decode_of_b64encode :
  forall v : string, Base64Decode.b64decode (Base64.b64encode v) = Some v.
Proof.
  assert (H : forall v,
             Base64Decode.b64decode (Base64.b64encode v) = Some v
             /\ (forall a, Base64Decode.b64decode (Base64.b64encode (String a v))
                           = Some (String a v))
             /\ (forall a b,
                   Base64Decode.b64decode (Base64.b64encode (String a (String b v)))
                   = Some (String a (String b v)))).
  { unfold Base64Decode.b64decode.
    induction v as [|c v [IH0 [IH1 IH2]]].
    - split; [reflexivity|]. split; [intros a; apply decode_one|].
      intros a b. apply decode_two.
    - split; [apply IH1|]. split; [intros a; apply IH2|].
      intros a b. rewrite b64encode_three, decode_three, IH0. reflexivity. }
  apply H.
Qed.

(** X19: Decoding what [to_base64] encoded gives the
    text back: [b64decode(b64encode(v)) = v] for every text [v], so the
    encoding loses nothing and distinct texts have distinct encodings. *)
Theorem b64decode_b64encode_text :
  forall v : string,
    Base64Decode.b64decode (Secret.to_base64 v) = Some v
    /\ forall w, Secret.to_base64 v = Secret.to_base64 w -> v = w.
Proof.
  intros v. unfold Secret.to_base64. split; [apply b64decode_of_b64encode|].
  intros w Hw. apply (f_equal Base64Decode.b64decode) in Hw.
  rewrite !b64decode_of_b64encode in Hw. now injection Hw.
Qed.

(** A password, encoded and decoded. *)
Lemma b64decode_b64encode_text_witness :
  Base64Decode.b64decode (Secret.to_base64 "s3cret") = Some "s3cret".
Proof.
  apply (proj1 (b64decode_b64encode_text "s3cret")).
Defined.

(** ** read_secret, read_configmap *)

Lemma decode_items_encoded (texts : Py.dict string) :
  decode_items (map (fun kv => (fst kv, Secret.to_base64 (snd kv))) texts)
  = Some texts.
Proof.
  induction texts as [|[k v] texts IH]; [reflexivity|].
  cbn [map decode_items fst snd].
  rewrite IH. unfold Secret.to_base64. now rewrite b64decode_of_b64encode.
Qed.

(** X20: [read_secret] undoes the encoding of the values: for
    a Secret whose [data] holds [to_base64] of each text it returns the
    texts, keys and order kept.  It returns [None] when the lookup answers
    404, and raises [AttributeError] when the Secret has no [data]. *)
Theorem read_secret_decodes :
  forall (read_namespaced_secret : api_func V1Secret) (self : KubeApi)
         (name : string) (namespace : option string)
         (sec : V1Secret) (texts : Py.dict string),
    let call := _wrapper_call self name true None (namespace_kwarg namespace) in
    (read_namespaced_secret (fst call) (snd call) = Return sec ->
     (secret_data sec
      = Some (map (fun kv => (fst kv, Secret.to_base64 (snd kv))) texts) ->
      read_secret read_namespaced_secret self name namespace = Return (Some texts))
     /\ (secret_data sec = None ->
         read_secret read_namespaced_secret self name namespace
         = Raise (AttributeError "'NoneType' object has no attribute 'items'")))
    /\ (read_namespaced_secret (fst call) (snd call) = Raise (ApiException 404) ->
        read_secret read_namespaced_secret self name namespace = Return None).
Proof.
  intros f self name namespace sec texts call.
  unfold read_secret, secret_get, _wrapper. fold call.
  destruct call as [args kw]. cbn [fst snd]. split.
  - intros ->. cbn [fst]. split.
    + intros ->. now rewrite decode_items_encoded.
    + intros ->. reflexivity.
  - intros ->. reflexivity.
Qed.

(** The Secret a builder emits for a password given as bytes, read back. *)
Lemma read_secret_decodes_witness :
  read_secret (fun _ _ => Return creds_secret) default_api "creds" (Some "default")
  = Return (Some [("password", "s3cret")]).
Proof.
  apply (proj1 (proj1 (read_secret_decodes (fun _ _ => Return creds_secret)
                         default_api "creds" (Some "default") creds_secret
                         [("password", "s3cret")]) eq_refl) eq_refl).
Defined.

(** X21: [read_secret] and [read_configmap] pass
    their [namespace] parameter on as it is: called without a namespace
    they make the lookup with the namespace [None], not with the default
    namespace of the facade, so their result is decided by what the
    cluster answers for [None]. *)
Theorem read_without_namespace_asks_none :
  forall (read_namespaced_secret : api_func V1Secret)
         (read_namespaced_config_map : api_func V1ConfigMap)
         (self : KubeApi) (name : string),
    fst (_wrapper_call self name true None (namespace_kwarg None))
    = [KStr name; KNone]
    /\ (read_namespaced_secret [KStr name; KNone] [] = Raise (ApiException 404) ->
        read_secret read_namespaced_secret self name None = Return None)
    /\ (read_namespaced_config_map [KStr name; KNone] [] = Raise (ApiException 404) ->
        read_configmap read_namespaced_config_map self name None = Return None).
Proof.
  intros f g self name. split; [reflexivity|]. split.
  - intros H. unfold read_secret, secret_get, _wrapper. cbn. now rewrite H.
  - intros H. unfold read_configmap, configmap_get, _wrapper. cbn. now rewrite H.
Qed.

(** The Secret is in the default namespace, and is not found. *)
Lemma read_without_namespace_asks_none_witness :
  read_secret (only_in_default creds_secret) default_api "creds" None = Return None
  /\ read_secret (only_in_default creds_secret) default_api "creds" (Some "default")
     = Return (Some [("password", "s3cret")]).
Proof.
  split; [|reflexivity].
  apply (proj1 (proj2 (read_without_namespace_asks_none
                         (only_in_default creds_secret)
                         (only_in_default {| configmap_data := None;
                                             configmap_binary_data := None |})
                         default_api "creds")) eq_refl).
Defined.


(** ** Where the output of an exec call goes *)

Lemma drain_file_logger (fs : list frame) (content : string) (level : log_level)
    (records : list string) :
  drain fs (FileWriter content false) (Logger level records)
  = (Return tt,
     (FileWriter (content ++ text_of (delivered on_stdout fs)) false,
      Logger level (records ++ delivered on_stderr fs)%list)).
Proof.
  revert content records.
  induction fs as [|f fs IH]; intros content records; cbn [drain].
  - unfold delivered, text_of. cbn. now rewrite append_empty_r, app_nil_r.
  - unfold delivered in *. cbn [map filter].
    destruct (String.eqb (on_stdout f) EmptyString) eqn:Eo;
      destruct (String.eqb (on_stderr f) EmptyString) eqn:Ee;
      cbn [write negb]; rewrite IH; cbn [text_of fold_right];
      rewrite ?append_assoc, <- ?app_assoc; reflexivity.
Qed.


(** X22: [copy_file_from_pod] leaves the file closed on every
    path: when the stream cannot be opened, when the command fails, when
    it succeeds, for any keyword arguments. *)
Theorem copy_file_from_pod_closes :
  forall (stream : exec_request -> res stream_result) (int : string -> res Z)
         (self : KubeApi) (name remote_path : string) (kw : kwargs),
    exists content,
      snd (copy_file_from_pod stream int self name remote_path kw)
      = FileWriter content true.
Proof.
  intros stream int self name remote_path kw. unfold copy_file_from_pod, _exec.
  destruct (_exec_request self name _ kw) as [request flag].
  destruct (stream request) as [[r|output]|e]; try (eexists; reflexivity).
  rewrite drain_file_logger.
  destruct (kw_truthy flag); [eexists; reflexivity|].
  destruct (negb (String.eqb (status (error_channel r)) "Success"));
    [|eexists; reflexivity].
  destruct (exit_code int (error_channel r)); eexists; reflexivity.
Qed.







(** ** Waiting for pods, for any source *)

Lemma rounds_succ_positive (delay timeout : Z) (k : nat) :
  (0 < delay)%Z -> (S k <= rounds delay timeout)%nat -> (0 < timeout)%Z.
Proof.
  intros Hd Hk. destruct (Z_lt_le_dec 0 timeout) as [H|H]; [exact H|].
  rewrite (rounds_nonpositive delay timeout Hd H) in Hk. lia.
Qed.

Lemma sleep_nonnegative (seconds : Z) :
  (0 <= seconds)%Z -> sleep seconds = Return tt.
Proof.
  intros H. unfold sleep.
  now replace (Z.ltb seconds 0) with false by (symmetry; apply Z.ltb_ge; lia).
Qed.

Lemma settled_false (pod_list : string -> string -> nat -> list V1Pod)
    (label_selector : string) (i : nat) :
  settled pod_list label_selector i = false ->
  negb (Py.truthy (pod_list "status.phase!=Succeeded" label_selector i)) = false
  /\ forallb is_pod_ready (pod_list "status.phase!=Succeeded" label_selector i)
     = false.
Proof. unfold settled. intros H. now apply orb_false_iff in H. Qed.

Lemma wait_loop_settled (pod_list : string -> string -> nat -> list V1Pod)
    (fuel : nat) (label_selector info_msg : string) (delay timeout : Z) (i : nat) :
  settled pod_list label_selector i = true ->
  wait_loop pod_list (S fuel) label_selector info_msg delay timeout i
  = Some (Return tt, []).
Proof.
  unfold settled. intros H. cbn [wait_loop].
  destruct (negb (Py.truthy (pod_list "status.phase!=Succeeded" label_selector i)));
    [reflexivity|].
  cbn [orb] in H. now rewrite H.
Qed.

(** The loop returns at the first listing that is empty or all ready, when
    that listing comes before the timeout. *)
Lemma wait_loop_returns (pod_list : string -> string -> nat -> list V1Pod)
    (label_selector info_msg : string) (delay : Z) :
  (0 < delay)%Z ->
  forall (k fuel : nat) (timeout : Z) (i : nat),
    first_settled pod_list label_selector i k = true ->
    (k <= rounds delay timeout)%nat ->
    (k < fuel)%nat ->
    wait_loop pod_list fuel label_selector info_msg delay timeout i
    = Some (Return tt, loop_trace info_msg delay k).
Proof.
  intros Hd. induction k as [|k IH]; intros fuel timeout i Hfirst Hk Hfuel;
    (destruct fuel as [|fuel]; [lia|]);
    unfold first_settled in Hfirst; apply andb_true_iff in Hfirst;
    destruct Hfirst as [Hbefore Hat].
  - rewrite Nat.add_0_r in Hat. now apply wait_loop_settled.
  - cbn [seq forallb] in Hbefore. apply andb_true_iff in Hbefore.
    destruct Hbefore as [Hi Hrest]. apply negb_true_iff in Hi.
    destruct (settled_false pod_list label_selector i Hi) as [Hne Hnr].
    pose proof (rounds_succ_positive delay timeout k Hd Hk) as Ht.
    cbn [wait_loop]. rewrite Hne, Hnr.
    replace (Z.leb timeout 0) with false by (symmetry; apply Z.leb_gt; lia).
    rewrite sleep_nonnegative by lia.
    rewrite (rounds_positive delay timeout Hd Ht) in Hk.
    rewrite (IH fuel (timeout - delay)%Z (S i)).
    + reflexivity.
    + unfold first_settled. rewrite Hrest. cbn [andb].
      now replace (S i + k)%nat with (i + S k)%nat by lia.
    + lia.
    + lia.
Qed.

(** For any source the loop ends within the rounds of the timeout. *)
Lemma wait_loop_ends (pod_list : string -> string -> nat -> list V1Pod)
    (label_selector info_msg : string) (delay : Z) :
  (0 < delay)%Z ->
  forall (fuel : nat) (timeout : Z) (i : nat),
    (rounds delay timeout < fuel)%nat ->
    exists (r : res unit) (k : nat),
      wait_loop pod_list fuel label_selector info_msg delay timeout i
      = Some (r, loop_trace info_msg delay k)
      /\ (k <= rounds delay timeout)%nat
      /\ ((r = Return tt /\ first_settled pod_list label_selector i k = true)
          \/ (r = Raise (TimeoutError "Wait for scaling: timeout reached!")
              /\ k = rounds delay timeout
              /\ forallb (fun j => negb (settled pod_list label_selector j))
                   (seq i (S k)) = true)).
Proof.
  intros Hd. induction fuel as [|fuel IH]; intros timeout i Hfuel; [lia|].
  destruct (settled pod_list label_selector i) eqn:Hs.
  - exists (Return tt), O. split; [now apply wait_loop_settled|].
    split; [lia|]. left. split; [reflexivity|].
    unfold first_settled. cbn [seq forallb andb]. now rewrite Nat.add_0_r.
  - destruct (settled_false pod_list label_selector i Hs) as [Hne Hnr].
    cbn [wait_loop]. rewrite Hne, Hnr.
    destruct (Z.leb timeout 0) eqn:Ht.
    + apply Z.leb_le in Ht.
      exists (Raise (TimeoutError "Wait for scaling: timeout reached!")), O.
      rewrite (rounds_nonpositive delay timeout Hd Ht).
      split; [reflexivity|]. split; [lia|]. right.
      split; [reflexivity|]. split; [reflexivity|].
      cbn [seq forallb]. now rewrite Hs.
    + apply Z.leb_gt in Ht. rewrite sleep_nonnegative by lia.
      rewrite (rounds_positive delay timeout Hd Ht) in *.
      destruct (IH (timeout - delay)%Z (S i) ltac:(lia))
        as [r [k [Hrun [Hk Hout]]]].
      rewrite Hrun. exists r, (S k). split; [reflexivity|]. split; [lia|].
      destruct Hout as [[Hr Hfirst]|[Hr [Hkr Hnone]]].
      * left. split; [exact Hr|].
        unfold first_settled in *. cbn [seq forallb]. rewrite Hs. cbn [negb andb].
        now replace (i + S k)%nat with (S i + k)%nat by lia.
      * right. split; [exact Hr|]. split; [now rewrite Hkr|].
        change (seq i (S (S k))) with (i :: seq (S i) (S k)).
        cbn [forallb]. rewrite Hs. exact Hnone.
Qed.

(** X26: [wait_pods] returns at the first listing that is empty
    or all ready: if that is listing [k] (counted from 0) and [k] is at
    most [timeout / delay] rounded up, the call returns after sleeping
    [start_delay] once and [delay] [k] times, however the later listings
    look. *)
Theorem wait_pods_returns_at_first_settled_listing :
  forall (pod_list : string -> string -> nat -> list V1Pod)
         (label_selector msg : string) (delay timeout start_delay : Z) (k : nat),
    (0 < delay)%Z -> (0 <= start_delay)%Z ->
    first_settled pod_list label_selector 0 k = true ->
    (k <= rounds delay timeout)%nat ->
    exists tr : list event,
      (forall fuel, (k < fuel)%nat ->
         wait_pods pod_list fuel label_selector msg delay timeout start_delay
         = Some (Return tt, tr))
      /\ ticks tr = start_delay :: repeat delay k
      /\ seconds_slept tr = (start_delay + delay * Z.of_nat k)%Z.
Proof.
  intros pod_list label_selector msg delay timeout start_delay k Hd Hs Hfirst Hk.
  set (info_msg := "wait " ++ (if String.eqb msg EmptyString then "scaling" else msg)
                     ++ " ...").
  exists (Logged info_msg :: Slept start_delay :: loop_trace info_msg delay k).
  split; [|split].
  - intros fuel Hfuel. unfold wait_pods. fold info_msg.
    rewrite sleep_nonnegative by exact Hs.
    now rewrite (wait_loop_returns pod_list label_selector info_msg delay Hd
                   k fuel timeout 0%nat Hfirst Hk Hfuel).
  - cbn [ticks]. now rewrite ticks_loop_trace.
  - cbn [seconds_slept]. now rewrite seconds_slept_loop_trace.
Qed.

(** A pod that is ready from the third listing on, with the defaults of
    [wait_pods]: the call returns after 3 + 3 + 3 seconds. *)
Lemma wait_pods_returns_at_first_settled_listing_witness :
  exists tr : list event,
    (forall fuel, (2 < fuel)%nat ->
       wait_pods (ready_from 2) fuel "app=web" EmptyString 3 120 3
       = Some (Return tt, tr))
    /\ ticks tr = [3; 3; 3]%Z
    /\ seconds_slept tr = 9%Z.
Proof.
  exact (wait_pods_returns_at_first_settled_listing (ready_from 2) "app=web"
           EmptyString 3 120 3 2 ltac:(lia) ltac:(lia) eq_refl
           ltac:(vm_compute; lia)).
Defined.

(** X27: For every source of listings, [delay > 0] and
    [start_delay >= 0], [wait_pods] ends: it returns or raises the timeout,
    and nothing else, after at most [timeout / delay] rounded up rounds.
    It has then slept at least [start_delay] and, for [timeout >= 0], less
    than [start_delay + timeout + delay] seconds; it raises the timeout
    only if none of the listings it made was empty or all ready. *)
Theorem wait_pods_always_ends :
  forall (pod_list : string -> string -> nat -> list V1Pod)
         (label_selector msg : string) (delay timeout start_delay : Z),
    (0 < delay)%Z -> (0 <= start_delay)%Z ->
    exists (r : res unit) (tr : list event) (k : nat),
      (forall fuel, (rounds delay timeout < fuel)%nat ->
         wait_pods pod_list fuel label_selector msg delay timeout start_delay
         = Some (r, tr))
      /\ (k <= rounds delay timeout)%nat
      /\ ticks tr = start_delay :: repeat delay k
      /\ seconds_slept tr = (start_delay + delay * Z.of_nat k)%Z
      /\ ((0 <= timeout)%Z ->
          (start_delay <= seconds_slept tr < start_delay + timeout + delay)%Z)
      /\ ((r = Return tt /\ first_settled pod_list label_selector 0 k = true)
          \/ (r = Raise (TimeoutError "Wait for scaling: timeout reached!")
              /\ k = rounds delay timeout
              /\ forallb (fun j => negb (settled pod_list label_selector j))
                   (seq 0 (S k)) = true)).
Proof.
  intros pod_list label_selector msg delay timeout start_delay Hd Hs.
  set (info_msg := "wait " ++ (if String.eqb msg EmptyString then "scaling" else msg)
                     ++ " ...").
  destruct (wait_loop_ends pod_list label_selector info_msg delay Hd
              (S (rounds delay timeout)) timeout 0%nat ltac:(lia))
    as [r [k [Hrun [Hk Hout]]]].
  exists r, (Logged info_msg :: Slept start_delay :: loop_trace info_msg delay k), k.
  assert (Hslept : seconds_slept
                     (Logged info_msg :: Slept start_delay
                        :: loop_trace info_msg delay k)
                   = (start_delay + delay * Z.of_nat k)%Z).
  { cbn [seconds_slept]. now rewrite seconds_slept_loop_trace. }
  split; [|split; [exact Hk|split; [|split; [exact Hslept|split; [|exact Hout]]]]].
  - intros fuel Hfuel. unfold wait_pods. fold info_msg.
    rewrite sleep_nonnegative by exact Hs.
    destruct (wait_loop_ends pod_list label_selector info_msg delay Hd
                fuel timeout 0%nat Hfuel) as [r' [k' [Hrun' [Hk' Hout']]]].
    rewrite Hrun'.
    assert (Hsame : r' = r /\ k' = k).
    { destruct Hout as [[Hr Hfirst]|[Hr [Hkr Hnone]]];
        destruct Hout' as [[Hr' Hfirst']|[Hr' [Hkr' Hnone']]].
      - split; [congruence|].
        rewrite (wait_loop_returns pod_list label_selector info_msg delay Hd
                   k' (S (rounds delay timeout)) timeout 0%nat Hfirst' Hk' ltac:(lia))
          in Hrun.
        injection Hrun as _ Htr.
        apply (f_equal ticks) in Htr. rewrite !ticks_loop_trace in Htr.
        apply (f_equal (@List.length Z)) in Htr. now rewrite !repeat_length in Htr.
      - exfalso.
        rewrite (wait_loop_returns pod_list label_selector info_msg delay Hd
                   k fuel timeout 0%nat Hfirst Hk ltac:(lia)) in Hrun'.
        congruence.
      - exfalso.
        rewrite (wait_loop_returns pod_list label_selector info_msg delay Hd
                   k' (S (rounds delay timeout)) timeout 0%nat Hfirst' Hk' ltac:(lia))
          in Hrun.
        congruence.
      - split; congruence. }
    destruct Hsame as [-> ->]. reflexivity.
  - cbn [ticks]. now rewrite ticks_loop_trace.
  - intros Ht. rewrite Hslept.
    assert (Hq : (0 <= (timeout + delay - 1) / delay)%Z) by (apply Z.div_pos; lia).
    pose proof (Z.mul_div_le (timeout + delay - 1) delay Hd) as Hle.
    assert (Hkz : (Z.of_nat k <= (timeout + delay - 1) / delay)%Z).
    { unfold rounds in Hk. lia. }
    nia.
Qed.

(** With the defaults of [wait_pods] and a pod that is ready from the
    third listing on. *)
Lemma wait_pods_always_ends_witness :
  exists (r : res unit) (tr : list event) (k : nat),
    (forall fuel, (rounds 3 120 < fuel)%nat ->
       wait_pods (ready_from 2) fuel "app=web" EmptyString 3 120 3 = Some (r, tr))
    /\ (seconds_slept tr < 3 + 120 + 3)%Z.
Proof.
  destruct (wait_pods_always_ends (ready_from 2) "app=web" EmptyString 3 120 3
              ltac:(lia) ltac:(lia))
    as [r [tr [k [Hrun [_ [_ [_ [Hbound _]]]]]]]].
  exists r, tr, k. split; [exact Hrun|]. apply Hbound. lia.
Defined.


(** ** The delete methods *)







(** ** scale_down_all *)

Lemma scale_without_wait (pods pods' : string -> string -> nat -> list V1Pod)
    (fuel fuel' : nat) (self : KubeApi) (func : api_func workload) (name : string)
    (replicas : Z) (kw : kwargs) :
  _scale pods fuel self func name replicas false kw
  = _scale pods' fuel' self func name replicas false kw
  /\ _scale pods fuel self func name replicas false kw <> None.
Proof.
  unfold _scale.
  destruct (_wrapper self func name true true None
              (Py.set kw "body" (KScaleBody replicas))) as [[[resp|]|e] logs].
  - destruct (kind resp); split; (reflexivity || discriminate).
  - split; (reflexivity || discriminate).
  - split; (reflexivity || discriminate).
Qed.

Lemma scale_each_without_wait
    (scale scale' : string -> option (res workload * list log_record))
    (items : list workload_item) :
  (forall name, scale name = scale' name /\ scale name <> None) ->
  scale_each scale items = scale_each scale' items
  /\ scale_each scale items <> None.
Proof.
  intros H. induction items as [|item rest [IHeq IHsome]]; cbn [scale_each].
  - split; (reflexivity || discriminate).
  - destruct (truthy_replicas (item_replicas item)); [|now split].
    destruct (H (item_name item)) as [Heq Hsome]. rewrite <- Heq, <- IHeq.
    destruct (scale (item_name item)) as [[[w|e] logs]|]; [| |contradiction].
    + destruct (scale_each scale rest) as [[r logs']|]; [|contradiction].
      split; (reflexivity || discriminate).
    + split; (reflexivity || discriminate).
Qed.

(** X30: [scale_down_all] scales without waiting, so it ends
    whatever the pods do, and it stops at the first failure: when the
    patch of the first Deployment with replicas answers 404, the call
    raises the [AttributeError] of [_scale] and neither lists nor patches
    a StatefulSet. *)
Theorem scale_down_all_stops_at_first_failure :
  forall (list_namespaced_deployment list_namespaced_stateful_set
            list_namespaced_stateful_set' : api_func (list workload_item))
         (pods pods' : string -> string -> nat -> list V1Pod)
         (patch_namespaced_deployment patch_namespaced_stateful_set
            patch_namespaced_stateful_set' : api_func workload)
         (fuel fuel' : nat) (self : KubeApi),
    (scale_down_all list_namespaced_deployment list_namespaced_stateful_set pods
       patch_namespaced_deployment patch_namespaced_stateful_set fuel self
     = scale_down_all list_namespaced_deployment list_namespaced_stateful_set pods'
         patch_namespaced_deployment patch_namespaced_stateful_set fuel' self
     /\ scale_down_all list_namespaced_deployment list_namespaced_stateful_set pods
          patch_namespaced_deployment patch_namespaced_stateful_set fuel self
        <> None)
    /\ (forall (idle : list workload_item) (item : workload_item)
               (rest : list workload_item),
           list_namespaced_deployment [KStr (_ns self)] []
           = Return (idle ++ item :: rest)%list ->
           forallb (fun i => negb (truthy_replicas (item_replicas i))) idle = true ->
           truthy_replicas (item_replicas item) = true ->
           patch_namespaced_deployment [KStr (item_name item); KStr (_ns self)]
             [("body", KScaleBody 0)]
           = Raise (ApiException 404) ->
           scale_down_all list_namespaced_deployment list_namespaced_stateful_set
             pods patch_namespaced_deployment patch_namespaced_stateful_set fuel self
           = Some (Raise (AttributeError "'NoneType' object has no attribute 'kind'"),
                   [(DEBUG, LogException (ApiException 404))])
           /\ scale_down_all list_namespaced_deployment list_namespaced_stateful_set'
                pods patch_namespaced_deployment patch_namespaced_stateful_set'
                fuel self
              = scale_down_all list_namespaced_deployment
                  list_namespaced_stateful_set pods patch_namespaced_deployment
                  patch_namespaced_stateful_set fuel self).
Proof.
  intros list_d list_s list_s' pods pods' patch_d patch_s patch_s' fuel fuel' self.
  split.
  - unfold scale_down_all.
    destruct (deployment_list (list workload_item) list_d self []) as [ds|e];
      [|split; (reflexivity || discriminate)].
    destruct (scale_each_without_wait
                (fun name => scale_deployment pods patch_d fuel self name 0 false [])
                (fun name => scale_deployment pods' patch_d fuel' self name 0 false [])
                ds) as [Hd Hds].
    { intros name. apply scale_without_wait. }
    rewrite <- Hd.
    destruct (scale_each _ ds) as [[[u|e] logs]|]; [| |contradiction].
    + destruct (stateful_set_list (list workload_item) list_s self []) as [ss|e];
        [|split; (reflexivity || discriminate)].
      destruct (scale_each_without_wait
                  (fun name => scale_stateful_set pods patch_s fuel self name 0
                                 false [])
                  (fun name => scale_stateful_set pods' patch_s fuel' self name 0
                                 false [])
                  ss) as [Hs Hss].
      { intros name. apply scale_without_wait. }
      rewrite <- Hs.
      destruct (scale_each _ ss) as [[r logs']|]; [|contradiction].
      split; (reflexivity || discriminate).
    + split; (reflexivity || discriminate).
  - intros idle item rest Hlist Hidle Hitem Hpatch.
    assert (Hstop : forall p,
               scale_each
                 (fun name => scale_deployment p patch_d fuel self name 0 false [])
                 (idle ++ item :: rest)%list
               = Some (Raise (AttributeError
                                "'NoneType' object has no attribute 'kind'"),
                       [(DEBUG, LogException (ApiException 404))])).
    { intros p. clear Hlist.
      induction idle as [|i idle IH]; cbn [app scale_each].
      - rewrite Hitem. unfold scale_deployment, _scale, _wrapper, _wrapper_call.
        cbn [Py.set Py.pop Py.get String.eqb Ascii.eqb Bool.eqb].
        change (Py.pop [("body", KScaleBody 0)] "namespace" (KStr (_ns self)))
          with (KStr (_ns self), [("body", KScaleBody 0)]).
        cbv beta iota. rewrite Hpatch. reflexivity.
      - cbn [forallb] in Hidle. apply andb_true_iff in Hidle.
        destruct Hidle as [Hi Hidle]. apply negb_true_iff in Hi. rewrite Hi.
        now apply IH. }
    unfold scale_down_all, deployment_list. rewrite Hlist, !Hstop.
    split; reflexivity.
Qed.

(** Two Deployments, the first of them gone from the cluster: nothing
    after it is scaled. *)
Lemma scale_down_all_stops_at_first_failure_witness :
  scale_down_all
    (fun _ _ => Return [{| item_name := "gone"; item_replicas := Some 2%Z |};
                        {| item_name := "web"; item_replicas := Some 1%Z |}])
    (fun _ _ => Return [{| item_name := "db"; item_replicas := Some 1%Z |}])
    one_unready_pod (failing workload 404) (failing workload 500) 0 default_api
  = Some (Raise (AttributeError "'NoneType' object has no attribute 'kind'"),
          [(DEBUG, LogException (ApiException 404))]).
Proof.
  refine (proj1 (proj2 (scale_down_all_stops_at_first_failure
            (fun _ _ => Return [{| item_name := "gone"; item_replicas := Some 2%Z |};
                                {| item_name := "web"; item_replicas := Some 1%Z |}])
            (fun _ _ => Return [{| item_name := "db"; item_replicas := Some 1%Z |}])
            (fun _ _ => Return [])
            one_unready_pod one_unready_pod
            (failing workload 404) (failing workload 500) (failing workload 500)
            0 0 default_api)
          [] {| item_name := "gone"; item_replicas := Some 2%Z |}
          [{| item_name := "web"; item_replicas := Some 1%Z |}]
          eq_refl eq_refl eq_refl eq_refl)).
Defined.
